(** * Web3 sign-in and envelope encryption: a shallow embedding

    This development embeds the two Go packages of the repository

      - [provider]: [Web3Provider], [NewWeb3Provider], [GenerateSignMessage],
                    [VerifySignedMessage] and its two verifiers;
      - [crypto]:   [EncryptedString] and its methods, [deriveSymmetricKey],
                    [NewEncryptedString], [VerifySIWS], [VerifyEthereumSignature],
                    [SecureToken], [GenerateTokenHash];

    as Rocq functions and proves properties of them.  It has five parts: the
    embedding, the vocabulary of the statements, executable stand-ins for
    the imported packages, concrete inputs, and the properties.

    Conventions.
      - A Go [string] is a [string] (a sequence of 8-bit characters), a [[]byte]
        is a [list byte], a [map[string]T] is a [gmap string T].
      - A Go function returning [(T, error)] returns a [result T]; one returning
        only [error] returns an [option error], [None] being Go's [nil].  A
        function that can panic returns an [outcome].
      - The wall clock and the random source are explicit arguments.
      - Packages the repository imports but does not contain (go-ethereum,
        x/crypto/hkdf, crypto/aes, crypto/cipher, crypto/ed25519,
        crypto/sha256, net/url, encoding/json, the padded standard alphabet
        of encoding/base64, btcutil/base58, and the repository's own [conf]
        and [siws] packages, which are not part of the verified sources) are
        interfaces: type classes whose fields are the imported functions and
        whose laws are the documented facts the proofs rely on.
      - [encoding/hex], [encoding/base64] (raw URL alphabet) and [strings] are
        small enough to be written out. *)

From Stdlib Require Import ZArith NArith List String Ascii Bool Lia.
From Stdlib Require Import Strings.Byte.
From stdpp Require Import base option list strings gmap pretty.

Local Open Scope string_scope.

(** ** Go values *)

Abbreviation byte := Byte.byte.

(** Go errors.  [errors_New] is [errors.New] with its text; [fmt_Errorf] is
    [fmt.Errorf] with its format and the arguments of its verbs, not
    rendered; [fmt_Errorf_w] is [fmt.Errorf] whose format ends in [%w], with
    the text before the verb and the wrapped error.  The sentinel errors of
    package [siws] and the errors of the written-out codecs are constructors
    of their own; [lib_error] is an error made inside an imported package. *)
Inductive siws_error : Type :=
| ErrEmptyRawMessage
| ErrEmptySignature
| ErrNilMessage
| ErrMissingDomain
| ErrInvalidDomainFormat
| ErrDomainMismatch
| ErrInvalidPubKeySize
| ErrInvalidVersion
| ErrInvalidChainID
| ErrNonceTooShort
| ErrInvalidURI
| ErrInvalidResourceURI
| ErrSignatureVerification
| ErrFutureMessage
| ErrMessageExpired
| ErrNotYetValid.

Inductive error : Type :=
| errors_New (msg : string)
| fmt_Errorf_w (msg : string) (cause : error)
| siws_Err (e : siws_error)
| hex_ErrLength
| hex_InvalidByteError (c : ascii)
| base64_CorruptInputError
| fmt_Errorf (format : string) (args : list string)
| lib_error (pkg : string) (msg : string).

Inductive result (A : Type) : Type :=
| Ok (a : A)
| Err (e : error).
Arguments Ok {A} a.
Arguments Err {A} e.

Definition is_Ok {A} (r : result A) : bool :=
  match r with Ok _ => true | Err _ => false end.

(** ** Bytes *)

Definition byte_val (b : byte) : N := Byte.to_N b.

(** The byte with value [n mod 256]: Go's arithmetic on [byte] wraps. *)
Definition byte_wrap (n : N) : byte :=
  match Byte.of_N (n mod 256) with
  | Some b => b
  | None => Byte.x00
  end.

(** Go's [[]byte(s)] and [string(b)]. *)
Definition bytes_of_string (s : string) : list byte := list_byte_of_string s.
Definition string_of_bytes (b : list byte) : string := string_of_list_byte b.

(** ** Package strings *)

Fixpoint string_drop (n : nat) (s : string) : string :=
  match n, s with
  | O, _ => s
  | S n', String _ s' => string_drop n' s'
  | S _, EmptyString => EmptyString
  end.

Definition strings_HasPrefix (s pre : string) : bool := String.prefix pre s.

Definition strings_TrimPrefix (s pre : string) : string :=
  if strings_HasPrefix s pre then string_drop (String.length pre) s else s.

(** ** Package encoding/hex *)

Definition hextable : list ascii :=
  list_ascii_of_string "0123456789abcdef".

Definition hex_digit (n : N) : ascii :=
  nth (N.to_nat n) hextable "0"%char.

Definition fromHexChar (c : ascii) : option N :=
  let n := N_of_ascii c in
  if (48 <=? n)%N && (n <=? 57)%N then Some (n - 48)%N
  else if (97 <=? n)%N && (n <=? 102)%N then Some (n - 97 + 10)%N
  else if (65 <=? n)%N && (n <=? 70)%N then Some (n - 65 + 10)%N
  else None.

(** [hex.DecodeString]: pairs of digits from the left; the first character
    that is no hex digit gives [InvalidByteError], an odd length [ErrLength]. *)
Fixpoint hex_DecodeString (s : string) : result (list byte) :=
  match s with
  | EmptyString => Ok []
  | String a EmptyString =>
      match fromHexChar a with
      | None => Err (hex_InvalidByteError a)
      | Some _ => Err hex_ErrLength
      end
  | String a (String b rest) =>
      match fromHexChar a with
      | None => Err (hex_InvalidByteError a)
      | Some x =>
          match fromHexChar b with
          | None => Err (hex_InvalidByteError b)
          | Some y =>
              match hex_DecodeString rest with
              | Ok bs => Ok (byte_wrap (x * 16 + y) :: bs)
              | Err e => Err e
              end
          end
      end
  end.

(** [hex.EncodeToString]. *)
Fixpoint hex_EncodeToString (bs : list byte) : string :=
  match bs with
  | [] => EmptyString
  | b :: bs' =>
      String (hex_digit (byte_val b / 16))
        (String (hex_digit (byte_val b mod 16)) (hex_EncodeToString bs'))
  end.

(** ** go-ethereum: crypto and common *)

Class EthCrypto : Type := {
  PublicKey : Type;
  Address : Type;
  Address_eq_dec :: EqDecision Address;
  (** [crypto.Keccak256Hash(b).Bytes()] *)
  crypto_Keccak256Hash : list byte -> list byte;
  (** [crypto.SigToPub(hash, sig)] *)
  crypto_SigToPub : list byte -> list byte -> result PublicKey;
  (** [crypto.PubkeyToAddress(pub)] *)
  crypto_PubkeyToAddress : PublicKey -> Address;
  (** [common.HexToAddress(s)] *)
  common_HexToAddress : string -> Address;
}.

(** ** Package crypto: Ethereum signatures *)

Definition removeHexPrefix (signature : string) : string :=
  if strings_HasPrefix signature "0x" then strings_TrimPrefix signature "0x"
  else signature.

(** The literal ["\x19Ethereum Signed Message:\n"]. *)
Definition eip191_prefix : string :=
  String (ascii_of_nat 25)
    ("Ethereum Signed Message:" ++ String (ascii_of_nat 10) EmptyString).

(** [if sigBytes[64] < 27 { sigBytes[64] += 27 }] *)
Definition adjustV (sigBytes : list byte) : list byte :=
  match sigBytes !! 64%nat with
  | Some v =>
      if (byte_val v <? 27)%N then <[64%nat := byte_wrap (byte_val v + 27)]> sigBytes
      else sigBytes
  | None => sigBytes
  end.

Definition VerifyEthereumSignature `{EthCrypto}
    (message signature address : string) : option error :=
  let signature := removeHexPrefix signature in
  let address := removeHexPrefix address in
  match hex_DecodeString signature with
  | Err err => Some (fmt_Errorf_w "siwe: invalid signature hex: " err)
  | Ok sigBytes =>
      if negb (length sigBytes =? 65)%nat then
        Some (fmt_Errorf "siwe: invalid signature length" [])
      else
        let sigBytes := adjustV sigBytes in
        let prefixedMessage :=
          eip191_prefix ++ pretty (String.length message) ++ message in
        let hash := crypto_Keccak256Hash (bytes_of_string prefixedMessage) in
        match crypto_SigToPub hash sigBytes with
        | Err err => Some (fmt_Errorf_w "siwe: error recovering public key: " err)
        | Ok pubKey =>
            let recoveredAddr := crypto_PubkeyToAddress pubKey in
            let checkAddr := common_HexToAddress address in
            if decide (recoveredAddr = checkAddr) then None
            else Some (fmt_Errorf "siwe: signature not from expected address" [])
        end
  end.

(** ** Panics

    [must(v, err)] panics when [err] is not nil.  A computation that can panic
    returns an [outcome]. *)
Inductive outcome (A : Type) : Type :=
| Return (a : A)
| Panic (e : error).
Arguments Return {A} a.
Arguments Panic {A} e.

#[global] Instance outcome_ret : MRet outcome := fun A a => Return a.
#[global] Instance outcome_bind : MBind outcome := fun A B f m =>
  match m with
  | Return a => f a
  | Panic e => Panic e
  end.

Definition must {A} (r : result A) : outcome A :=
  match r with
  | Ok a => Return a
  | Err e => Panic e
  end.

(** ** Package encoding/base64, [RawURLEncoding] *)

Definition encodeURL : list ascii :=
  list_ascii_of_string
    "ABCDEFGHIJKLMNOPQRSTUVWXYZabcdefghijklmnopqrstuvwxyz0123456789-_".

Definition b64_char (n : N) : ascii :=
  nth (N.to_nat n) encodeURL "A"%char.

(** The decode map of the alphabet; [None] for a character outside it. *)
Definition b64_index (c : ascii) : option N :=
  let n := N_of_ascii c in
  if (65 <=? n)%N && (n <=? 90)%N then Some (n - 65)%N
  else if (97 <=? n)%N && (n <=? 122)%N then Some (n - 97 + 26)%N
  else if (48 <=? n)%N && (n <=? 57)%N then Some (n - 48 + 52)%N
  else if (n =? 45)%N then Some 62%N
  else if (n =? 95)%N then Some 63%N
  else None.

(** [EncodeToString] without padding: three bytes give four characters, a
    remainder of one or two bytes gives two or three. *)
Fixpoint base64_RawURLEncoding_EncodeToString (src : list byte) : string :=
  match src with
  | [] => EmptyString
  | [a] =>
      let val := N.shiftl (byte_val a) 16 in
      String (b64_char (N.land (N.shiftr val 18) 63))
        (String (b64_char (N.land (N.shiftr val 12) 63)) EmptyString)
  | [a; b] =>
      let val := N.lor (N.shiftl (byte_val a) 16) (N.shiftl (byte_val b) 8) in
      String (b64_char (N.land (N.shiftr val 18) 63))
        (String (b64_char (N.land (N.shiftr val 12) 63))
           (String (b64_char (N.land (N.shiftr val 6) 63)) EmptyString))
  | a :: b :: c :: rest =>
      let val :=
        N.lor (N.lor (N.shiftl (byte_val a) 16) (N.shiftl (byte_val b) 8))
          (byte_val c) in
      String (b64_char (N.land (N.shiftr val 18) 63))
        (String (b64_char (N.land (N.shiftr val 12) 63))
           (String (b64_char (N.land (N.shiftr val 6) 63))
              (String (b64_char (N.land val 63))
                 (base64_RawURLEncoding_EncodeToString rest))))
  end.

(** The six-bit values of the input, carriage returns and line feeds
    skipped; [None] when a character is outside the alphabet. *)
Fixpoint b64_sextets (s : string) : option (list N) :=
  match s with
  | EmptyString => Some []
  | String c s' =>
      if (N_of_ascii c =? 10)%N || (N_of_ascii c =? 13)%N then b64_sextets s'
      else
        match b64_index c with
        | None => None
        | Some n =>
            match b64_sextets s' with
            | None => None
            | Some l => Some (n :: l)
            end
        end
  end.

(** Four six-bit values give three bytes; a last group of two or three gives
    one or two bytes (the unused low bits are not checked: the encoding is
    not strict); a last group of one is corrupt. *)
Fixpoint b64_quanta (l : list N) : option (list byte) :=
  match l with
  | [] => Some []
  | [_] => None
  | [a; b] =>
      let val := N.lor (N.shiftl a 18) (N.shiftl b 12) in
      Some [byte_wrap (N.shiftr val 16)]
  | [a; b; c] =>
      let val := N.lor (N.lor (N.shiftl a 18) (N.shiftl b 12)) (N.shiftl c 6) in
      Some [byte_wrap (N.shiftr val 16); byte_wrap (N.shiftr val 8)]
  | a :: b :: c :: d :: rest =>
      let val :=
        N.lor (N.lor (N.lor (N.shiftl a 18) (N.shiftl b 12)) (N.shiftl c 6)) d in
      match b64_quanta rest with
      | None => None
      | Some bs =>
          Some (byte_wrap (N.shiftr val 16) :: byte_wrap (N.shiftr val 8)
                  :: byte_wrap val :: bs)
      end
  end.

(** [DecodeString]; the offset carried by Go's [CorruptInputError] is not
    modelled. *)
Definition base64_RawURLEncoding_DecodeString (s : string) : result (list byte) :=
  match b64_sextets s with
  | None => Err base64_CorruptInputError
  | Some l =>
      match b64_quanta l with
      | None => Err base64_CorruptInputError
      | Some bs => Ok bs
      end
  end.

(** ** crypto/rand

    [rand.Reader] is the sequence of bytes it will deliver; reading consumes a
    prefix.  Reading from it does not fail. *)
Definition RandReader : Type := nat -> byte.

Definition rand_ReadFull (r : RandReader) (n : nat) : list byte * RandReader :=
  (map r (seq 0 n), fun i => r (n + i)%nat).

(** ** x/crypto/hkdf, crypto/aes and crypto/cipher *)

(** [cipher: message authentication failed], the only error [Open] returns. *)
Definition cipher_errOpen : error :=
  errors_New "cipher: message authentication failed".

Class EnvelopeCrypto : Type := {
  (** The first [n] bytes read from [hkdf.New(sha256.New, secret, salt, info)],
      for [n] within the reader's limit of 255 hash blocks. *)
  hkdf_sha256 : list byte -> list byte -> list byte -> nat -> list byte;
  hkdf_sha256_length : forall secret salt info n,
    (n <= 255 * 32)%nat -> length (hkdf_sha256 secret salt info n) = n;
  (** AES-GCM with the standard 12-byte nonce and 16-byte tag under a key of
      16, 24 or 32 bytes: [Seal(nil, nonce, plaintext, additionalData)] and
      [Open(nil, nonce, ciphertext, additionalData)]. *)
  gcm_Seal : list byte -> list byte -> list byte -> list byte -> list byte;
  gcm_Open : list byte -> list byte -> list byte -> list byte -> result (list byte);
  gcm_Open_Seal : forall key nonce plaintext ad,
    gcm_Open key nonce (gcm_Seal key nonce plaintext ad) ad = Ok plaintext;
  gcm_Seal_length : forall key nonce plaintext ad,
    length (gcm_Seal key nonce plaintext ad) = (length plaintext + 16)%nat;
  gcm_Open_error : forall key nonce ciphertext ad e,
    gcm_Open key nonce ciphertext ad = Err e -> e = cipher_errOpen;
}.

(** [io.ReadFull(hkdf.New(sha256.New, secret, salt, info), buf)] with
    [len(buf) = n]: the reader refuses to deliver more than 255 blocks. *)
Definition hkdf_ReadFull `{EnvelopeCrypto}
    (secret salt info : list byte) (n : nat) : result (list byte) :=
  if (n <=? 255 * 32)%nat then Ok (hkdf_sha256 secret salt info n)
  else Err (lib_error "hkdf" "entropy limit reached").

(** [aes.NewCipher]: the block is its key; other key sizes are refused. *)
Definition aes_NewCipher (key : list byte) : result (list byte) :=
  if (length key =? 16)%nat || (length key =? 24)%nat || (length key =? 32)%nat
  then Ok key
  else Err (lib_error "crypto/aes" "invalid key size").

(** [cipher.NewGCM] accepts every 128-bit block cipher. *)
Definition cipher_NewGCM (block : list byte) : result (list byte) := Ok block.

(** [Seal] and [Open] panic on a nonce that is not 12 bytes long. *)
Definition cipher_Seal `{EnvelopeCrypto}
    (aead nonce plaintext ad : list byte) : outcome (list byte) :=
  if (length nonce =? 12)%nat then Return (gcm_Seal aead nonce plaintext ad)
  else Panic (lib_error "crypto/cipher" "incorrect nonce length given to GCM").

Definition cipher_Open `{EnvelopeCrypto}
    (aead nonce ciphertext ad : list byte) : outcome (result (list byte)) :=
  if (length nonce =? 12)%nat then Return (gcm_Open aead nonce ciphertext ad)
  else Panic (lib_error "crypto/cipher" "incorrect nonce length given to GCM").

(** ** Package crypto: tokens and encrypted strings *)

(** [SecureToken]: 16 bytes of the random source, in raw URL base64. *)
Definition SecureToken (r : RandReader) : string * RandReader :=
  let '(b, r') := rand_ReadFull r 16 in
  (base64_RawURLEncoding_EncodeToString b, r').

Record EncryptedString : Type := mkEncryptedString {
  KeyID : string;
  Algorithm : string;
  Data : list byte;
  Nonce : list byte;
}.

Definition IsValid (es : EncryptedString) : bool :=
  bool_decide (KeyID es <> EmptyString)
  && (0 <? length (Data es))%nat
  && (0 <? length (Nonce es))%nat
  && bool_decide (Algorithm es = "aes-gcm-hkdf").

Definition ShouldReEncrypt (es : EncryptedString) (encryptionKeyID : string) : bool :=
  bool_decide (KeyID es <> encryptionKeyID).

Definition deriveSymmetricKey `{EnvelopeCrypto}
    (id keyID keyBase64URL : string) : outcome (result (list byte)) :=
  match base64_RawURLEncoding_DecodeString keyBase64URL with
  | Err err => Return (Err err)
  | Ok hkdfKey =>
      if negb (length hkdfKey =? 256 / 8)%nat then
        Return (Err (fmt_Errorf "crypto: key with ID %q is not 256 bits" [keyID]))
      else
        key ← must (hkdf_ReadFull hkdfKey [] (bytes_of_string id) (256 / 8));
        Return (Ok key)
  end.

Definition NewEncryptedString `{EnvelopeCrypto}
    (id : string) (data : list byte) (keyID keyBase64URL : string)
    (r : RandReader) : outcome (result EncryptedString * RandReader) :=
  derived ← deriveSymmetricKey id keyID keyBase64URL;
  match derived with
  | Err err => Return (Err err, r)
  | Ok key =>
      block ← must (aes_NewCipher key);
      cipher ← must (cipher_NewGCM block);
      let '(nonce, r') := rand_ReadFull r 12 in
      sealed ← cipher_Seal cipher nonce data [];
      Return (Ok {| KeyID := keyID; Algorithm := "aes-gcm-hkdf";
                    Nonce := nonce; Data := sealed |}, r')
  end.

(** A missing key reads as the empty string, as in a Go map. *)
Definition Decrypt `{EnvelopeCrypto}
    (es : EncryptedString) (id : string) (decryptionKeys : gmap string string)
    : outcome (result (list byte)) :=
  let decryptionKey := default EmptyString (decryptionKeys !! KeyID es) in
  if bool_decide (decryptionKey = EmptyString) then
    Return (Err (fmt_Errorf "crypto: decryption key with name %q does not exist"
                   [KeyID es]))
  else
    derived ← deriveSymmetricKey id (KeyID es) decryptionKey;
    match derived with
    | Err err => Return (Err err)
    | Ok key =>
        block ← must (aes_NewCipher key);
        cipher ← must (cipher_NewGCM block);
        opened ← cipher_Open cipher (Nonce es) (Data es) [];
        match opened with
        | Err err => Return (Err err)
        | Ok decrypted => Return (Ok decrypted)
        end
    end.

(** ** encoding/json, for [EncryptedString] *)

Class EnvelopeJSON : Type := {
  (** [json.Unmarshal([]byte(str), &es)] from the zero value of [es]. *)
  json_Unmarshal : string -> result EncryptedString;
  (** [json.Marshal(es)] *)
  json_Marshal : EncryptedString -> result string;
}.

Definition ParseEncryptedString `{EnvelopeJSON} (str : string) : option EncryptedString :=
  if negb (strings_HasPrefix str "{") then None
  else
    match json_Unmarshal str with
    | Err _ => None
    | Ok es => if negb (IsValid es) then None else Some es
    end.

Definition EncryptedString_String `{EnvelopeJSON} (es : EncryptedString) : outcome string :=
  out ← must (json_Marshal es);
  Return out.

(** All bytes of the text are below [0x80]. *)
Definition isASCII (s : string) : bool :=
  forallb (fun c => (N_of_ascii c <? 128)%N) (list_ascii_of_string s).

(** What encoding/json does with an [EncryptedString] it wrote itself.
    [Marshal] does not fail on the struct and writes a JSON object, which
    starts with the brace.  From that text [Unmarshal] reads the two byte
    slices back as they were, and each of the two strings with its invalid
    UTF-8 replaced by U+FFFD: [json_string] is that replacement, which
    changes no ASCII text and deletes nothing. *)
Class EnvelopeJSONRoundTrip `{EnvelopeJSON} : Type := {
  json_string : string -> string;
  json_string_ascii : forall s, isASCII s = true -> json_string s = s;
  json_string_empty : forall s, json_string s = EmptyString -> s = EmptyString;
  json_Marshal_object : forall es,
    exists rest, json_Marshal es = Ok (String "{" rest);
  json_Unmarshal_Marshal : forall es str,
    json_Marshal es = Ok str ->
    json_Unmarshal str
    = Ok {| KeyID := json_string (KeyID es);
            Algorithm := json_string (Algorithm es);
            Data := Data es; Nonce := Nonce es |};
}.

(** ** Package time

    A [time.Time] is the instant it denotes, in nanoseconds since the Unix
    epoch; a [time.Duration] is a number of nanoseconds.  The zero [Time] is
    January 1 of year 1, 00:00:00 UTC.  Instants are unbounded here: the
    saturation of [Add] at the ends of Go's range is not modelled. *)
Definition Time : Type := Z.
Definition Duration : Type := Z.

Definition time_Second : Duration := 1000000000%Z.
Definition time_zero : Time := (-62135596800 * 1000000000)%Z.

Definition Time_IsZero (t : Time) : bool := (t =? time_zero)%Z.
Definition Time_Before (t u : Time) : bool := (t <? u)%Z.
Definition Time_After (t u : Time) : bool := (u <? t)%Z.
Definition Time_Add (t : Time) (d : Duration) : Time := (t + d)%Z.
Definition Time_UnixNano (t : Time) : Z := t.

(** ** Package siws (internal/utilities/solana): declarations

    The package is imported by the verified sources and is not part of them.
    The records list the fields the sources read or write. *)
Module siws.

Record SIWSMessage : Type := mkSIWSMessage {
  Domain : string;
  Address : string;
  Statement : string;
  URI : string;
  Version : string;
  ChainID : string;
  Nonce : string;
  IssuedAt : Time;
  NotBefore : Time;
  ExpirationTime : Time;
  Resources : list string;
}.

Record SIWSVerificationParams : Type := mkSIWSVerificationParams {
  ExpectedDomain : string;
  CheckTime : bool;
  TimeDuration : Duration;
}.

End siws.

(** A byte below [0x20] or [0x7f]: an ASCII control character. *)
Definition isCTL (c : ascii) : bool :=
  (N_of_ascii c <? 32)%N || (N_of_ascii c =? 127)%N.

Fixpoint stringContainsCTLByte (s : string) : bool :=
  match s with
  | EmptyString => false
  | String c s' => isCTL c || stringContainsCTLByte s'
  end.

(** The part of a URL before its fragment: up to the first [#]. *)
Fixpoint beforeFragment (s : string) : string :=
  match s with
  | EmptyString => EmptyString
  | String c s' =>
      if (N_of_ascii c =? 35)%N then EmptyString
      else String c (beforeFragment s')
  end.

(** What [VerifySIWS] and the provider call outside the verified sources:
    helpers of package [siws], [base58.Decode], [url.Parse] and
    [ed25519.Verify].  [ed25519.Verify] is called on keys that passed
    [siws.IsBase58PubKey] only.  The one law is net/url's refusal of a URL
    that holds an ASCII control character before its fragment ([invalid
    control character in URL]). *)
Class SIWSLib : Type := {
  siws_IsValidDomain : string -> bool;
  siws_IsBase58PubKey : list byte -> bool;
  siws_IsValidSolanaNetwork : string -> bool;
  siws_ConstructMessage : siws.SIWSMessage -> string;
  base58_Decode : string -> list byte;
  URL : Type;
  url_Parse : string -> result URL;
  url_Parse_ctl : forall s,
    stringContainsCTLByte (beforeFragment s) = true ->
    is_Ok (url_Parse s) = false;
  ed25519_Verify : list byte -> list byte -> list byte -> bool;
}.

(** ** Package crypto: Sign-In-With-Solana *)

(** [if c { return e }; k] *)
Notation "'reject' e 'when' c ; k" :=
  (if c then Some (siws_Err e) else k)
  (at level 10, e at level 9, c at level 99, k at level 200,
   format "'[v' 'reject'  e  'when'  c ; '/' k ']'").

(** [VerifySIWS], the clock reading [time.Now().UTC()] passed as [now] and a
    nil [msg] as [None]. *)
Definition VerifySIWS `{SIWSLib} (now : Time)
    (rawMessage : string) (signature : list byte)
    (msg : option siws.SIWSMessage) (params : siws.SIWSVerificationParams)
    : option error :=
  (* 1) Basic input validation *)
  reject ErrEmptyRawMessage when bool_decide (rawMessage = EmptyString);
  reject ErrEmptySignature when (length signature =? 0)%nat;
  match msg with
  | None => Some (siws_Err ErrNilMessage)
  | Some msg =>
  (* 2) Domain validation *)
  reject ErrMissingDomain when
    bool_decide (siws.ExpectedDomain params = EmptyString);
  reject ErrInvalidDomainFormat when negb (siws_IsValidDomain (siws.Domain msg));
  reject ErrDomainMismatch when
    bool_decide (siws.Domain msg <> siws.ExpectedDomain params);
  (* 3) Address/Public Key validation *)
  let pubKey := base58_Decode (siws.Address msg) in
  reject ErrInvalidPubKeySize when negb (siws_IsBase58PubKey pubKey);
  (* 4) Version validation *)
  reject ErrInvalidVersion when bool_decide (siws.Version msg <> "1");
  (* 5) Chain ID validation *)
  reject ErrInvalidChainID when
    bool_decide (siws.ChainID msg <> EmptyString)
    && negb (siws_IsValidSolanaNetwork (siws.ChainID msg));
  (* 6) Nonce validation *)
  reject ErrNonceTooShort when
    bool_decide (siws.Nonce msg <> EmptyString)
    && (String.length (siws.Nonce msg) <? 8)%nat;
  (* 7) URI and Resources validation *)
  reject ErrInvalidURI when
    bool_decide (siws.URI msg <> EmptyString)
    && negb (is_Ok (url_Parse (siws.URI msg)));
  reject ErrInvalidResourceURI when
    existsb (fun resource => negb (is_Ok (url_Parse resource)))
      (siws.Resources msg);
  (* 8) Signature verification *)
  reject ErrSignatureVerification when
    negb (ed25519_Verify pubKey (bytes_of_string rawMessage) signature);
  (* 9) Time validations *)
  reject ErrFutureMessage when
    negb (Time_IsZero (siws.IssuedAt msg))
    && Time_Before now (siws.IssuedAt msg);
  reject ErrMessageExpired when
    negb (Time_IsZero (siws.IssuedAt msg))
    && (siws.CheckTime params && (0 <? siws.TimeDuration params)%Z)
    && Time_After now (Time_Add (siws.IssuedAt msg) (siws.TimeDuration params));
  reject ErrNotYetValid when
    negb (Time_IsZero (siws.NotBefore msg))
    && Time_Before now (siws.NotBefore msg);
  reject ErrMessageExpired when
    negb (Time_IsZero (siws.ExpirationTime msg))
    && Time_After now (siws.ExpirationTime msg);
  None
  end.

(** ** Package conf: declarations

    The package is imported by the verified sources and is not part of them.
    The records list the fields the sources read; [SupportedChains] stands
    for whatever [ParseSupportedChains] reads. *)
Module conf.

Record BlockchainConfig : Type := mkBlockchainConfig {
  NetworkName : string;
  ChainID : string;
}.

Record Web3Configuration : Type := mkWeb3Configuration {
  Enabled : bool;
  Domain : string;
  Statement : string;
  Version : string;
  Timeout : Duration;
  DefaultChain : string;
  SupportedChains : string;
}.

End conf.

Class ConfLib : Type := {
  (** [config.ParseSupportedChains()] *)
  conf_ParseSupportedChains :
    conf.Web3Configuration -> result (gmap string conf.BlockchainConfig);
  (** [t.Format(time.RFC3339)] *)
  time_Format_RFC3339 : Time -> string;
}.

(** ** Package provider *)

Definition BlockchainEthereum : string := "ethereum".
Definition BlockchainSolana : string := "solana".

Record Web3Provider : Type := mkWeb3Provider {
  config : conf.Web3Configuration;
  chains : gmap string conf.BlockchainConfig;
  defaultChain : string;
}.

(** [NewWeb3Provider]; the context argument is not used by the function. *)
Definition NewWeb3Provider `{ConfLib} (config : conf.Web3Configuration)
    : result Web3Provider :=
  if negb (conf.Enabled config) then
    Err (errors_New "Web3 provider is not enabled")
  else
    match conf_ParseSupportedChains config with
    | Err err => Err err
    | Ok chains =>
        if bool_decide (conf.DefaultChain config <> EmptyString)
           && negb (bool_decide (is_Some (chains !! conf.DefaultChain config)))
        then
          Err (fmt_Errorf "default chain %s not in supported chains"
                 [conf.DefaultChain config])
        else
          Ok {| config := config; chains := chains;
                defaultChain := conf.DefaultChain config |}
    end.

Definition newline : string := String (ascii_of_nat 10) EmptyString.

(** The EIP-4361 text of the Ethereum branch of [GenerateSignMessage]. *)
Definition ethereumSignMessage `{ConfLib} (p : Web3Provider)
    (chainCfg : conf.BlockchainConfig) (address uri : string) (now : Time)
    : string :=
  conf.Domain (config p) ++ " wants you to sign in with your "
    ++ conf.NetworkName chainCfg ++ " account:" ++ newline
    ++ address ++ newline
    ++ newline
    ++ "URI: " ++ uri ++ newline
    ++ "Version: " ++ conf.Version (config p) ++ newline
    ++ "Chain ID: " ++ conf.ChainID chainCfg ++ newline
    ++ "Nonce: " ++ pretty (Time_UnixNano now) ++ newline
    ++ "Issued At: " ++ time_Format_RFC3339 now ++ newline
    ++ "Expiration Time: "
    ++ time_Format_RFC3339 (Time_Add now (conf.Timeout (config p))).

(** [GenerateSignMessage]: [r] is the random source and [now] the clock
    reading [time.Now().UTC()]; the random source is returned as the call
    leaves it.  The fields of the [SIWSMessage] literal that the source does
    not set have their zero values. *)
Definition GenerateSignMessage `{ConfLib} `{SIWSLib} (p : Web3Provider)
    (address chain uri : string) (r : RandReader) (now : Time)
    : result string * RandReader :=
  let chain := if bool_decide (chain = EmptyString) then defaultChain p else chain in
  match chains p !! chain with
  | None => (Err (fmt_Errorf "unsupported chain: %s" [chain]), r)
  | Some chainCfg =>
      let '(nonce, r') := SecureToken r in
      if bool_decide (conf.NetworkName chainCfg = BlockchainSolana) then
        let msg := {|
          siws.Domain := conf.Domain (config p);
          siws.Address := address;
          siws.Statement := conf.Statement (config p);
          siws.URI := uri;
          siws.Version := conf.Version (config p);
          siws.ChainID := EmptyString;
          siws.Nonce := nonce;
          siws.IssuedAt := now;
          siws.NotBefore := time_zero;
          siws.ExpirationTime := time_zero;
          siws.Resources := [] |} in
        (Ok (siws_ConstructMessage msg), r')
      else if bool_decide (conf.NetworkName chainCfg = BlockchainEthereum) then
        (Ok (ethereumSignMessage p chainCfg address uri now), r')
      else
        (Err (fmt_Errorf "message generation not implemented for %s"
                [conf.NetworkName chainCfg]), r')
  end.

(** ** Package provider: signed messages

    [UserProvidedData], [Claims] and [Email] are declared in a file of
    package [provider] that is not part of the verified sources.  The
    records list the fields [VerifySignedMessage] sets; a [*Claims] that is
    never nil is a [Claims], and the three values it stores in
    [CustomClaims] are strings. *)
Module provider.

Record SignedMessage : Type := mkSignedMessage {
  Message : string;
  Signature : string;
  Address : string;
  Chain : string;
}.

Record Claims : Type := mkClaims {
  CustomClaims : gmap string string;
  Subject : string;
}.

Record Email : Type := mkEmail {
  Email_Email : string;
  Email_Verified : bool;
  Email_Primary : bool;
}.

Record UserProvidedData : Type := mkUserProvidedData {
  Metadata : Claims;
  Emails : list Email;
}.

End provider.

(** What the verification of a Solana sign-in calls outside the verified
    sources: the parser of package [siws] (a message it returns without
    error is not nil) and the decoder of the padded standard base64
    alphabet. *)
Class SignInLib : Type := {
  (** [siws.ParseSIWSMessage(raw)] *)
  siws_ParseSIWSMessage : string -> result siws.SIWSMessage;
  (** [base64.StdEncoding.DecodeString(s)] *)
  base64_StdEncoding_DecodeString : string -> result (list byte);
}.

Definition verifyEthereumSignature `{EthCrypto} (p : Web3Provider)
    (msg : provider.SignedMessage) : option error :=
  VerifyEthereumSignature (provider.Message msg) (provider.Signature msg)
    (provider.Address msg).

(** [verifySolanaSignature]; [now] is the clock reading of [VerifySIWS]. *)
Definition verifySolanaSignature `{SIWSLib} `{SignInLib} (p : Web3Provider)
    (now : Time) (msg : provider.SignedMessage) : option error :=
  match siws_ParseSIWSMessage (provider.Message msg) with
  | Err err => Some (fmt_Errorf_w "failed to parse SIWS message: " err)
  | Ok parsedMessage =>
      (* Decode base64 signature into bytes *)
      match base64_StdEncoding_DecodeString (provider.Signature msg) with
      | Err err => Some (fmt_Errorf_w "invalid signature encoding: " err)
      | Ok sigBytes =>
          let params := {|
            siws.ExpectedDomain := conf.Domain (config p);
            siws.CheckTime := true;
            siws.TimeDuration := conf.Timeout (config p) |} in
          match VerifySIWS now (provider.Message msg) sigBytes
                  (Some parsedMessage) params with
          | Some err => Some (fmt_Errorf_w "SIWS verification failed: " err)
          | None => None
          end
      end
  end.

(** [VerifySignedMessage]; the message is not nil.  The [switch] either
    returns at once (its default case) or leaves the verifier's error in
    [err]. *)
Definition VerifySignedMessage `{EthCrypto} `{SIWSLib} `{SignInLib}
    (p : Web3Provider) (now : Time) (msg : provider.SignedMessage)
    : result provider.UserProvidedData :=
  match chains p !! provider.Chain msg with
  | None => Err (fmt_Errorf "unsupported blockchain: %s" [provider.Chain msg])
  | Some chain =>
      let switch : result (option error) :=
        if bool_decide (conf.NetworkName chain = BlockchainEthereum) then
          Ok (verifyEthereumSignature p msg)
        else if bool_decide (conf.NetworkName chain = BlockchainSolana) then
          Ok (verifySolanaSignature p now msg)
        else
          Err (fmt_Errorf "signature verification not implemented for %s"
                 [conf.NetworkName chain]) in
      match switch with
      | Err e => Err e
      | Ok (Some err) => Err (fmt_Errorf_w "signature verification failed: " err)
      | Ok None =>
          (* Construct the provider_id as chain:address to make it unique *)
          let providerId := provider.Chain msg ++ ":" ++ provider.Address msg in
          Ok {| provider.Metadata := {|
                  provider.CustomClaims :=
                    {[ "address" := provider.Address msg;
                       "chain" := provider.Chain msg;
                       "role" := "authenticated" ]};
                  provider.Subject := providerId |};
                provider.Emails := [] |}
      end
  end.

(** ** Package crypto: token hashes *)

Class Sha256 : Type := {
  (** [sha256.Sum224(data)], its 28 bytes as a slice. *)
  sha256_Sum224 : list byte -> list byte;
  sha256_Sum224_length : forall data, length (sha256_Sum224 data) = 28%nat;
}.

(** [GenerateTokenHash]: the verb [%x] prints a byte array as its lower-case
    hexadecimal digits. *)
Definition GenerateTokenHash `{Sha256} (emailOrPhone otp : string) : string :=
  hex_EncodeToString (sha256_Sum224 (bytes_of_string (emailOrPhone ++ otp))).

(** * The vocabulary of the statements

    Names for what the properties below speak about: the text of a
    signature, the key and nonce of an envelope, the stages of
    [VerifySIWS], the chain and message of a challenge, and the six-bit
    values of the base64 alphabet. *)

(** The text a client submits for the 65-byte signature [r‖s‖v]: its
    hexadecimal form, with or without the [0x] prefix. *)
Definition signatureHex (with0x : bool) (rs : list byte) (v : byte) : string :=
  (if with0x then "0x" else EmptyString) ++ hex_EncodeToString (rs ++ [v]).

Section EnvelopeVocabulary.
Context `{EnvelopeCrypto}.

(** The key [deriveSymmetricKey] derives for a record from 32 bytes of key
    material, and the nonce [NewEncryptedString] draws. *)
Definition recordKey (hkdfKey : list byte) (id : string) : list byte :=
  hkdf_sha256 hkdfKey [] (bytes_of_string id) 32.

Definition drawnNonce (r : RandReader) : list byte := (rand_ReadFull r 12).1.

End EnvelopeVocabulary.

Section SIWSVocabulary.
Context `{SIWSLib}.

(** The checks of [VerifySIWS] by stage: what it means for a call to get
    past step 1 (inputs present), steps 2 to 6 (domain, public key, version,
    chain and nonce), step 7 (URI and resources) and step 8 (signature). *)
Definition inputsPresent (rawMessage : string) (signature : list byte) : Prop :=
  rawMessage <> EmptyString /\ signature <> [].

Definition fieldsAccepted (msg : siws.SIWSMessage)
    (params : siws.SIWSVerificationParams) : Prop :=
  siws.ExpectedDomain params <> EmptyString
  /\ siws_IsValidDomain (siws.Domain msg) = true
  /\ siws.Domain msg = siws.ExpectedDomain params
  /\ siws_IsBase58PubKey (base58_Decode (siws.Address msg)) = true
  /\ siws.Version msg = "1"
  /\ (siws.ChainID msg = EmptyString
      \/ siws_IsValidSolanaNetwork (siws.ChainID msg) = true)
  /\ (siws.Nonce msg = EmptyString \/ (8 <= String.length (siws.Nonce msg))%nat).

Definition urisAccepted (msg : siws.SIWSMessage) : Prop :=
  (siws.URI msg = EmptyString \/ is_Ok (url_Parse (siws.URI msg)) = true)
  /\ Forall (fun resource => is_Ok (url_Parse resource) = true) (siws.Resources msg).

Definition signatureAccepted (rawMessage : string) (signature : list byte)
    (msg : siws.SIWSMessage) : Prop :=
  ed25519_Verify (base58_Decode (siws.Address msg))
    (bytes_of_string rawMessage) signature = true.

Definition reachesURIValidation (rawMessage : string) (signature : list byte)
    (msg : siws.SIWSMessage) (params : siws.SIWSVerificationParams) : Prop :=
  inputsPresent rawMessage signature /\ fieldsAccepted msg params.

Definition reachesTimeValidation (rawMessage : string) (signature : list byte)
    (msg : siws.SIWSMessage) (params : siws.SIWSVerificationParams) : Prop :=
  reachesURIValidation rawMessage signature msg params
  /\ urisAccepted msg /\ signatureAccepted rawMessage signature msg.

(** [msg] with another [URI]. *)
Definition withURI (msg : siws.SIWSMessage) (uri : string) : siws.SIWSMessage :=
  {| siws.Domain := siws.Domain msg; siws.Address := siws.Address msg;
     siws.Statement := siws.Statement msg; siws.URI := uri;
     siws.Version := siws.Version msg; siws.ChainID := siws.ChainID msg;
     siws.Nonce := siws.Nonce msg; siws.IssuedAt := siws.IssuedAt msg;
     siws.NotBefore := siws.NotBefore msg;
     siws.ExpirationTime := siws.ExpirationTime msg;
     siws.Resources := siws.Resources msg |}.

(** The four time guards of step 9, as [VerifySIWS] evaluates them. *)
Definition futureGuard (now : Time) (msg : siws.SIWSMessage) : bool :=
  negb (Time_IsZero (siws.IssuedAt msg)) && Time_Before now (siws.IssuedAt msg).

Definition windowGuard (now : Time) (msg : siws.SIWSMessage)
    (params : siws.SIWSVerificationParams) : bool :=
  negb (Time_IsZero (siws.IssuedAt msg))
  && (siws.CheckTime params && (0 <? siws.TimeDuration params)%Z)
  && Time_After now (Time_Add (siws.IssuedAt msg) (siws.TimeDuration params)).

Definition notBeforeGuard (now : Time) (msg : siws.SIWSMessage) : bool :=
  negb (Time_IsZero (siws.NotBefore msg)) && Time_Before now (siws.NotBefore msg).

Definition expirationGuard (now : Time) (msg : siws.SIWSMessage) : bool :=
  negb (Time_IsZero (siws.ExpirationTime msg))
  && Time_After now (siws.ExpirationTime msg).

End SIWSVocabulary.

(** The chain [GenerateSignMessage] resolves: the default when none is given. *)
Definition resolvedChain (p : Web3Provider) (chain : string) : string :=
  if bool_decide (chain = EmptyString) then defaultChain p else chain.

(** The SIWS message of the Solana branch, for a given nonce. *)
Definition solanaChallenge (p : Web3Provider) (address uri nonce : string)
    (now : Time) : siws.SIWSMessage :=
  {| siws.Domain := conf.Domain (config p);
     siws.Address := address;
     siws.Statement := conf.Statement (config p);
     siws.URI := uri;
     siws.Version := conf.Version (config p);
     siws.ChainID := EmptyString;
     siws.Nonce := nonce;
     siws.IssuedAt := now;
     siws.NotBefore := time_zero;
     siws.ExpirationTime := time_zero;
     siws.Resources := [] |}.

(** The six-bit value at [shift] of a 24-bit group. *)
Definition sextet (val : N) (shift : N) : N := N.land (N.shiftr val shift) 63.

(** The character of the alphabet at index [x] decodes to [x] and is no
    line break. *)
Definition alphabet_ok (x : N) : bool :=
  match b64_index (b64_char x) with
  | Some y => (y =? x)%N && negb ((N_of_ascii (b64_char x) =? 10)%N
                                  || (N_of_ascii (b64_char x) =? 13)%N)
  | None => false
  end.

(** The encoded text is made of the 64 characters of the URL alphabet. *)
Definition urlSafe (s : string) : Prop :=
  Forall (fun c => c ∈ encodeURL) (list_ascii_of_string s).

(** The text of a byte string in hexadecimal, with or without the [0x]
    prefix. *)
Definition hexText (with0x : bool) (bs : list byte) : string :=
  (if with0x then "0x" else EmptyString) ++ hex_EncodeToString bs.

(** The hash [VerifyEthereumSignature] recovers the signer from: Keccak-256
    of the EIP-191 text of the message. *)
Definition eip191_hash `{EthCrypto} (message : string) : list byte :=
  crypto_Keccak256Hash
    (bytes_of_string (eip191_prefix ++ pretty (String.length message) ++ message)).

(** The recovery byte as [VerifyEthereumSignature] hands it to the recovery:
    raised by 27 when it is below 27. *)
Definition normalizedV (v : byte) : byte :=
  if (byte_val v <? 27)%N then byte_wrap (byte_val v + 27) else v.

(** From the 65 bytes [sigBytes] a public key is recovered for the EIP-191
    hash of the message, and its address is the one [addressText] denotes. *)
Definition recoversTo `{EthCrypto} (message : string) (sigBytes : list byte)
    (addressText : string) : Prop :=
  exists pubKey,
    crypto_SigToPub (eip191_hash message) sigBytes = Ok pubKey
    /\ crypto_PubkeyToAddress pubKey = common_HexToAddress addressText.

(** Key material the envelope functions accept: text whose raw URL base64
    decoding has 32 bytes. *)
Definition keyMaterial (keyBase64URL : string) (hkdfKey : list byte) : Prop :=
  base64_RawURLEncoding_DecodeString keyBase64URL = Ok hkdfKey
  /\ length hkdfKey = 32%nat.

(** The errors of the envelope functions that name a key. *)
Definition errKeyMissing (keyID : string) : error :=
  fmt_Errorf "crypto: decryption key with name %q does not exist" [keyID].

Definition errKeySize (keyID : string) : error :=
  fmt_Errorf "crypto: key with ID %q is not 256 bits" [keyID].

(** The identity [VerifySignedMessage] returns for a signed message. *)
Definition identityClaim (msg : provider.SignedMessage) : provider.UserProvidedData :=
  {| provider.Metadata := {|
       provider.CustomClaims :=
         {[ "address" := provider.Address msg;
            "chain" := provider.Chain msg;
            "role" := "authenticated" ]};
       provider.Subject := provider.Chain msg ++ ":" ++ provider.Address msg |};
     provider.Emails := [] |}.

(** [msg] with another claimed address. *)
Definition withAddress (msg : provider.SignedMessage) (address : string)
    : provider.SignedMessage :=
  {| provider.Message := provider.Message msg;
     provider.Signature := provider.Signature msg;
     provider.Address := address;
     provider.Chain := provider.Chain msg |}.

(** The parameters [verifySolanaSignature] verifies with. *)
Definition solanaParams (p : Web3Provider) : siws.SIWSVerificationParams :=
  {| siws.ExpectedDomain := conf.Domain (config p);
     siws.CheckTime := true;
     siws.TimeDuration := conf.Timeout (config p) |}.

(** The chain a provider knows under [chain] belongs to the [network]
    family. *)
Definition chainFamily (p : Web3Provider) (chain network : string) : Prop :=
  exists chainCfg,
    chains p !! chain = Some chainCfg /\ conf.NetworkName chainCfg = network.

(** * Stand-ins for the imported packages

    Small executable instances of the interfaces above.  They are not the
    real primitives and have none of their security: they show that the laws
    of the interfaces can be met, and they let the embedded functions run on
    concrete inputs. *)

#[global] Instance byte_eq_dec : EqDecision byte.
Proof.
  intros a b. destruct (N.eq_dec (Byte.to_N a) (Byte.to_N b)) as [E|E].
  - left. apply (f_equal Byte.of_N) in E.
    rewrite !Byte.of_to_N in E. congruence.
  - right. intros ->. apply E. reflexivity.
Defined.

Module Fake.

(** An authenticated-encryption stand-in: the plaintext followed by a 16-byte
    tag taken from the key and the nonce; a key-derivation stand-in: the
    first bytes of the context followed by the secret, padded with zeros. *)

Definition tag (key nonce : list byte) : list byte :=
  take 16 (key ++ nonce ++ replicate 16 Byte.x00).

Definition Seal (key nonce plaintext ad : list byte) : list byte :=
  plaintext ++ tag key nonce.

Definition Open (key nonce ciphertext ad : list byte) : result (list byte) :=
  let n := (length ciphertext - 16)%nat in
  if (16 <=? length ciphertext)%nat
     && bool_decide (drop n ciphertext = tag key nonce)
  then Ok (take n ciphertext)
  else Err cipher_errOpen.

Definition hkdf (secret salt info : list byte) (n : nat) : list byte :=
  take n (info ++ secret ++ replicate n Byte.x00).

Lemma tag_length key nonce : length (tag key nonce) = 16%nat.
Proof. unfold tag. rewrite length_take, !length_app, length_replicate. lia. Qed.

Lemma hkdf_length secret salt info n :
  (n <= 255 * 32)%nat -> length (hkdf secret salt info n) = n.
Proof. intros _. unfold hkdf. rewrite length_take, !length_app, length_replicate. lia. Qed.

Lemma Open_Seal key nonce plaintext ad :
  Open key nonce (Seal key nonce plaintext ad) ad = Ok plaintext.
Proof.
  unfold Open, Seal. rewrite length_app, tag_length.
  replace (length plaintext + 16 - 16)%nat with (length plaintext) by lia.
  rewrite drop_app_length, take_app_length.
  rewrite bool_decide_eq_true_2 by reflexivity.
  destruct (Nat.leb_spec 16 (length plaintext + 16)); [reflexivity | lia].
Qed.

Lemma Seal_length key nonce plaintext ad :
  length (Seal key nonce plaintext ad) = (length plaintext + 16)%nat.
Proof. unfold Seal. rewrite length_app, tag_length. reflexivity. Qed.

Lemma Open_error key nonce ciphertext ad e :
  Open key nonce ciphertext ad = Err e -> e = cipher_errOpen.
Proof. unfold Open. case_match; congruence. Qed.

#[export] Instance envelopeCrypto : EnvelopeCrypto := {|
  hkdf_sha256 := hkdf;
  hkdf_sha256_length := hkdf_length;
  gcm_Seal := Seal;
  gcm_Open := Open;
  gcm_Open_Seal := Open_Seal;
  gcm_Seal_length := Seal_length;
  gcm_Open_error := Open_error;
|}.

(** Stand-ins for package [siws], base58, net/url and ed25519.  A domain is
    a non-empty string of lower-case letters, digits, dots and hyphens; a
    public key has 32 bytes; base58 turns each leading [1] into a zero byte
    (as the real decoder does) and keeps other characters as they are; a URL
    is refused exactly when it holds a control character before its
    fragment; a signature is the first 64 bytes of the key followed by the
    message. *)
Definition isDomainChar (c : ascii) : bool :=
  let n := N_of_ascii c in
  ((97 <=? n)%N && (n <=? 122)%N) || ((48 <=? n)%N && (n <=? 57)%N)
  || (n =? 45)%N || (n =? 46)%N.

Definition IsValidDomain (d : string) : bool :=
  negb (bool_decide (d = EmptyString))
  && forallb isDomainChar (list_ascii_of_string d).

Definition base58 (s : string) : list byte :=
  map (fun c => if (N_of_ascii c =? 49)%N then Byte.x00 else byte_of_ascii c)
    (list_ascii_of_string s).

Definition Parse (s : string) : result string :=
  if stringContainsCTLByte (beforeFragment s)
  then Err (lib_error "net/url" "invalid control character in URL")
  else Ok s.

Lemma Parse_ctl (s : string) :
  stringContainsCTLByte (beforeFragment s) = true -> is_Ok (Parse s) = false.
Proof. unfold Parse. intros ->. reflexivity. Qed.

Definition sign (pubKey message : list byte) : list byte :=
  take 64 (pubKey ++ message ++ replicate 64 Byte.x00).

Definition ConstructMessage (m : siws.SIWSMessage) : string :=
  siws.Domain m ++ " wants you to sign in with your Solana account:" ++ newline
    ++ siws.Address m ++ newline ++ newline
    ++ siws.Statement m ++ newline ++ newline
    ++ "URI: " ++ siws.URI m ++ newline
    ++ "Version: " ++ siws.Version m ++ newline
    ++ "Nonce: " ++ siws.Nonce m ++ newline
    ++ "Issued At: " ++ pretty (siws.IssuedAt m).

#[export] Instance siwsLib : SIWSLib := {|
  siws_IsValidDomain := IsValidDomain;
  siws_IsBase58PubKey := fun pubKey => (length pubKey =? 32)%nat;
  siws_IsValidSolanaNetwork := fun c =>
    bool_decide (c ∈ ["mainnet"; "testnet"; "devnet"]);
  siws_ConstructMessage := ConstructMessage;
  base58_Decode := base58;
  URL := string;
  url_Parse := Parse;
  url_Parse_ctl := Parse_ctl;
  ed25519_Verify := fun pubKey message sig =>
    bool_decide (sig = sign pubKey message);
|}.

(** Stand-ins for package [conf] and for time formatting: a configuration
    with a non-empty chain list has one Ethereum and one Solana chain; a
    time is printed as its number of nanoseconds. *)
Definition supportedChains : gmap string conf.BlockchainConfig :=
  {[ "ethereum-mainnet" :=
       {| conf.NetworkName := "ethereum"; conf.ChainID := "1" |};
     "solana-mainnet" :=
       {| conf.NetworkName := "solana"; conf.ChainID := "mainnet" |} ]}.

#[export] Instance confLib : ConfLib := {|
  conf_ParseSupportedChains := fun c =>
    if bool_decide (conf.SupportedChains c = EmptyString)
    then Err (lib_error "conf" "no supported chains")
    else Ok supportedChains;
  time_Format_RFC3339 := fun t => pretty t;
|}.

(** A stand-in for encoding/json: the four fields in hexadecimal, each
    followed by a comma, between braces. *)
Fixpoint fields (s : string) : list string :=
  match s with
  | EmptyString => [EmptyString]
  | String c s' =>
      if (N_of_ascii c =? 44)%N then EmptyString :: fields s'
      else
        match fields s' with
        | f :: fs => String c f :: fs
        | [] => [String c EmptyString]
        end
  end.

Definition Marshal (es : EncryptedString) : result string :=
  Ok ("{" ++ hex_EncodeToString (bytes_of_string (KeyID es)) ++ ","
        ++ hex_EncodeToString (bytes_of_string (Algorithm es)) ++ ","
        ++ hex_EncodeToString (Data es) ++ ","
        ++ hex_EncodeToString (Nonce es) ++ ",}").

Definition Unmarshal (s : string) : result EncryptedString :=
  let bad := Err (lib_error "encoding/json" "invalid character") in
  match s with
  | String c rest =>
      if negb (N_of_ascii c =? 123)%N then bad
      else
        match fields rest with
        | [k; a; d; n; close] =>
            match hex_DecodeString k, hex_DecodeString a,
                  hex_DecodeString d, hex_DecodeString n with
            | Ok k', Ok a', Ok d', Ok n' =>
                if bool_decide (close = "}") then
                  Ok {| KeyID := string_of_bytes k';
                        Algorithm := string_of_bytes a';
                        Data := d'; Nonce := n' |}
                else bad
            | _, _, _, _ => bad
            end
        | _ => bad
        end
  | EmptyString => bad
  end.

#[export] Instance envelopeJSON : EnvelopeJSON := {|
  json_Unmarshal := Unmarshal;
  json_Marshal := Marshal;
|}.

(** A stand-in for go-ethereum: a public key is the first 64 bytes of the
    signature, an address the last 20 bytes of the key, the hash the first 32
    bytes of its input padded with zeros; as in go-ethereum, recovery refuses
    a recovery id above 3. *)
Definition SigToPub (hash sig : list byte) : result (list byte) :=
  match sig !! 64%nat with
  | Some v =>
      if (byte_val v <? 4)%N then Ok (take 64 sig)
      else Err (lib_error "secp256k1" "invalid signature recovery id")
  | None => Err (lib_error "secp256k1" "invalid signature length")
  end.

#[export] Instance ethCrypto : EthCrypto := {|
  PublicKey := list byte;
  Address := list byte;
  crypto_Keccak256Hash := fun b => take 32 (b ++ replicate 32 Byte.x00);
  crypto_SigToPub := SigToPub;
  crypto_PubkeyToAddress := fun pub => drop 44 pub;
  common_HexToAddress := fun s =>
    match hex_DecodeString s with Ok b => b | Err _ => [] end;
|}.

End Fake.

Module FakeSignIn.

(** A stand-in for the parser of package [siws]: it reads back the text
    [Fake.ConstructMessage] prints, line by line. *)
Fixpoint lines (s : string) : list string :=
  match s with
  | EmptyString => [EmptyString]
  | String c s' =>
      if (N_of_ascii c =? 10)%N then EmptyString :: lines s'
      else
        match lines s' with
        | l :: ls => String c l :: ls
        | [] => [String c EmptyString]
        end
  end.

(** [strings.CutPrefix] *)
Definition cut (pre s : string) : option string :=
  if strings_HasPrefix s pre then Some (string_drop (String.length pre) s)
  else None.

(** The text up to the first space. *)
Fixpoint word (s : string) : string :=
  match s with
  | EmptyString => EmptyString
  | String c s' =>
      if (N_of_ascii c =? 32)%N then EmptyString else String c (word s')
  end.

Fixpoint digits (s : string) (acc : Z) : option Z :=
  match s with
  | EmptyString => Some acc
  | String c s' =>
      let n := N_of_ascii c in
      if (48 <=? n)%N && (n <=? 57)%N
      then digits s' (acc * 10 + Z.of_N (n - 48))%Z
      else None
  end.

Definition decimal (s : string) : option Z :=
  match s with
  | EmptyString => None
  | String c s' =>
      if (N_of_ascii c =? 45)%N then Z.opp <$> digits s' 0%Z
      else digits s 0%Z
  end.

Definition ParseSIWSMessage (raw : string) : result siws.SIWSMessage :=
  let bad := Err (lib_error "siws" "invalid message format") in
  match lines raw with
  | [head; address; blank; statement; blank'; uri; version; nonce; issuedAt] =>
      match cut "URI: " uri, cut "Version: " version, cut "Nonce: " nonce,
            cut "Issued At: " issuedAt ≫= decimal with
      | Some uri, Some version, Some nonce, Some issuedAt =>
          if bool_decide
               (head = word head ++ " wants you to sign in with your Solana account:")
             && bool_decide (blank = EmptyString)
             && bool_decide (blank' = EmptyString)
          then
            Ok {| siws.Domain := word head;
                  siws.Address := address;
                  siws.Statement := statement;
                  siws.URI := uri;
                  siws.Version := version;
                  siws.ChainID := EmptyString;
                  siws.Nonce := nonce;
                  siws.IssuedAt := issuedAt;
                  siws.NotBefore := time_zero;
                  siws.ExpirationTime := time_zero;
                  siws.Resources := [] |}
          else bad
      | _, _, _, _ => bad
      end
  | _ => bad
  end.

(** A stand-in for the standard base64 alphabet with padding: the text is a
    number of groups of four characters, the last one padded with [=]; the
    alphabet is the URL one with [+] and [/] in place of [-] and [_]. *)
Definition toURL (c : ascii) : ascii :=
  if (N_of_ascii c =? 43)%N then "-"%char
  else if (N_of_ascii c =? 47)%N then "_"%char
  else if (N_of_ascii c =? 45)%N || (N_of_ascii c =? 95)%N then "="%char
  else c.

Definition toStd (c : ascii) : ascii :=
  if (N_of_ascii c =? 45)%N then "+"%char
  else if (N_of_ascii c =? 95)%N then "/"%char
  else c.

Fixpoint string_map (f : ascii -> ascii) (s : string) : string :=
  match s with
  | EmptyString => EmptyString
  | String c s' => String (f c) (string_map f s')
  end.

(** The text without its padding, when the padding is what the length of
    the text asks for. *)
Fixpoint unpad (s : string) : option string :=
  match s with
  | EmptyString => Some EmptyString
  | String a (String b (String c (String d EmptyString))) =>
      if (N_of_ascii c =? 61)%N && (N_of_ascii d =? 61)%N
      then Some (String a (String b EmptyString))
      else if (N_of_ascii d =? 61)%N
      then Some (String a (String b (String c EmptyString)))
      else Some s
  | String a (String b (String c (String d rest))) =>
      (fun body => String a (String b (String c (String d body)))) <$> unpad rest
  | _ => None
  end.

Definition StdDecodeString (s : string) : result (list byte) :=
  match unpad s with
  | None => Err base64_CorruptInputError
  | Some body => base64_RawURLEncoding_DecodeString (string_map toURL body)
  end.

Definition StdEncodeToString (src : list byte) : string :=
  string_map toStd (base64_RawURLEncoding_EncodeToString src)
    ++ match (length src mod 3)%nat with
       | 1%nat => "=="
       | 2%nat => "="
       | _ => EmptyString
       end.

#[export] Instance signInLib : SignInLib := {|
  siws_ParseSIWSMessage := ParseSIWSMessage;
  base64_StdEncoding_DecodeString := StdDecodeString;
|}.

(** A stand-in for SHA-224: the first 28 bytes of the input, padded with
    zeros. *)
Definition Sum224 (data : list byte) : list byte :=
  take 28 (data ++ replicate 28 Byte.x00).

Lemma Sum224_length data : length (Sum224 data) = 28%nat.
Proof. unfold Sum224. rewrite length_take, length_app, length_replicate. lia. Qed.

#[export] Instance sha256 : Sha256 := {|
  sha256_Sum224 := Sum224;
  sha256_Sum224_length := Sum224_length;
|}.

End FakeSignIn.

(** * Concrete inputs *)

(** Key material: 43 characters that decode to 32 zero bytes; and a random
    source that delivers zero bytes. *)
Definition key43 : string := "AAAAAAAAAAAAAAAAAAAAAAAAAAAAAAAAAAAAAAAAAAA".
Definition zeros : RandReader := fun _ => Byte.x00.

(** The envelope the stand-ins produce for the empty payload. *)
Definition sealedEmpty : EncryptedString :=
  {| KeyID := "k1"; Algorithm := "aes-gcm-hkdf";
     Data := bytes_of_string "record-1" ++ replicate 8 Byte.x00;
     Nonce := replicate 12 Byte.x00 |}.


(** A message from the all-zero public key (32 times the base58 digit [1]),
    without chain id, its [domain], [uri], [resources] and [issuedAt] as
    given. *)
Definition solanaMessage (domain uri : string) (resources : list string)
    (issuedAt : Time) : siws.SIWSMessage :=
  {| siws.Domain := domain;
     siws.Address := "11111111111111111111111111111111";
     siws.Statement := "Sign in";
     siws.URI := uri;
     siws.Version := "1";
     siws.ChainID := EmptyString;
     siws.Nonce := "BwcHBwcHBwcHBwcHBwcHBw";
     siws.IssuedAt := issuedAt;
     siws.NotBefore := time_zero;
     siws.ExpirationTime := time_zero;
     siws.Resources := resources |}.

(** Expected domain [example.com], a validity window of five minutes. *)
Definition fiveMinutes : siws.SIWSVerificationParams :=
  {| siws.ExpectedDomain := "example.com"; siws.CheckTime := true;
     siws.TimeDuration := (300 * time_Second)%Z |}.

(** 2023-11-14 22:13:20 UTC. *)
Definition t0 : Time := (1700000000 * time_Second)%Z.

(** The stand-in signature of the raw message [hello] under the zero key. *)
Definition helloSignature : list byte :=
  Fake.sign (replicate 32 Byte.x00) (bytes_of_string "hello").

(** A URI with a line feed in it. *)
Definition brokenURI : string :=
  "https://example.com/a" ++ String (ascii_of_nat 10) "b".

(** The message issued at [t0]. *)
Definition helloMessage : siws.SIWSMessage :=
  solanaMessage "example.com" "https://example.com" ["https://example.com/r"] t0.

(** The same message for [example.org]. *)
Definition otherDomainMessage : siws.SIWSMessage :=
  solanaMessage "example.org" "https://example.com" [] t0.

(** A message whose [URI] and whose one resource both hold a line feed. *)
Definition brokenMessage : siws.SIWSMessage :=
  solanaMessage "example.com" brokenURI [brokenURI] t0.

(** A provider with the two chains of the stand-in configuration, and a
    random source that delivers the byte 7. *)
Definition exampleConfig : conf.Web3Configuration :=
  {| conf.Enabled := true; conf.Domain := "example.com";
     conf.Statement := "Sign in"; conf.Version := "1";
     conf.Timeout := (300 * time_Second)%Z;
     conf.DefaultChain := "ethereum-mainnet";
     conf.SupportedChains := "ethereum-mainnet,solana-mainnet" |}.

Definition exampleProvider : Web3Provider :=
  {| config := exampleConfig; chains := Fake.supportedChains;
     defaultChain := "ethereum-mainnet" |}.

Definition sevens : RandReader := fun _ => Byte.x07.

(** The text of a 65-byte signature whose bytes are all 1 but the recovery
    byte, which is 0. *)
Definition ethSignature : string :=
  hex_EncodeToString (replicate 64 Byte.x01 ++ [Byte.x00]).

(** Other key material: 43 characters that decode to the byte 4 followed by
    31 zero bytes. *)
Definition key43' : string := "BAAAAAAAAAAAAAAAAAAAAAAAAAAAAAAAAAAAAAAAAAA".

(** A provider whose one chain, the default, is of a network for which the
    provider has no challenge format and no verifier. *)
Definition bitcoinProvider : Web3Provider :=
  {| config := exampleConfig;
     chains := {[ "bitcoin-mainnet" :=
                    {| conf.NetworkName := "bitcoin"; conf.ChainID := "0" |} ]};
     defaultChain := "bitcoin-mainnet" |}.

(** A Solana sign-in: the challenge the example provider writes at [t0] for
    the all-zero public key, with the stand-in signature of its text in
    padded base64. *)
Definition solanaAddress : string := "11111111111111111111111111111111".

Definition challengeText : string :=
  Fake.ConstructMessage
    (solanaChallenge exampleProvider solanaAddress "https://example.com"
       (SecureToken sevens).1 t0).

Definition challengeSignature : string :=
  FakeSignIn.StdEncodeToString
    (Fake.sign (replicate 32 Byte.x00) (bytes_of_string challengeText)).

Definition solanaSignIn : provider.SignedMessage :=
  {| provider.Message := challengeText;
     provider.Signature := challengeSignature;
     provider.Address := solanaAddress;
     provider.Chain := "solana-mainnet" |}.

(** An Ethereum sign-in: the challenge the example provider writes at [t0]
    for the address of twenty bytes 1, with [ethSignature]. *)
Definition ethereumAddress : string := "0101010101010101010101010101010101010101".

Definition ethereumSignIn : provider.SignedMessage :=
  {| provider.Message :=
       ethereumSignMessage (H:=Fake.confLib) exampleProvider
         {| conf.NetworkName := "ethereum"; conf.ChainID := "1" |}
         ethereumAddress "https://example.com" t0;
     provider.Signature := ethSignature;
     provider.Address := ethereumAddress;
     provider.Chain := "ethereum-mainnet" |}.

(** A day, in nanoseconds. *)
Definition day : Duration := (86400 * time_Second)%Z.

(** The example configuration with a default chain that the stand-in chain
    list does not hold. *)
Definition bitcoinConfig : conf.Web3Configuration :=
  {| conf.Enabled := true; conf.Domain := "example.com";
     conf.Statement := "Sign in"; conf.Version := "1";
     conf.Timeout := (300 * time_Second)%Z;
     conf.DefaultChain := "bitcoin-mainnet";
     conf.SupportedChains := "ethereum-mainnet,solana-mainnet" |}.

(** * Properties *)

(** ** Bytes and hexadecimal text *)

Lemma hex_byte_roundtrip (b : byte) :
  fromHexChar (hex_digit (byte_val b / 16)) = Some (byte_val b / 16)%N
  /\ fromHexChar (hex_digit (byte_val b mod 16)) = Some (byte_val b mod 16)%N
  /\ byte_wrap (byte_val b / 16 * 16 + byte_val b mod 16) = b.
Proof. destruct b; vm_compute; auto. Qed.

Lemma hex_DecodeString_EncodeToString (bs : list byte) :
  hex_DecodeString (hex_EncodeToString bs) = Ok bs.
Proof.
  induction bs as [|b bs IH]; [reflexivity|].
  destruct (hex_byte_roundtrip b) as (Hhi & Hlo & Hb).
  cbn [hex_EncodeToString hex_DecodeString].
  rewrite Hhi, Hlo, IH, Hb. reflexivity.
Qed.

Lemma hex_digit_not_x (b : byte) : hex_digit (byte_val b mod 16) <> "x"%char.
Proof. destruct b; vm_compute; discriminate. Qed.

Lemma removeHexPrefix_hex (bs : list byte) :
  removeHexPrefix (hex_EncodeToString bs) = hex_EncodeToString bs.
Proof.
  unfold removeHexPrefix, strings_HasPrefix.
  destruct bs as [|b bs]; [reflexivity|].
  cbn [hex_EncodeToString String.prefix].
  destruct (ascii_dec "0" (hex_digit (byte_val b / 16))); [|reflexivity].
  destruct (ascii_dec "x" (hex_digit (byte_val b mod 16))) as [E|]; [|reflexivity].
  symmetry in E. destruct (hex_digit_not_x b E).
Qed.

Lemma removeHexPrefix_0x (s : string) : removeHexPrefix ("0x" ++ s) = s.
Proof.
  unfold removeHexPrefix, strings_TrimPrefix, strings_HasPrefix. cbn.
  destruct s; reflexivity.
Qed.

Lemma byte_val_wrap (n : N) : byte_val (byte_wrap n) = (n mod 256)%N.
Proof.
  unfold byte_val, byte_wrap.
  destruct (Byte.of_N (n mod 256)) as [b|] eqn:E.
  - apply Byte.to_of_N in E. exact E.
  - apply Byte.of_N_None_iff in E.
    pose proof (N.mod_upper_bound n 256). lia.
Qed.

Lemma byte_wrap_val (b : byte) : byte_wrap (byte_val b) = b.
Proof.
  unfold byte_wrap, byte_val.
  rewrite N.mod_small by (pose proof (Byte.to_N_bounded b); lia).
  rewrite Byte.of_to_N. reflexivity.
Qed.

Lemma removeHexPrefix_signatureHex with0x rs v :
  removeHexPrefix (signatureHex with0x rs v) = hex_EncodeToString (rs ++ [v]).
Proof.
  unfold signatureHex. destruct with0x.
  - apply removeHexPrefix_0x.
  - apply removeHexPrefix_hex.
Qed.

Lemma adjustV_low (rs : list byte) (v : byte) :
  length rs = 64%nat -> (byte_val v < 27)%N ->
  adjustV (rs ++ [v]) = (rs ++ [byte_wrap (byte_val v + 27)])%list.
Proof.
  intros Hlen Hv. unfold adjustV.
  rewrite (list_lookup_middle rs [] v 64) by (symmetry; exact Hlen).
  apply N.ltb_lt in Hv. rewrite Hv.
  rewrite insert_app_r_alt by lia.
  rewrite Hlen. reflexivity.
Qed.

Lemma adjustV_high (rs : list byte) (v : byte) :
  length rs = 64%nat -> (27 <= byte_val v)%N ->
  adjustV (rs ++ [v]) = (rs ++ [v])%list.
Proof.
  intros Hlen Hv. unfold adjustV.
  rewrite (list_lookup_middle rs [] v 64) by (symmetry; exact Hlen).
  apply N.ltb_ge in Hv. rewrite Hv. reflexivity.
Qed.

Lemma adjustV_plus27 (rs : list byte) (v : byte) :
  length rs = 64%nat -> (byte_val v < 27)%N ->
  adjustV (rs ++ [v]) = adjustV (rs ++ [byte_wrap (byte_val v + 27)]).
Proof.
  intros Hlen Hv.
  rewrite adjustV_low by assumption.
  rewrite adjustV_high; [reflexivity | assumption |].
  rewrite byte_val_wrap, N.mod_small; lia.
Qed.

(** A recovery byte below 27 and the same byte plus 27 verify alike. *)
Lemma VerifyEthereumSignature_plus27 `{EthCrypto}
    (message address : string) (with0x : bool) (rs : list byte) (v : byte) :
  (byte_val v < 27)%N ->
  VerifyEthereumSignature message (signatureHex with0x rs v) address
  = VerifyEthereumSignature message
      (signatureHex with0x rs (byte_wrap (byte_val v + 27))) address.
Proof.
  intros Hv. unfold VerifyEthereumSignature.
  rewrite !removeHexPrefix_signatureHex, !hex_DecodeString_EncodeToString.
  rewrite !length_app. cbn [length].
  destruct (Nat.eqb_spec (length rs + 1) 65) as [Hlen|Hlen]; [|reflexivity].
  cbn [negb]. rewrite (adjustV_plus27 rs v) by lia. reflexivity.
Qed.

(** [VerifyEthereumSignature] accepts a signature text that decodes to 65
    bytes exactly when the recovery, given those bytes with the recovery
    byte normalised, yields the key of the claimed address. *)
Lemma VerifyEthereumSignature_decoded `{EthCrypto}
    (message signature address : string) (sigBytes : list byte) :
  hex_DecodeString (removeHexPrefix signature) = Ok sigBytes ->
  length sigBytes = 65%nat ->
  VerifyEthereumSignature message signature address = None
  <-> recoversTo message (adjustV sigBytes) (removeHexPrefix address).
Proof.
  intros Hdec Hlen. unfold VerifyEthereumSignature, recoversTo, eip191_hash.
  rewrite Hdec.
  replace (length sigBytes =? 65)%nat with true
    by (symmetry; apply Nat.eqb_eq, Hlen).
  cbn [negb].
  destruct (crypto_SigToPub _ (adjustV sigBytes)) as [pubKey|e].
  - destruct (decide (crypto_PubkeyToAddress pubKey
                      = common_HexToAddress (removeHexPrefix address)))
      as [Haddr|Haddr].
    + split; [intros _; exists pubKey; auto | reflexivity].
    + split; [discriminate|]. intros (pubKey' & [= <-] & Hx). contradiction.
  - split; [discriminate|]. intros (pubKey & Hx & _). discriminate Hx.
Qed.

Lemma adjustV_normalizedV (rs : list byte) (v : byte) :
  length rs = 64%nat -> adjustV (rs ++ [v]) = (rs ++ [normalizedV v])%list.
Proof.
  intros Hlen. unfold normalizedV.
  destruct (N.ltb_spec (byte_val v) 27).
  - apply adjustV_low; assumption.
  - apply adjustV_high; assumption.
Qed.

(** C1: for every message, claimed address and 64 bytes [r‖s] (valid or
    not), whether or not the text carries the [0x] prefix.
    [VerifyEthereumSignature] returns the same result, so accepts or rejects
    alike, for the signature with recovery byte 0 and the one with recovery
    byte 27, and for recovery bytes 1 and 28.  It does so because it
    normalises the recovery byte: of the 65 bytes [r‖s‖v] it turns [v] into
    [v + 27] when [v] is below 27 and leaves it otherwise (0 and 27 both
    become 27, 1 and 28 both become 28), and it accepts exactly when the
    recovery, given the hash of the EIP-191 text and the normalised bytes,
    yields a key whose address is the claimed one.  Whether a signature is
    accepted at all is thus up to the recovery reading the bytes 27 and
    28. *)
Theorem VerifyEthereumSignature_recovery_byte `{EthCrypto}
    (message address : string) (with0x : bool) (rs : list byte) :
  VerifyEthereumSignature message (signatureHex with0x rs Byte.x00) address
  = VerifyEthereumSignature message (signatureHex with0x rs Byte.x1b) address
  /\
  VerifyEthereumSignature message (signatureHex with0x rs Byte.x01) address
  = VerifyEthereumSignature message (signatureHex with0x rs Byte.x1c) address
  /\ (length rs = 64%nat ->
      forall v : byte,
        adjustV (rs ++ [v]) = (rs ++ [normalizedV v])%list
        /\ (VerifyEthereumSignature message (signatureHex with0x rs v) address
            = None
            <-> recoversTo message (rs ++ [normalizedV v])
                  (removeHexPrefix address)))
  /\ normalizedV Byte.x00 = Byte.x1b /\ normalizedV Byte.x1b = Byte.x1b
  /\ normalizedV Byte.x01 = Byte.x1c /\ normalizedV Byte.x1c = Byte.x1c.
Proof.
  split; [|split; [|split]].
  - apply (VerifyEthereumSignature_plus27 message address with0x rs Byte.x00).
    reflexivity.
  - apply (VerifyEthereumSignature_plus27 message address with0x rs Byte.x01).
    reflexivity.
  - intros Hlen v. split; [apply adjustV_normalizedV, Hlen|].
    rewrite <- (adjustV_normalizedV rs v Hlen).
    apply VerifyEthereumSignature_decoded.
    + rewrite removeHexPrefix_signatureHex. apply hex_DecodeString_EncodeToString.
    + rewrite length_app, Hlen. reflexivity.
  - repeat split; reflexivity.
Qed.

(** C1 at a concrete call, with the stand-in recovery: the recovery byte 0
    reaches the recovery as 27. *)
Lemma VerifyEthereumSignature_recovery_byte_witness :
  length (replicate 64 Byte.x01) = 64%nat
  /\ adjustV (replicate 64 Byte.x01 ++ [Byte.x00])
     = (replicate 64 Byte.x01 ++ [Byte.x1b])%list
  /\ (VerifyEthereumSignature (H:=Fake.ethCrypto) "hello"
        (signatureHex true (replicate 64 Byte.x01) Byte.x00)
        "0x0101010101010101010101010101010101010101"
      = None
      <-> recoversTo (H:=Fake.ethCrypto) "hello"
            (replicate 64 Byte.x01 ++ [Byte.x1b])
            (removeHexPrefix "0x0101010101010101010101010101010101010101")).
Proof.
  split; [reflexivity|].
  destruct (VerifyEthereumSignature_recovery_byte (H:=Fake.ethCrypto) "hello"
              "0x0101010101010101010101010101010101010101" true
              (replicate 64 Byte.x01)) as (_ & _ & Hnorm & _).
  exact (Hnorm eq_refl Byte.x00).
Defined.

(** The recovery byte [VerifyEthereumSignature] hands to the recovery is
    never below 27. *)
Lemma adjustV_recovery_byte (sigBytes : list byte) :
  length sigBytes = 65%nat ->
  exists v, adjustV sigBytes !! 64%nat = Some v /\ (27 <= byte_val v)%N.
Proof.
  intros Hlen.
  destruct (lookup_lt_is_Some_2 sigBytes 64) as [v Hv]; [lia|].
  unfold adjustV. rewrite Hv.
  destruct (N.ltb_spec (byte_val v) 27) as [Hlt|Hge].
  - exists (byte_wrap (byte_val v + 27)). split.
    + apply list_lookup_insert_eq. lia.
    + rewrite byte_val_wrap, N.mod_small; lia.
  - exists v. split; [exact Hv | exact Hge].
Qed.

(** X5: with a public-key recovery that refuses every recovery id above 3,
    [VerifyEthereumSignature] accepts no signature at all: the recovery byte
    it hands over is never below 27. *)
Theorem VerifyEthereumSignature_recovery_id_refused `{EthCrypto} :
  (forall hash sig v, sig !! 64%nat = Some v -> (4 <= byte_val v)%N ->
     is_Ok (crypto_SigToPub hash sig) = false) ->
  forall message signature address,
    VerifyEthereumSignature message signature address <> None.
Proof.
  intros Hrefuse message signature address. unfold VerifyEthereumSignature.
  destruct (hex_DecodeString (removeHexPrefix signature)) as [sigBytes|e];
    [|discriminate].
  destruct (Nat.eqb_spec (length sigBytes) 65) as [Hlen|Hlen]; [|discriminate].
  cbn [negb].
  destruct (adjustV_recovery_byte sigBytes Hlen) as (v & Hv & Hge).
  match goal with
  | |- context [crypto_SigToPub ?h ?s] =>
      pose proof (Hrefuse h s v Hv ltac:(lia)) as Hr;
      destruct (crypto_SigToPub h s); [discriminate Hr | discriminate]
  end.
Qed.

(** X5 at a concrete call, with the stand-in recovery. *)
Lemma VerifyEthereumSignature_recovery_id_refused_witness :
  (forall hash sig v, sig !! 64%nat = Some v -> (4 <= byte_val v)%N ->
     is_Ok (crypto_SigToPub (EthCrypto:=Fake.ethCrypto) hash sig) = false)
  /\ VerifyEthereumSignature (H:=Fake.ethCrypto) "hello"
       (signatureHex true (replicate 64 Byte.x01) Byte.x00)
       "0x0101010101010101010101010101010101010101"
     <> None.
Proof.
  assert (Hrefuse : forall hash sig v, sig !! 64%nat = Some v -> (4 <= byte_val v)%N ->
            is_Ok (crypto_SigToPub (EthCrypto:=Fake.ethCrypto) hash sig) = false).
  { intros hash sig v Hv Hge. cbn. unfold Fake.SigToPub. rewrite Hv.
    destruct (N.ltb_spec (byte_val v) 4); [lia | reflexivity]. }
  split; [exact Hrefuse|].
  apply (VerifyEthereumSignature_recovery_id_refused (H:=Fake.ethCrypto) Hrefuse).
Defined.

(** ** Encrypted strings *)

Section Envelope.
Context `{EnvelopeCrypto}.

Lemma recordKey_length hkdfKey id : length (recordKey hkdfKey id) = 32%nat.
Proof. apply hkdf_sha256_length. lia. Qed.

Lemma drawnNonce_length r : length (drawnNonce r) = 12%nat.
Proof. unfold drawnNonce, rand_ReadFull. cbn. reflexivity. Qed.

Lemma deriveSymmetricKey_ok id keyID keyBase64URL hkdfKey :
  base64_RawURLEncoding_DecodeString keyBase64URL = Ok hkdfKey ->
  length hkdfKey = 32%nat ->
  deriveSymmetricKey id keyID keyBase64URL = Return (Ok (recordKey hkdfKey id)).
Proof.
  intros Hdec Hlen. unfold deriveSymmetricKey. rewrite Hdec, Hlen. reflexivity.
Qed.

(** [deriveSymmetricKey] never panics, and yields a key only from key
    material of 32 bytes. *)
Lemma deriveSymmetricKey_inv id keyID keyBase64URL key :
  deriveSymmetricKey id keyID keyBase64URL = Return (Ok key) ->
  exists hkdfKey,
    base64_RawURLEncoding_DecodeString keyBase64URL = Ok hkdfKey
    /\ length hkdfKey = 32%nat /\ key = recordKey hkdfKey id.
Proof.
  unfold deriveSymmetricKey.
  destruct (base64_RawURLEncoding_DecodeString keyBase64URL) as [hk|e]; [|discriminate].
  destruct (Nat.eqb_spec (length hk) (256 / 8)) as [Hlen|Hlen]; [|discriminate].
  cbn. intros [= <-]. exists hk. auto.
Qed.

Lemma aes_NewCipher_recordKey hkdfKey id :
  aes_NewCipher (recordKey hkdfKey id) = Ok (recordKey hkdfKey id).
Proof. unfold aes_NewCipher. rewrite recordKey_length. reflexivity. Qed.

(** What [NewEncryptedString] returns from well-formed key material. *)
Lemma NewEncryptedString_ok id data keyID keyBase64URL hkdfKey r :
  base64_RawURLEncoding_DecodeString keyBase64URL = Ok hkdfKey ->
  length hkdfKey = 32%nat ->
  NewEncryptedString id data keyID keyBase64URL r
  = Return (Ok {| KeyID := keyID; Algorithm := "aes-gcm-hkdf";
                  Data := gcm_Seal (recordKey hkdfKey id) (drawnNonce r) data [];
                  Nonce := drawnNonce r |},
            (rand_ReadFull r 12).2).
Proof.
  intros Hdec Hlen. unfold NewEncryptedString.
  rewrite (deriveSymmetricKey_ok _ _ _ _ Hdec Hlen). cbn [mbind outcome_bind].
  rewrite aes_NewCipher_recordKey. cbn [must cipher_NewGCM mbind outcome_bind].
  unfold cipher_Seal, drawnNonce. cbn. reflexivity.
Qed.

Lemma NewEncryptedString_inv id data keyID keyBase64URL r es r' :
  NewEncryptedString id data keyID keyBase64URL r = Return (Ok es, r') ->
  exists hkdfKey,
    base64_RawURLEncoding_DecodeString keyBase64URL = Ok hkdfKey
    /\ length hkdfKey = 32%nat
    /\ es = {| KeyID := keyID; Algorithm := "aes-gcm-hkdf";
               Data := gcm_Seal (recordKey hkdfKey id) (drawnNonce r) data [];
               Nonce := drawnNonce r |}.
Proof.
  intros Hnew.
  destruct (deriveSymmetricKey id keyID keyBase64URL) as [[key|e]|e] eqn:Hd.
  - destruct (deriveSymmetricKey_inv _ _ _ _ Hd) as (hk & Hdec & Hlen & ->).
    exists hk. repeat split; try assumption.
    rewrite (NewEncryptedString_ok _ _ _ _ _ _ Hdec Hlen) in Hnew.
    congruence.
  - unfold NewEncryptedString in Hnew. rewrite Hd in Hnew. discriminate.
  - unfold NewEncryptedString in Hnew. rewrite Hd in Hnew. discriminate.
Qed.

(** What [Decrypt] computes for an envelope with a 12-byte nonce when the
    table holds well-formed key material under the envelope's key
    identifier: the AEAD opening under the key derived for [id]. *)
Lemma Decrypt_known_key es id decryptionKeys keyBase64URL hkdfKey :
  decryptionKeys !! KeyID es = Some keyBase64URL ->
  base64_RawURLEncoding_DecodeString keyBase64URL = Ok hkdfKey ->
  length hkdfKey = 32%nat ->
  length (Nonce es) = 12%nat ->
  Decrypt es id decryptionKeys
  = Return (gcm_Open (recordKey hkdfKey id) (Nonce es) (Data es) []).
Proof.
  intros Hkey Hdec Hlen Hnonce. unfold Decrypt. rewrite Hkey. cbv [default from_option Datatypes.id].
  rewrite bool_decide_eq_false_2.
  2:{ intros ->. cbv in Hdec. injection Hdec as <-. discriminate Hlen. }
  rewrite (deriveSymmetricKey_ok _ _ _ _ Hdec Hlen). cbn [mbind outcome_bind].
  rewrite aes_NewCipher_recordKey. cbn [must cipher_NewGCM mbind outcome_bind].
  unfold cipher_Open. rewrite Hnonce. cbn.
  destruct (gcm_Open _ _ _ _); reflexivity.
Qed.

(** C2: for every record identifier, payload (the empty one included), key
    identifier and key material whose raw-URL base64 decoding has exactly 32
    bytes, and every table that maps the key identifier to that key
    material: [NewEncryptedString] returns an envelope without panicking,
    and [Decrypt] of that envelope under the same record identifier returns
    the payload. *)
Theorem NewEncryptedString_Decrypt_round_trip
    (id : string) (data : list byte) (keyID keyBase64URL : string)
    (hkdfKey : list byte) (decryptionKeys : gmap string string) (r : RandReader) :
  base64_RawURLEncoding_DecodeString keyBase64URL = Ok hkdfKey ->
  length hkdfKey = 32%nat ->
  decryptionKeys !! keyID = Some keyBase64URL ->
  exists es r',
    NewEncryptedString id data keyID keyBase64URL r = Return (Ok es, r')
    /\ Decrypt es id decryptionKeys = Return (Ok data).
Proof.
  intros Hdec Hlen Hkey.
  eexists _, _. split; [apply (NewEncryptedString_ok _ _ _ _ _ _ Hdec Hlen)|].
  rewrite (Decrypt_known_key _ id decryptionKeys keyBase64URL hkdfKey);
    cbn [KeyID Nonce Data]; auto using drawnNonce_length.
  rewrite gcm_Open_Seal. reflexivity.
Qed.

(** X3: under another record identifier [Decrypt] opens the sealed data with the
    key derived for that identifier, and fails, if it does, with the AEAD's
    authentication error. *)
Lemma Decrypt_other_record id id' data keyID keyBase64URL hkdfKey decryptionKeys r es r' :
  base64_RawURLEncoding_DecodeString keyBase64URL = Ok hkdfKey ->
  length hkdfKey = 32%nat ->
  decryptionKeys !! keyID = Some keyBase64URL ->
  NewEncryptedString id data keyID keyBase64URL r = Return (Ok es, r') ->
  Decrypt es id' decryptionKeys
  = Return (gcm_Open (recordKey hkdfKey id') (drawnNonce r)
              (gcm_Seal (recordKey hkdfKey id) (drawnNonce r) data []) [])
  /\ (forall e, Decrypt es id' decryptionKeys = Return (Err e) -> e = cipher_errOpen).
Proof.
  intros Hdec Hlen Hkey Hnew.
  rewrite (NewEncryptedString_ok _ _ _ _ _ _ Hdec Hlen) in Hnew.
  injection Hnew as <- <-.
  rewrite (Decrypt_known_key _ id' decryptionKeys keyBase64URL hkdfKey);
    cbn [KeyID Nonce Data]; auto using drawnNonce_length.
  split; [reflexivity|].
  intros e [= He]. exact (gcm_Open_error _ _ _ _ _ He).
Qed.


Context `{EnvelopeJSON}.

Lemma IsValid_iff (es : EncryptedString) :
  IsValid es = true
  <-> KeyID es <> EmptyString /\ Data es <> [] /\ Nonce es <> []
      /\ Algorithm es = "aes-gcm-hkdf".
Proof.
  unfold IsValid. rewrite !andb_true_iff, !bool_decide_eq_true, !Nat.ltb_lt.
  destruct (Data es), (Nonce es); cbn [length]; intuition (try lia; congruence).
Qed.

Lemma strings_HasPrefix_brace (str : string) :
  strings_HasPrefix str "{" = true <-> exists rest, str = String "{" rest.
Proof.
  unfold strings_HasPrefix. destruct str as [|c rest]; cbn [String.prefix].
  - split; [intros Hx | intros [? Hx]]; discriminate Hx.
  - destruct (ascii_dec "{" c) as [<-|Hc].
    + destruct rest; split; eauto.
    + split; [intros Hx; discriminate Hx|].
      intros [? Hx]. injection Hx as Hx _. congruence.
Qed.

(** [ParseEncryptedString] returns an envelope exactly for an input that
    starts with the brace and decodes to that envelope, when the envelope is
    valid. *)
Lemma ParseEncryptedString_Some (str : string) (es : EncryptedString) :
  ParseEncryptedString str = Some es
  <-> strings_HasPrefix str "{" = true /\ json_Unmarshal str = Ok es
      /\ IsValid es = true.
Proof.
  unfold ParseEncryptedString. split.
  - destruct (strings_HasPrefix str "{"); [|discriminate].
    destruct (json_Unmarshal str) as [es'|]; [|discriminate].
    destruct (IsValid es') eqn:Hv; [|discriminate].
    cbn. intros [= <-]. auto.
  - intros (-> & -> & ->). reflexivity.
Qed.

(** C7: [ParseEncryptedString] is a total function into an optional
    envelope.  It returns [None] when the input does not start with the
    brace, when JSON decoding fails, and when the decoded envelope fails the
    validity predicate; it returns an envelope exactly when the input starts
    with the brace, decodes to that envelope, and the envelope has a
    non-empty key identifier, non-empty data, a non-empty nonce and the
    algorithm [aes-gcm-hkdf]. *)
Theorem ParseEncryptedString_absent_or_valid (str : string) :
  (strings_HasPrefix str "{" = false -> ParseEncryptedString str = None)
  /\ (forall e, json_Unmarshal str = Err e -> ParseEncryptedString str = None)
  /\ (forall es, json_Unmarshal str = Ok es -> IsValid es = false ->
        ParseEncryptedString str = None)
  /\ (forall es, ParseEncryptedString str = Some es
        <-> strings_HasPrefix str "{" = true
            /\ json_Unmarshal str = Ok es
            /\ KeyID es <> EmptyString /\ Data es <> [] /\ Nonce es <> []
            /\ Algorithm es = "aes-gcm-hkdf").
Proof.
  split; [|split; [|split]].
  - unfold ParseEncryptedString. intros ->. reflexivity.
  - unfold ParseEncryptedString. intros e ->.
    destruct (strings_HasPrefix str "{"); reflexivity.
  - unfold ParseEncryptedString. intros es -> ->.
    destruct (strings_HasPrefix str "{"); reflexivity.
  - intros es. rewrite <- IsValid_iff. apply ParseEncryptedString_Some.
Qed.

Context {JSONRoundTrip : EnvelopeJSONRoundTrip}.

(** The text [String] returns for a valid envelope is parsed as an envelope
    with the same data, nonce and algorithm, and the key identifier as
    encoding/json reads it back. *)
Lemma ParseEncryptedString_String (es : EncryptedString) :
  IsValid es = true ->
  exists str,
    EncryptedString_String es = Return str
    /\ ParseEncryptedString str
       = Some {| KeyID := json_string (KeyID es); Algorithm := Algorithm es;
                 Data := Data es; Nonce := Nonce es |}.
Proof.
  intros Hvalid. apply IsValid_iff in Hvalid as (Hk & Hd & Hn & Ha).
  destruct (json_Marshal_object es) as [rest Hm].
  exists (String "{" rest). split.
  - unfold EncryptedString_String. rewrite Hm. reflexivity.
  - apply ParseEncryptedString_Some. split; [|split].
    + apply strings_HasPrefix_brace. eauto.
    + rewrite (json_Unmarshal_Marshal es _ Hm). do 2 f_equal.
      rewrite Ha. apply json_string_ascii. reflexivity.
    + apply IsValid_iff. cbn [KeyID Data Nonce Algorithm].
      repeat split; try assumption.
      intros Hx. apply Hk, json_string_empty, Hx.
Qed.

(** C9, amended: every envelope [NewEncryptedString] returns has the supplied
    key identifier, the algorithm [aes-gcm-hkdf], a nonce of exactly 12 bytes
    and data 16 bytes longer than the plaintext, hence non-empty; it
    satisfies the validity predicate exactly when the supplied key
    identifier is not empty.  Then its serialization is not treated as
    absent: [String] returns a text, and [ParseEncryptedString] returns for
    that text an envelope with the same algorithm, data and nonce and the
    key identifier as encoding/json reads it back, which is the envelope
    itself when the key identifier is ASCII text. *)
Theorem NewEncryptedString_envelope
    (id : string) (data : list byte) (keyID keyBase64URL : string)
    (r r' : RandReader) (es : EncryptedString) :
  NewEncryptedString id data keyID keyBase64URL r = Return (Ok es, r') ->
  KeyID es = keyID
  /\ Algorithm es = "aes-gcm-hkdf"
  /\ length (Nonce es) = 12%nat
  /\ length (Data es) = (length data + 16)%nat
  /\ (IsValid es = true <-> keyID <> EmptyString)
  /\ (keyID <> EmptyString ->
      exists str parsed,
        EncryptedString_String es = Return str
        /\ ParseEncryptedString str = Some parsed
        /\ KeyID parsed = json_string keyID
        /\ Algorithm parsed = "aes-gcm-hkdf"
        /\ Data parsed = Data es
        /\ Nonce parsed = Nonce es
        /\ (isASCII keyID = true -> parsed = es)).
Proof.
  intros Hnew.
  destruct (NewEncryptedString_inv _ _ _ _ _ _ _ Hnew) as (hk & _ & _ & ->).
  cbn [KeyID Algorithm Nonce Data].
  assert (Hd : length (gcm_Seal (recordKey hk id) (drawnNonce r) data [])
               = (length data + 16)%nat) by apply gcm_Seal_length.
  assert (Hv : IsValid
                 {| KeyID := keyID; Algorithm := "aes-gcm-hkdf";
                    Data := gcm_Seal (recordKey hk id) (drawnNonce r) data [];
                    Nonce := drawnNonce r |} = true <-> keyID <> EmptyString).
  { rewrite IsValid_iff. cbn [KeyID Algorithm Nonce Data].
    pose proof (drawnNonce_length r) as Hn.
    destruct (gcm_Seal _ _ _ _), (drawnNonce r); cbn [length] in *;
      intuition (try lia; congruence). }
  repeat split; try apply Hv; auto using drawnNonce_length.
  intros Hk. apply Hv in Hk.
  destruct (ParseEncryptedString_String _ Hk) as (str & Hstr & Hparse).
  cbn [KeyID Algorithm Nonce Data] in Hparse.
  eexists str, _. split; [exact Hstr|]. split; [exact Hparse|].
  cbn [KeyID Algorithm Nonce Data]. repeat split.
  intros Hascii. rewrite (json_string_ascii _ Hascii). reflexivity.
Qed.

End Envelope.

(** C2 at a concrete input: the empty payload under 32 zero bytes of key
    material. *)
Lemma NewEncryptedString_Decrypt_round_trip_witness :
  base64_RawURLEncoding_DecodeString key43 = Ok (replicate 32 Byte.x00)
  /\ exists es r',
    NewEncryptedString (H:=Fake.envelopeCrypto) "record-1" [] "k1" key43 zeros
    = Return (Ok es, r')
    /\ Decrypt (H:=Fake.envelopeCrypto) es "record-1" {[ "k1" := key43 ]}
       = Return (Ok []).
Proof.
  split; [vm_compute; reflexivity|].
  apply (NewEncryptedString_Decrypt_round_trip (H:=Fake.envelopeCrypto)
           "record-1" [] "k1" key43 (replicate 32 Byte.x00)).
  - vm_compute. reflexivity.
  - reflexivity.
  - vm_compute. reflexivity.
Defined.

(** The stand-in for encoding/json reads back what it wrote. *)
Lemma hex_digit_not_comma (b : byte) :
  (N_of_ascii (hex_digit (byte_val b / 16)) =? 44)%N = false
  /\ (N_of_ascii (hex_digit (byte_val b mod 16)) =? 44)%N = false.
Proof. destruct b; vm_compute; auto. Qed.

Lemma fields_hex (bs : list byte) (s : string) :
  Fake.fields (hex_EncodeToString bs ++ String "," s)
  = hex_EncodeToString bs :: Fake.fields s.
Proof.
  induction bs as [|b bs IH]; [reflexivity|].
  destruct (hex_digit_not_comma b) as [Hhi Hlo].
  cbn [hex_EncodeToString].
  change (Fake.fields
            (String (hex_digit (byte_val b / 16))
               (String (hex_digit (byte_val b mod 16))
                  (hex_EncodeToString bs ++ String "," s)))
          = String (hex_digit (byte_val b / 16))
              (String (hex_digit (byte_val b mod 16)) (hex_EncodeToString bs))
            :: Fake.fields s).
  cbn [Fake.fields]. rewrite Hhi, Hlo, IH. reflexivity.
Qed.

Lemma Fake_Unmarshal_Marshal (es : EncryptedString) (str : string) :
  Fake.Marshal es = Ok str -> Fake.Unmarshal str = Ok es.
Proof.
  unfold Fake.Marshal. intros [= <-].
  change (Fake.Unmarshal
            (String "{"
               (hex_EncodeToString (bytes_of_string (KeyID es)) ++ String ","
                  (hex_EncodeToString (bytes_of_string (Algorithm es)) ++ String ","
                     (hex_EncodeToString (Data es) ++ String ","
                        (hex_EncodeToString (Nonce es) ++ String "," "}")))))
          = Ok es).
  unfold Fake.Unmarshal. cbn [N_of_ascii N.eqb negb].
  change (N_of_ascii "{" =? 123)%N with true. cbn [negb].
  rewrite !fields_hex. change (Fake.fields "}") with ["}"].
  rewrite !hex_DecodeString_EncodeToString.
  rewrite bool_decide_eq_true_2 by reflexivity.
  unfold string_of_bytes, bytes_of_string.
  rewrite !string_of_list_byte_of_string. destruct es; reflexivity.
Qed.

#[global] Instance Fake_envelopeJSONRoundTrip
    : EnvelopeJSONRoundTrip (H:=Fake.envelopeJSON).
Proof.
  refine {| json_string := fun s => s |}.
  - intros s _. reflexivity.
  - intros s Hs. exact Hs.
  - intros es. eexists. cbn. unfold Fake.Marshal. reflexivity.
  - intros es str Hm. cbn in *.
    rewrite (Fake_Unmarshal_Marshal es str Hm). destruct es; reflexivity.
Defined.

(** C9, amended, at a concrete input: with the stand-ins, the envelope
    sealed for the empty payload under the key identifier [k1] is valid, and
    its serialization is parsed back as that envelope. *)
Lemma NewEncryptedString_envelope_witness :
  NewEncryptedString (H:=Fake.envelopeCrypto) "record-1" [] "k1" key43 zeros
  = Return (Ok sealedEmpty, fun i => zeros (12 + i)%nat)
  /\ KeyID sealedEmpty = "k1"
  /\ length (Nonce sealedEmpty) = 12%nat
  /\ length (Data sealedEmpty) = (length (@nil byte) + 16)%nat
  /\ IsValid sealedEmpty = true
  /\ exists str,
       EncryptedString_String (H:=Fake.envelopeJSON) sealedEmpty = Return str
       /\ ParseEncryptedString (H:=Fake.envelopeJSON) str = Some sealedEmpty.
Proof.
  split; [reflexivity|].
  destruct (NewEncryptedString_envelope (H:=Fake.envelopeCrypto)
              (H0:=Fake.envelopeJSON) (JSONRoundTrip:=Fake_envelopeJSONRoundTrip)
              "record-1" [] "k1" key43 zeros (fun i => zeros (12 + i)%nat)
              sealedEmpty eq_refl) as (Hk & _ & Hn & Hd & Hv & Hp).
  split; [exact Hk|]. split; [exact Hn|]. split; [exact Hd|].
  assert (Hne : "k1" <> EmptyString) by (intros Hx; discriminate Hx).
  split; [apply Hv, Hne|].
  destruct (Hp Hne) as (str & parsed & Hs & Hparse & _ & _ & _ & _ & Hascii).
  exists str. split; [exact Hs|].
  rewrite Hparse. f_equal. apply Hascii. reflexivity.
Defined.

(** C9 as stated fails for the empty key identifier: with well-formed key
    material [NewEncryptedString] succeeds, whatever the imported
    primitives compute, and the envelope it returns has an empty [KeyID], so
    the validity predicate is false; with the stand-ins, its serialization
    is parsed as absent. *)
Lemma NewEncryptedString_empty_keyID_not_valid :
  base64_RawURLEncoding_DecodeString key43 = Ok (replicate 32 Byte.x00)
  /\ (forall (C : EnvelopeCrypto), exists es r',
        NewEncryptedString "record-1" [] EmptyString key43 zeros = Return (Ok es, r')
        /\ KeyID es = EmptyString /\ IsValid es = false)
  /\ (exists es r' str,
        NewEncryptedString (H:=Fake.envelopeCrypto) "record-1" [] EmptyString key43 zeros
        = Return (Ok es, r')
        /\ EncryptedString_String (H:=Fake.envelopeJSON) es = Return str
        /\ ParseEncryptedString (H:=Fake.envelopeJSON) str = None).
Proof.
  assert (Hdec : base64_RawURLEncoding_DecodeString key43 = Ok (replicate 32 Byte.x00))
    by (vm_compute; reflexivity).
  split; [exact Hdec|]. split.
  - intros C. eexists _, _. split.
    + apply (NewEncryptedString_ok _ _ _ _ _ _ Hdec). reflexivity.
    + split; reflexivity.
  - eexists _, _, _. split; [reflexivity|]. split; [reflexivity|].
    vm_compute. reflexivity.
Qed.

(** X3 at a concrete call: with the stand-ins, what was sealed for
    [record-A] is refused for [record-B]. *)
Lemma Decrypt_other_record_witness :
  exists es r',
    NewEncryptedString (H:=Fake.envelopeCrypto) "record-A" [Byte.x2a] "k1" key43 zeros
    = Return (Ok es, r')
    /\ Decrypt (H:=Fake.envelopeCrypto) es "record-B" {[ "k1" := key43 ]}
       = Return (Err cipher_errOpen).
Proof.
  eexists _, _. split; [reflexivity|].
  destruct (Decrypt_other_record (H:=Fake.envelopeCrypto) "record-A" "record-B"
              [Byte.x2a] "k1" key43 (replicate 32 Byte.x00) {[ "k1" := key43 ]}
              zeros _ _ ltac:(vm_compute; reflexivity) eq_refl
              ltac:(vm_compute; reflexivity) eq_refl) as [Hopen _].
  rewrite Hopen. vm_compute. reflexivity.
Defined.


(** ** Sign-In-With-Solana verification *)

Section SIWS.
Context `{SIWSLib}.

(** The guards of each stage, as [VerifySIWS] evaluates them. *)
Lemma inputsPresent_guards rawMessage signature :
  inputsPresent rawMessage signature ->
  bool_decide (rawMessage = EmptyString) = false
  /\ (length signature =? 0)%nat = false.
Proof.
  intros [Hraw Hsig]. split.
  - apply bool_decide_eq_false_2, Hraw.
  - destruct signature; [congruence | reflexivity].
Qed.

Lemma fieldsAccepted_guards msg params :
  fieldsAccepted msg params ->
  bool_decide (siws.ExpectedDomain params = EmptyString) = false
  /\ negb (siws_IsValidDomain (siws.Domain msg)) = false
  /\ bool_decide (siws.Domain msg <> siws.ExpectedDomain params) = false
  /\ negb (siws_IsBase58PubKey (base58_Decode (siws.Address msg))) = false
  /\ bool_decide (siws.Version msg <> "1") = false
  /\ bool_decide (siws.ChainID msg <> EmptyString)
     && negb (siws_IsValidSolanaNetwork (siws.ChainID msg)) = false
  /\ bool_decide (siws.Nonce msg <> EmptyString)
     && (String.length (siws.Nonce msg) <? 8)%nat = false.
Proof.
  intros (Hexp & Hdom & Heq & Hpk & Hver & Hchain & Hnonce).
  rewrite Hdom, Hpk. repeat split.
  - apply bool_decide_eq_false_2, Hexp.
  - apply bool_decide_eq_false_2. intros Hne. exact (Hne Heq).
  - apply bool_decide_eq_false_2. intros Hne. exact (Hne Hver).
  - destruct Hchain as [-> | ->]; [reflexivity | apply andb_false_r].
  - destruct Hnonce as [-> | Hlen]; [reflexivity|].
    apply andb_false_intro2, Nat.ltb_ge, Hlen.
Qed.

Lemma urisAccepted_guards msg :
  urisAccepted msg ->
  bool_decide (siws.URI msg <> EmptyString)
  && negb (is_Ok (url_Parse (siws.URI msg))) = false
  /\ existsb (fun resource => negb (is_Ok (url_Parse resource)))
       (siws.Resources msg) = false.
Proof.
  intros [Huri Hres]. split.
  - destruct Huri as [-> | ->]; [reflexivity | apply andb_false_r].
  - induction Hres as [|r rs Hr _ IH]; [reflexivity|].
    cbn [existsb]. rewrite Hr, IH. reflexivity.
Qed.

(** A resource that does not parse makes the loop of step 7 reject. *)
Lemma existsb_bad_resource (resources : list string) :
  (exists resource, resource ∈ resources /\ is_Ok (url_Parse resource) = false) ->
  existsb (fun resource => negb (is_Ok (url_Parse resource))) resources = true.
Proof.
  intros (r & Hin & Hbad). apply existsb_exists. exists r. split.
  - apply list_elem_of_In, Hin.
  - rewrite Hbad. reflexivity.
Qed.

Ltac enter_siws Hin Hf :=
  let H1 := fresh in let H2 := fresh in
  destruct (inputsPresent_guards _ _ Hin) as [H1 H2];
  let G1 := fresh in let G2 := fresh in let G3 := fresh in let G4 := fresh in
  let G5 := fresh in let G6 := fresh in let G7 := fresh in
  destruct (fieldsAccepted_guards _ _ Hf) as (G1 & G2 & G3 & G4 & G5 & G6 & G7);
  unfold VerifySIWS; rewrite H1, H2, G1, G2, G3, G4, G5, G6, G7.

(** An unparsable [URI] is reported before the resources are looked at. *)
Lemma VerifySIWS_invalid_uri now rawMessage signature msg params :
  reachesURIValidation rawMessage signature msg params ->
  siws.URI msg <> EmptyString -> is_Ok (url_Parse (siws.URI msg)) = false ->
  VerifySIWS now rawMessage signature (Some msg) params
  = Some (siws_Err ErrInvalidURI).
Proof.
  intros [Hin Hf] Hne Hbad. enter_siws Hin Hf.
  rewrite Hbad, bool_decide_eq_true_2 by exact Hne. reflexivity.
Qed.

(** C8, amended: for every SIWS message that reaches the URI-validation
    step, a present [uri] that net/url does not parse makes [VerifySIWS]
    fail with the invalid-URI error; when the [uri] is absent or parses, a
    resource that does not parse makes it fail with the
    invalid-resource-URI error; and there is a string net/url refuses (one
    holding a control character) with which, as [uri], the message is
    rejected at this step. *)
Theorem VerifySIWS_uri_validation (now : Time) (rawMessage : string)
    (signature : list byte) (msg : siws.SIWSMessage)
    (params : siws.SIWSVerificationParams) :
  reachesURIValidation rawMessage signature msg params ->
  (siws.URI msg <> EmptyString -> is_Ok (url_Parse (siws.URI msg)) = false ->
     VerifySIWS now rawMessage signature (Some msg) params
     = Some (siws_Err ErrInvalidURI))
  /\ ((siws.URI msg = EmptyString \/ is_Ok (url_Parse (siws.URI msg)) = true) ->
      (exists resource, resource ∈ siws.Resources msg
                        /\ is_Ok (url_Parse resource) = false) ->
      VerifySIWS now rawMessage signature (Some msg) params
      = Some (siws_Err ErrInvalidResourceURI))
  /\ (exists uri, is_Ok (url_Parse uri) = false
        /\ VerifySIWS now rawMessage signature (Some (withURI msg uri)) params
           = Some (siws_Err ErrInvalidURI)).
Proof.
  intros Hreach. pose proof Hreach as [Hin Hf]. split; [|split].
  - apply VerifySIWS_invalid_uri, Hreach.
  - intros Huri Hres. enter_siws Hin Hf.
    replace (bool_decide (siws.URI msg <> EmptyString)
             && negb (is_Ok (url_Parse (siws.URI msg)))) with false
      by (destruct Huri as [-> | ->]; [reflexivity | symmetry; apply andb_false_r]).
    rewrite existsb_bad_resource by exact Hres. reflexivity.
  - exists (String (ascii_of_nat 127) EmptyString).
    assert (Hbad : is_Ok (url_Parse (String (ascii_of_nat 127) EmptyString)) = false)
      by (apply url_Parse_ctl; reflexivity).
    split; [exact Hbad|].
    assert (Hf' : fieldsAccepted (withURI msg (String (ascii_of_nat 127) EmptyString)) params)
      by exact Hf.
    enter_siws Hin Hf'. cbn [siws.URI withURI].
    rewrite Hbad. reflexivity.
Qed.

(** From step 9 on, [VerifySIWS] is the cascade of the four time guards. *)
Lemma VerifySIWS_at_time_validation now rawMessage signature msg params :
  reachesTimeValidation rawMessage signature msg params ->
  VerifySIWS now rawMessage signature (Some msg) params
  = if futureGuard now msg then Some (siws_Err ErrFutureMessage)
    else if windowGuard now msg params then Some (siws_Err ErrMessageExpired)
    else if notBeforeGuard now msg then Some (siws_Err ErrNotYetValid)
    else if expirationGuard now msg then Some (siws_Err ErrMessageExpired)
    else None.
Proof.
  intros ([Hin Hf] & Hu & Hs).
  destruct (urisAccepted_guards _ Hu) as [U1 U2].
  enter_siws Hin Hf. rewrite U1, U2.
  red in Hs. rewrite Hs. reflexivity.
Qed.

(** [VerifySIWS] returns nil only when every check has passed. *)
Lemma VerifySIWS_accepted now rawMessage signature msg params :
  VerifySIWS now rawMessage signature (Some msg) params = None ->
  reachesTimeValidation rawMessage signature msg params
  /\ futureGuard now msg = false /\ windowGuard now msg params = false
  /\ notBeforeGuard now msg = false /\ expirationGuard now msg = false.
Proof.
  unfold VerifySIWS, futureGuard, windowGuard, notBeforeGuard, expirationGuard.
  repeat match goal with
         | |- (if ?c then Some _ else _) = None -> _ =>
             let E := fresh "G" in destruct c eqn:E; [discriminate|]
         end.
  intros _. split; [|repeat split; assumption].
  repeat match goal with
         | H : negb _ = false |- _ => apply negb_false_iff in H
         | H : bool_decide _ = false |- _ => apply bool_decide_eq_false in H
         end.
  repeat split; auto.
  - destruct signature; [discriminate | congruence].
  - destruct (decide (siws.Domain msg = siws.ExpectedDomain params)); tauto.
  - destruct (decide (siws.Version msg = "1")); tauto.
  - match goal with
    | H : bool_decide (siws.ChainID msg <> _) && _ = false |- _ =>
        apply andb_false_iff in H as [H | H];
        [left; apply bool_decide_eq_false in H;
         destruct (decide (siws.ChainID msg = EmptyString)); tauto
        | right; apply negb_false_iff, H]
    end.
  - match goal with
    | H : bool_decide (siws.Nonce msg <> _) && _ = false |- _ =>
        apply andb_false_iff in H as [H | H];
        [left; apply bool_decide_eq_false in H;
         destruct (decide (siws.Nonce msg = EmptyString)); tauto
        | right; apply Nat.ltb_ge, H]
    end.
  - match goal with
    | H : bool_decide (siws.URI msg <> _) && _ = false |- _ =>
        apply andb_false_iff in H as [H | H];
        [left; apply bool_decide_eq_false in H;
         destruct (decide (siws.URI msg = EmptyString)); tauto
        | right; apply negb_false_iff, H]
    end.
  - apply Forall_forall. intros r Hr.
    destruct (is_Ok (url_Parse r)) eqn:Hp; [reflexivity|].
    assert (existsb (fun resource => negb (is_Ok (url_Parse resource)))
              (siws.Resources msg) = true) as Hex.
    { apply existsb_exists. exists r. rewrite Hp.
      split; [apply list_elem_of_In, Hr | reflexivity]. }
    congruence.
Qed.

Ltac time_cases :=
  unfold futureGuard, windowGuard, notBeforeGuard, expirationGuard,
    Time_Before, Time_After, Time_Add, Time_IsZero, time_Second in *;
  repeat match goal with
         | H : (_ =? _)%Z = false |- _ => apply Z.eqb_neq in H
         | H : context [negb (?a =? ?b)%Z] |- _ => destruct (Z.eqb_spec a b)
         | |- context [negb (?a =? ?b)%Z] => destruct (Z.eqb_spec a b)
         | H : context [(?a <? ?b)%Z] |- _ => destruct (Z.ltb_spec a b)
         | |- context [(?a <? ?b)%Z] => destruct (Z.ltb_spec a b)
         end;
  cbn [negb andb] in *; rewrite ?andb_false_r in *; cbn [negb andb] in *;
  try reflexivity; try discriminate; try lia.

(** C4, amended: for every SIWS message whose [issuedAt] is set and every
    clock reading [now].  If the message reaches the time checks (steps 1 to
    8 pass): [now < issuedAt] is rejected with [ErrFutureMessage]; with
    [CheckTime] and a positive window, [now > issuedAt + window] is rejected
    with [ErrMessageExpired], in particular when
    [issuedAt = now - (window + 1s)]; and [issuedAt = now] passes the time
    checks when [notBefore] and [expirationTime] do not object.  Whether or
    not it reaches them, the message is rejected when [now < issuedAt], when
    the window has run out, when [notBefore] is set and [now < notBefore],
    and when [expirationTime] is set and [now > expirationTime]. *)
Theorem VerifySIWS_time_validation (now : Time) (rawMessage : string)
    (signature : list byte) (msg : siws.SIWSMessage)
    (params : siws.SIWSVerificationParams) :
  Time_IsZero (siws.IssuedAt msg) = false ->
  (* the error kinds, for a message that reaches step 9 *)
  (reachesTimeValidation rawMessage signature msg params ->
     ((now < siws.IssuedAt msg)%Z ->
        VerifySIWS now rawMessage signature (Some msg) params
        = Some (siws_Err ErrFutureMessage))
     /\ (siws.CheckTime params = true -> (0 < siws.TimeDuration params)%Z ->
         (siws.IssuedAt msg + siws.TimeDuration params < now)%Z ->
         VerifySIWS now rawMessage signature (Some msg) params
         = Some (siws_Err ErrMessageExpired))
     /\ (siws.CheckTime params = true -> (0 < siws.TimeDuration params)%Z ->
         siws.IssuedAt msg = (now - (siws.TimeDuration params + time_Second))%Z ->
         VerifySIWS now rawMessage signature (Some msg) params
         = Some (siws_Err ErrMessageExpired))
     /\ (siws.IssuedAt msg = now ->
         (Time_IsZero (siws.NotBefore msg) = true \/ (siws.NotBefore msg <= now)%Z) ->
         (Time_IsZero (siws.ExpirationTime msg) = true
          \/ (now <= siws.ExpirationTime msg)%Z) ->
         VerifySIWS now rawMessage signature (Some msg) params = None))
  (* rejection, for every message *)
  /\ ((now < siws.IssuedAt msg)%Z ->
      VerifySIWS now rawMessage signature (Some msg) params <> None)
  /\ (siws.CheckTime params = true -> (0 < siws.TimeDuration params)%Z ->
      (siws.IssuedAt msg + siws.TimeDuration params < now)%Z ->
      VerifySIWS now rawMessage signature (Some msg) params <> None)
  /\ (Time_IsZero (siws.NotBefore msg) = false -> (now < siws.NotBefore msg)%Z ->
      VerifySIWS now rawMessage signature (Some msg) params <> None)
  /\ (Time_IsZero (siws.ExpirationTime msg) = false ->
      (siws.ExpirationTime msg < now)%Z ->
      VerifySIWS now rawMessage signature (Some msg) params <> None).
Proof.
  intros Hset. split; [|repeat split].
  - intros Hreach. rewrite (VerifySIWS_at_time_validation _ _ _ _ _ Hreach).
    repeat split.
    + intros Hlt. time_cases.
    + intros Hc Hw Hlt. unfold windowGuard. rewrite Hc. time_cases.
    + intros Hc Hw Heq. unfold windowGuard. rewrite Hc. time_cases.
    + intros Heq [Hnb|Hnb] [Hex|Hex];
        time_cases.
  - intros Hlt Hnil. apply VerifySIWS_accepted in Hnil as (_ & G & _). time_cases.
  - intros Hc Hw Hlt Hnil. apply VerifySIWS_accepted in Hnil as (_ & _ & G & _).
    unfold windowGuard in G. rewrite Hc in G. time_cases.
  - intros Hnb Hlt Hnil. apply VerifySIWS_accepted in Hnil as (_ & _ & _ & G & _).
    time_cases.
  - intros Hex Hlt Hnil. apply VerifySIWS_accepted in Hnil as (_ & _ & _ & _ & G).
    time_cases.
Qed.

(** X1: [VerifySIWS] returns nil exactly when the inputs are present, the
    fields, the URIs and the signature are accepted, and the clock reading
    is not before [issuedAt], not after the validity window, not before
    [notBefore] and not after [expirationTime], each where set. *)
Theorem VerifySIWS_nil_iff (now : Time) (rawMessage : string)
    (signature : list byte) (msg : siws.SIWSMessage)
    (params : siws.SIWSVerificationParams) :
  VerifySIWS now rawMessage signature (Some msg) params = None
  <-> reachesTimeValidation rawMessage signature msg params
      /\ (Time_IsZero (siws.IssuedAt msg) = true
          \/ ((siws.IssuedAt msg <= now)%Z
              /\ (siws.CheckTime params = true ->
                  (0 < siws.TimeDuration params)%Z ->
                  (now <= siws.IssuedAt msg + siws.TimeDuration params)%Z)))
      /\ (Time_IsZero (siws.NotBefore msg) = true \/ (siws.NotBefore msg <= now)%Z)
      /\ (Time_IsZero (siws.ExpirationTime msg) = true
          \/ (now <= siws.ExpirationTime msg)%Z).
Proof.
  split.
  - intros Hnil.
    apply VerifySIWS_accepted in Hnil as (Hreach & G1 & G2 & G3 & G4).
    split; [exact Hreach|].
    unfold futureGuard, windowGuard, notBeforeGuard, expirationGuard,
      Time_IsZero, Time_Before, Time_After, Time_Add in *.
    destruct (Z.eqb_spec (siws.IssuedAt msg) time_zero);
      destruct (Z.eqb_spec (siws.NotBefore msg) time_zero);
      destruct (Z.eqb_spec (siws.ExpirationTime msg) time_zero);
      cbn [negb andb] in *;
      repeat match goal with
             | H : context [(?a <? ?b)%Z] |- _ => destruct (Z.ltb_spec a b)
             end;
      rewrite ?andb_false_r, ?andb_true_r in *; try discriminate;
      repeat split;
      first [left; reflexivity
            | right; first [lia | split; [lia | intros Hc Hw; subst; try lia]]];
      try (rewrite Hc in *; discriminate).
  - intros (Hreach & Hissued & Hnb & Hexp).
    rewrite (VerifySIWS_at_time_validation _ _ _ _ _ Hreach).
    unfold windowGuard.
    destruct (siws.CheckTime params);
      destruct Hissued as [Hi|[Hi Hw]], Hnb as [Hn|Hn], Hexp as [He|He];
      time_cases.
Qed.

(** C5, amended: for every verification whose raw message and signature
    are not empty and whose parsed message is present: an empty expected
    domain is rejected with [ErrMissingDomain]; and when the expected domain
    is not empty and the message's domain is well formed, any difference
    between the two strings is rejected with [ErrDomainMismatch], whatever
    the signature, the other fields and the time are. *)
Theorem VerifySIWS_domain_binding (now : Time) (rawMessage : string)
    (signature : list byte) (msg : siws.SIWSMessage)
    (params : siws.SIWSVerificationParams) :
  inputsPresent rawMessage signature ->
  (siws.ExpectedDomain params = EmptyString ->
     VerifySIWS now rawMessage signature (Some msg) params
     = Some (siws_Err ErrMissingDomain))
  /\ (siws.ExpectedDomain params <> EmptyString ->
      siws_IsValidDomain (siws.Domain msg) = true ->
      siws.Domain msg <> siws.ExpectedDomain params ->
      VerifySIWS now rawMessage signature (Some msg) params
      = Some (siws_Err ErrDomainMismatch)).
Proof.
  intros Hin. destruct (inputsPresent_guards _ _ Hin) as [G1 G2].
  unfold VerifySIWS. rewrite G1, G2. split.
  - intros ->. reflexivity.
  - intros Hexp Hdom Hne.
    rewrite Hdom, (bool_decide_eq_false_2 _ Hexp), (bool_decide_eq_true_2 _ Hne).
    reflexivity.
Qed.

(** An empty raw message or an empty signature is reported before anything
    else is looked at. *)
Lemma VerifySIWS_empty_raw_message now signature msg params :
  VerifySIWS now EmptyString signature msg params
  = Some (siws_Err ErrEmptyRawMessage).
Proof. reflexivity. Qed.

Lemma VerifySIWS_empty_signature now rawMessage msg params :
  rawMessage <> EmptyString ->
  VerifySIWS now rawMessage [] msg params = Some (siws_Err ErrEmptySignature).
Proof.
  intros Hraw. unfold VerifySIWS.
  rewrite (bool_decide_eq_false_2 _ Hraw). reflexivity.
Qed.

End SIWS.

Lemma solanaMessage_reaches_time_validation (issuedAt : Time) :
  reachesTimeValidation (H:=Fake.siwsLib) "hello" helloSignature
    (solanaMessage "example.com" "https://example.com" ["https://example.com/r"] issuedAt)
    fiveMinutes.
Proof.
  unfold reachesTimeValidation, reachesURIValidation, inputsPresent,
    fieldsAccepted, urisAccepted, signatureAccepted.
  repeat split; try discriminate; try (vm_compute; reflexivity).
  - left. reflexivity.
  - right. cbn. lia.
  - right. reflexivity.
  - repeat constructor.
Defined.

(** C4, amended, at concrete inputs: with the stand-ins, the message issued
    at [t0] is rejected as a future message one second before [t0], as
    expired 301 seconds after, and accepted at [t0]. *)
Lemma VerifySIWS_time_validation_witness :
  Time_IsZero (siws.IssuedAt helloMessage) = false
  /\ reachesTimeValidation (H:=Fake.siwsLib) "hello" helloSignature
       helloMessage fiveMinutes
  /\ VerifySIWS (H:=Fake.siwsLib) (t0 - time_Second)%Z "hello" helloSignature
       (Some helloMessage) fiveMinutes
     = Some (siws_Err ErrFutureMessage)
  /\ VerifySIWS (H:=Fake.siwsLib) (t0 + 301 * time_Second)%Z "hello" helloSignature
       (Some helloMessage) fiveMinutes
     = Some (siws_Err ErrMessageExpired)
  /\ VerifySIWS (H:=Fake.siwsLib) t0 "hello" helloSignature
       (Some helloMessage) fiveMinutes
     = None.
Proof.
  split; [reflexivity|].
  split; [apply solanaMessage_reaches_time_validation|].
  split; [|split].
  - apply (VerifySIWS_time_validation (H:=Fake.siwsLib) (t0 - time_Second)%Z
             "hello" helloSignature helloMessage fiveMinutes eq_refl).
    + apply solanaMessage_reaches_time_validation.
    + reflexivity.
  - apply (VerifySIWS_time_validation (H:=Fake.siwsLib) (t0 + 301 * time_Second)%Z
             "hello" helloSignature helloMessage fiveMinutes eq_refl).
    + apply solanaMessage_reaches_time_validation.
    + reflexivity.
    + reflexivity.
    + reflexivity.
  - apply (VerifySIWS_time_validation (H:=Fake.siwsLib) t0
             "hello" helloSignature helloMessage fiveMinutes eq_refl).
    + apply solanaMessage_reaches_time_validation.
    + reflexivity.
    + left. reflexivity.
    + left. reflexivity.
Defined.

(** C4 as stated fails for a message that does not reach step 9.  A message
    issued in the future is rejected for its empty signature, whatever the
    imported packages compute; and, with the stand-ins, a correctly signed
    message issued in the future for another domain is rejected for the
    domain.  Neither is reported as a future message. *)
Lemma VerifySIWS_future_message_not_reported :
  Time_IsZero (t0 + time_Second)%Z = false
  /\ (t0 < t0 + time_Second)%Z
  /\ (forall L : SIWSLib,
        VerifySIWS (H:=L) t0 "hello" []
          (Some (solanaMessage "example.com" "https://example.com" []
                   (t0 + time_Second)%Z)) fiveMinutes
        = Some (siws_Err ErrEmptySignature))
  /\ VerifySIWS (H:=Fake.siwsLib) t0 "hello" helloSignature
       (Some (solanaMessage "example.org" "https://example.com" []
                (t0 + time_Second)%Z)) fiveMinutes
     = Some (siws_Err ErrDomainMismatch).
Proof.
  split; [reflexivity|]. split; [reflexivity|]. split.
  - intros L. apply VerifySIWS_empty_signature. intros Hx. discriminate Hx.
  - vm_compute. reflexivity.
Qed.

(** X1 at a concrete call: with the
    stand-ins, the message issued at [t0] is accepted at [t0]. *)
Lemma VerifySIWS_nil_iff_witness :
  VerifySIWS (H:=Fake.siwsLib) t0 "hello" helloSignature (Some helloMessage)
    fiveMinutes = None.
Proof.
  apply (VerifySIWS_nil_iff (H:=Fake.siwsLib) t0 "hello" helloSignature
           helloMessage fiveMinutes).
  split; [apply solanaMessage_reaches_time_validation|].
  split; [right; split; [reflexivity | intros _ _; vm_compute; discriminate]|].
  split; left; reflexivity.
Defined.

(** C5, amended, at concrete inputs: with the stand-ins, a correctly signed
    message for [example.org] is a domain mismatch when [example.com] is
    expected, and an empty expected domain is a missing domain. *)
Lemma VerifySIWS_domain_binding_witness :
  inputsPresent "hello" helloSignature
  /\ siws_IsValidDomain (SIWSLib:=Fake.siwsLib) (siws.Domain otherDomainMessage) = true
  /\ VerifySIWS (H:=Fake.siwsLib) t0 "hello" helloSignature
       (Some otherDomainMessage) fiveMinutes
     = Some (siws_Err ErrDomainMismatch)
  /\ VerifySIWS (H:=Fake.siwsLib) t0 "hello" helloSignature
       (Some otherDomainMessage)
       {| siws.ExpectedDomain := EmptyString; siws.CheckTime := true;
          siws.TimeDuration := (300 * time_Second)%Z |}
     = Some (siws_Err ErrMissingDomain).
Proof.
  assert (Hin : inputsPresent "hello" helloSignature)
    by (split; intros Hx; discriminate Hx).
  split; [exact Hin|]. split; [reflexivity|]. split.
  - apply (VerifySIWS_domain_binding (H:=Fake.siwsLib) t0 "hello" helloSignature
             otherDomainMessage fiveMinutes Hin).
    + intros Hx. discriminate Hx.
    + reflexivity.
    + intros Hx. discriminate Hx.
  - apply (VerifySIWS_domain_binding (H:=Fake.siwsLib) t0 "hello" helloSignature
             otherDomainMessage _ Hin).
    reflexivity.
Defined.

(** C5 as stated fails when step 1 rejects first: with a non-empty expected
    domain and a message for another domain, an empty signature or an empty
    raw message is what [VerifySIWS] reports, at any time and whatever the
    imported packages compute (so also when they find the message's domain
    well formed, as the stand-ins do). *)
Lemma VerifySIWS_domain_mismatch_not_reported :
  siws.ExpectedDomain fiveMinutes <> EmptyString
  /\ siws.Domain otherDomainMessage <> siws.ExpectedDomain fiveMinutes
  /\ siws_IsValidDomain (SIWSLib:=Fake.siwsLib) (siws.Domain otherDomainMessage) = true
  /\ (forall (L : SIWSLib) (now : Time),
        VerifySIWS (H:=L) now "hello" [] (Some otherDomainMessage) fiveMinutes
        = Some (siws_Err ErrEmptySignature))
  /\ (forall (L : SIWSLib) (now : Time),
        VerifySIWS (H:=L) now EmptyString helloSignature (Some otherDomainMessage)
          fiveMinutes
        = Some (siws_Err ErrEmptyRawMessage)).
Proof.
  split; [intros Hx; discriminate Hx|]. split; [intros Hx; discriminate Hx|].
  split; [reflexivity|]. split.
  - intros L now. apply VerifySIWS_empty_signature. intros Hx. discriminate Hx.
  - intros L now. apply VerifySIWS_empty_raw_message.
Qed.

Lemma brokenMessage_reaches_uri_validation :
  reachesURIValidation (H:=Fake.siwsLib) "hello" helloSignature
    brokenMessage fiveMinutes.
Proof.
  unfold reachesURIValidation, inputsPresent, fieldsAccepted.
  repeat split; try (intros Hx; discriminate Hx);
    try (vm_compute; reflexivity).
  - left. reflexivity.
  - right. cbn. lia.
Defined.

(** C8, amended, at concrete inputs: with the stand-ins, the message with
    a broken [URI] is an invalid URI; with a sound [URI] and a broken
    resource it is an invalid resource URI. *)
Lemma VerifySIWS_uri_validation_witness :
  reachesURIValidation (H:=Fake.siwsLib) "hello" helloSignature
    brokenMessage fiveMinutes
  /\ VerifySIWS (H:=Fake.siwsLib) t0 "hello" helloSignature
       (Some brokenMessage) fiveMinutes
     = Some (siws_Err ErrInvalidURI)
  /\ VerifySIWS (H:=Fake.siwsLib) t0 "hello" helloSignature
       (Some (withURI brokenMessage "https://example.com")) fiveMinutes
     = Some (siws_Err ErrInvalidResourceURI).
Proof.
  split; [apply brokenMessage_reaches_uri_validation|]. split.
  - apply (VerifySIWS_uri_validation (H:=Fake.siwsLib) t0 "hello" helloSignature
             brokenMessage fiveMinutes brokenMessage_reaches_uri_validation).
    + intros Hx. discriminate Hx.
    + reflexivity.
  - apply (VerifySIWS_uri_validation (H:=Fake.siwsLib) t0 "hello" helloSignature
             (withURI brokenMessage "https://example.com") fiveMinutes
             brokenMessage_reaches_uri_validation).
    + right. reflexivity.
    + exists brokenURI. split; [apply list_elem_of_here | reflexivity].
Defined.

(** C8 as stated fails when both the [URI] and a resource are unparsable:
    the message reaches step 7 (with the stand-ins), net/url refuses the
    line feed in both, and whenever the message reaches step 7, whatever
    the imported packages compute, the error is the invalid URI, not the
    invalid resource URI. *)
Lemma VerifySIWS_invalid_resource_not_reported :
  reachesURIValidation (H:=Fake.siwsLib) "hello" helloSignature
    brokenMessage fiveMinutes
  /\ brokenURI ∈ siws.Resources brokenMessage
  /\ (forall (L : SIWSLib) (now : Time),
        is_Ok (url_Parse (SIWSLib:=L) brokenURI) = false
        /\ (reachesURIValidation (H:=L) "hello" helloSignature
              brokenMessage fiveMinutes ->
            VerifySIWS (H:=L) now "hello" helloSignature (Some brokenMessage)
              fiveMinutes
            = Some (siws_Err ErrInvalidURI)))
  /\ VerifySIWS (H:=Fake.siwsLib) t0 "hello" helloSignature (Some brokenMessage)
       fiveMinutes
     = Some (siws_Err ErrInvalidURI).
Proof.
  split; [apply brokenMessage_reaches_uri_validation|].
  split; [apply list_elem_of_here|].
  assert (Hbad : forall L : SIWSLib, is_Ok (url_Parse (SIWSLib:=L) brokenURI) = false)
    by (intros L; apply url_Parse_ctl; reflexivity).
  split.
  - intros L now. split; [apply Hbad|].
    intros Hreach. apply VerifySIWS_invalid_uri; [exact Hreach | | apply Hbad].
    intros Hx. discriminate Hx.
  - apply VerifySIWS_invalid_uri.
    + apply brokenMessage_reaches_uri_validation.
    + intros Hx. discriminate Hx.
    + apply Hbad.
Qed.

(** ** Raw URL base64 *)

Section Base64.
Local Open Scope N_scope.

Lemma byte_val_bound (b : byte) : byte_val b < 256.
Proof. pose proof (Byte.to_N_bounded b). unfold byte_val. lia. Qed.

Lemma byte_wrap_mod (n : N) (b : byte) : n mod 256 = byte_val b -> byte_wrap n = b.
Proof.
  intros Hn. rewrite <- (byte_wrap_val b), <- Hn.
  unfold byte_wrap. rewrite N.Div0.mod_mod. reflexivity.
Qed.

(** Bits that do not overlap add up. *)
Lemma lor_mul_pow2_low (x y k : N) :
  y < 2 ^ k -> N.lor (x * 2 ^ k) y = x * 2 ^ k + y.
Proof.
  intros Hy.
  rewrite <- N.lxor_lor, <- N.add_nocarry_lxor; try reflexivity.
  all: apply N.bits_inj; intros n; rewrite N.land_spec, N.bits_0.
  all: destruct (N.lt_ge_cases n k) as [Hn|Hn].
  all: try (rewrite N.mul_pow2_bits_low by exact Hn; reflexivity).
  all: destruct (N.eq_dec y 0) as [->|Hy0];
    [rewrite N.bits_0; apply andb_false_r|].
  all: rewrite (N.bits_above_log2 y n), andb_false_r; [reflexivity|].
  all: apply N.lt_le_trans with k; [apply N.log2_lt_pow2; lia | exact Hn].
Qed.

Lemma land_63 (v : N) : N.land v 63 = v mod 64.
Proof. change 63 with (N.ones 6). rewrite N.land_ones. reflexivity. Qed.

Lemma lor3_bytes (a b c : N) :
  a < 256 -> b < 256 -> c < 256 ->
  N.lor (N.lor (N.shiftl a 16) (N.shiftl b 8)) c = a * 65536 + b * 256 + c.
Proof.
  intros Ha Hb Hc. rewrite !N.shiftl_mul_pow2.
  rewrite (lor_mul_pow2_low a (b * 2 ^ 8) 16) by (change (2 ^ 16) with 65536; change (2 ^ 8) with 256; lia).
  replace (a * 2 ^ 16 + b * 2 ^ 8) with ((a * 256 + b) * 2 ^ 8)
    by (change (2 ^ 16) with 65536; change (2 ^ 8) with 256; lia).
  rewrite lor_mul_pow2_low by (change (2 ^ 8) with 256; lia).
  change (2 ^ 8) with 256. lia.
Qed.

Lemma lor4_sextets (a b c d : N) :
  a < 64 -> b < 64 -> c < 64 -> d < 64 ->
  N.lor (N.lor (N.lor (N.shiftl a 18) (N.shiftl b 12)) (N.shiftl c 6)) d
  = a * 262144 + b * 4096 + c * 64 + d.
Proof.
  intros Ha Hb Hc Hd. rewrite !N.shiftl_mul_pow2.
  rewrite (lor_mul_pow2_low a (b * 2 ^ 12) 18)
    by (change (2 ^ 18) with 262144; change (2 ^ 12) with 4096; lia).
  replace (a * 2 ^ 18 + b * 2 ^ 12) with ((a * 64 + b) * 2 ^ 12)
    by (change (2 ^ 18) with 262144; change (2 ^ 12) with 4096; lia).
  rewrite (lor_mul_pow2_low _ (c * 2 ^ 6) 12)
    by (change (2 ^ 12) with 4096; change (2 ^ 6) with 64; lia).
  replace ((a * 64 + b) * 2 ^ 12 + c * 2 ^ 6) with (((a * 64 + b) * 64 + c) * 2 ^ 6)
    by (change (2 ^ 12) with 4096; change (2 ^ 6) with 64; lia).
  rewrite lor_mul_pow2_low by (change (2 ^ 6) with 64; lia).
  change (2 ^ 6) with 64. lia.
Qed.

Lemma sextet_div (val shift : N) : sextet val shift = (val / 2 ^ shift) mod 64.
Proof. unfold sextet. rewrite land_63, N.shiftr_div_pow2. reflexivity. Qed.

Lemma sextet_bound (val shift : N) : sextet val shift < 64.
Proof. rewrite sextet_div. apply N.mod_upper_bound. lia. Qed.

Lemma div_mod_step (v k : N) :
  k <> 0 -> exists q r, v = k * q + r /\ r < k /\ v / k = q /\ v mod k = r.
Proof.
  intros Hk. exists (v / k), (v mod k).
  repeat split; [apply N.div_mod; exact Hk | apply N.mod_upper_bound; exact Hk].
Qed.

Lemma sextets_recompose (v : N) :
  v < 16777216 ->
  (v / 262144) mod 64 * 262144 + (v / 4096) mod 64 * 4096
  + (v / 64) mod 64 * 64 + v mod 64 = v.
Proof.
  intros Hv.
  assert (H1 : v / 4096 = v / 64 / 64) by (rewrite N.Div0.div_div; reflexivity).
  assert (H2 : v / 262144 = v / 64 / 64 / 64) by (rewrite !N.Div0.div_div; reflexivity).
  rewrite H1, H2.
  destruct (div_mod_step v 64) as (q1 & r1 & E1 & B1 & -> & ->); [lia|].
  destruct (div_mod_step q1 64) as (q2 & r2 & E2 & B2 & -> & ->); [lia|].
  destruct (div_mod_step q2 64) as (q3 & r3 & E3 & B3 & -> & ->); [lia|].
  destruct (div_mod_step q3 64) as (q4 & r4 & E4 & B4 & _ & ->); [lia|].
  lia.
Qed.

Lemma quantum3 (a b c : byte) :
  let val := N.lor (N.lor (N.shiftl (byte_val a) 16) (N.shiftl (byte_val b) 8))
               (byte_val c) in
  let val' := N.lor (N.lor (N.lor (N.shiftl (sextet val 18) 18)
                                   (N.shiftl (sextet val 12) 12))
                            (N.shiftl (sextet val 6) 6)) (N.land val 63) in
  byte_wrap (N.shiftr val' 16) = a /\ byte_wrap (N.shiftr val' 8) = b
  /\ byte_wrap val' = c.
Proof.
  intros val val'.
  pose proof (byte_val_bound a) as Ha. pose proof (byte_val_bound b) as Hb.
  pose proof (byte_val_bound c) as Hc.
  assert (Hval : val = byte_val a * 65536 + byte_val b * 256 + byte_val c)
    by (apply lor3_bytes; assumption).
  assert (Hval' : val' = val).
  { subst val'. rewrite lor4_sextets;
      rewrite ?land_63, ?sextet_div; try (apply N.mod_upper_bound; lia).
    change (2 ^ 18) with 262144. change (2 ^ 12) with 4096. change (2 ^ 6) with 64.
    apply sextets_recompose. lia. }
  rewrite Hval', !N.shiftr_div_pow2, Hval.
  change (2 ^ 16) with 65536. change (2 ^ 8) with 256.
  assert (D1 : (byte_val a * 65536 + byte_val b * 256 + byte_val c) / 65536
               = byte_val a)
    by (symmetry; apply (N.div_unique _ _ _ (byte_val b * 256 + byte_val c)); lia).
  assert (D2 : (byte_val a * 65536 + byte_val b * 256 + byte_val c) / 256
               = byte_val a * 256 + byte_val b)
    by (symmetry; apply (N.div_unique _ _ _ (byte_val c)); lia).
  rewrite D1, D2. repeat split; apply byte_wrap_mod.
  - apply N.mod_small. lia.
  - symmetry. apply (N.mod_unique _ _ (byte_val a)); lia.
  - symmetry. apply (N.mod_unique _ _ (byte_val a * 256 + byte_val b)); lia.
Qed.

Lemma alphabet_ok_all (x : N) : x < 64 -> alphabet_ok x = true.
Proof.
  intros Hx.
  assert (Hall : forallb alphabet_ok (map N.of_nat (seq 0 64)) = true)
    by (vm_compute; reflexivity).
  rewrite forallb_forall in Hall. apply Hall.
  apply in_map_iff. exists (N.to_nat x). split; [lia|].
  apply in_seq. lia.
Qed.

Lemma b64_sextets_char (x : N) (s : string) :
  x < 64 ->
  b64_sextets (String (b64_char x) s)
  = match b64_sextets s with
    | None => None
    | Some l => Some (x :: l)
    end.
Proof.
  intros Hx. pose proof (alphabet_ok_all x Hx) as Hok. unfold alphabet_ok in Hok.
  cbn [b64_sextets].
  destruct (b64_index (b64_char x)) as [y|]; [|discriminate].
  apply andb_true_iff in Hok as [Hy Hnl].
  apply N.eqb_eq in Hy as ->. apply negb_true_iff in Hnl. rewrite Hnl.
  reflexivity.
Qed.

Lemma quantum1 (a : byte) :
  b64_quanta [sextet (N.shiftl (byte_val a) 16) 18;
              sextet (N.shiftl (byte_val a) 16) 12] = Some [a].
Proof. destruct a; vm_compute; reflexivity. Qed.

Lemma quantum2 (a b : byte) :
  let val := N.lor (N.shiftl (byte_val a) 16) (N.shiftl (byte_val b) 8) in
  b64_quanta [sextet val 18; sextet val 12; sextet val 6] = Some [a; b].
Proof.
  intros val. cbn [b64_quanta].
  pose proof (quantum3 a b Byte.x00) as Hq. cbn zeta in Hq.
  change (byte_val Byte.x00) with 0 in Hq. rewrite N.lor_0_r in Hq. fold val in Hq.
  assert (Hlow : N.land val 63 = 0).
  { rewrite land_63. subst val.
    pose proof (lor3_bytes (byte_val a) (byte_val b) 0 (byte_val_bound a)
                  (byte_val_bound b)) as Hv.
    rewrite N.lor_0_r in Hv. rewrite Hv by lia.
    symmetry. apply (N.mod_unique _ _ (byte_val a * 1024 + byte_val b * 4)); lia. }
  rewrite Hlow, N.lor_0_r in Hq. destruct Hq as (Ha & Hb & _).
  unfold sextet in *. rewrite Ha, Hb. reflexivity.
Qed.

Lemma base64_sextets_quanta (n : nat) (bs : list byte) :
  (length bs <= n)%nat ->
  exists l, b64_sextets (base64_RawURLEncoding_EncodeToString bs) = Some l
            /\ b64_quanta l = Some bs.
Proof.
  revert bs. induction n as [|n IH]; intros bs Hlen.
  - destruct bs; [|cbn in Hlen; lia]. exists []. split; reflexivity.
  - destruct bs as [|a [|b [|c rest]]].
    + exists []. split; reflexivity.
    + eexists. split; [|apply quantum1].
      cbn [base64_RawURLEncoding_EncodeToString]. cbn zeta.
      rewrite !b64_sextets_char by apply sextet_bound. reflexivity.
    + eexists. split; [|apply quantum2].
      cbn [base64_RawURLEncoding_EncodeToString]. cbn zeta.
      rewrite !b64_sextets_char by apply sextet_bound. reflexivity.
    + destruct (IH rest) as (l & Hs & Hq); [cbn in Hlen; lia|].
      eexists. split.
      * cbn [base64_RawURLEncoding_EncodeToString]. cbn zeta.
        rewrite !b64_sextets_char
          by (first [apply sextet_bound | rewrite land_63; apply N.mod_upper_bound; lia]).
        rewrite Hs. reflexivity.
      * cbn [b64_quanta]. rewrite Hq.
        destruct (quantum3 a b c) as (Ha & Hb & Hc). unfold sextet in *.
        rewrite Ha, Hb, Hc. reflexivity.
Qed.

(** Decoding undoes encoding. *)
Lemma base64_DecodeString_EncodeToString (bs : list byte) :
  base64_RawURLEncoding_DecodeString (base64_RawURLEncoding_EncodeToString bs)
  = Ok bs.
Proof.
  destruct (base64_sextets_quanta (length bs) bs (le_n _)) as (l & Hs & Hq).
  unfold base64_RawURLEncoding_DecodeString. rewrite Hs, Hq. reflexivity.
Qed.

Lemma base64_EncodeToString_inj (bs bs' : list byte) :
  base64_RawURLEncoding_EncodeToString bs = base64_RawURLEncoding_EncodeToString bs' ->
  bs = bs'.
Proof.
  intros He. apply (f_equal base64_RawURLEncoding_DecodeString) in He.
  rewrite !base64_DecodeString_EncodeToString in He. congruence.
Qed.

Lemma b64_char_safe (x : N) : x < 64 -> b64_char x ∈ encodeURL.
Proof.
  intros Hx. apply list_elem_of_In, nth_In.
  change (length encodeURL) with 64%nat. lia.
Qed.

Lemma base64_EncodeToString_urlSafe (bs : list byte) :
  urlSafe (base64_RawURLEncoding_EncodeToString bs).
Proof.
  unfold urlSafe.
  assert (Hn : forall n bs, (length bs <= n)%nat ->
             Forall (fun c => c ∈ encodeURL)
               (list_ascii_of_string (base64_RawURLEncoding_EncodeToString bs))).
  { clear bs. induction n as [|n IH]; intros bs Hlen.
    - destruct bs; [constructor | cbn in Hlen; lia].
    - destruct bs as [|a [|b [|c rest]]];
        cbn [base64_RawURLEncoding_EncodeToString list_ascii_of_string]; cbn zeta;
        repeat (constructor;
                [apply b64_char_safe;
                 first [apply sextet_bound
                       | rewrite land_63; apply N.mod_upper_bound; lia]|]);
        try constructor.
      apply IH. cbn in Hlen. lia. }
  apply (Hn (length bs)). lia.
Qed.

End Base64.

(** ** The provider *)

Section Provider.
Context `{ConfLib} `{SIWSLib}.

(** C10: a configuration whose [Enabled] flag is false gives the error
    [Web3 provider is not enabled] and no provider, whatever else it holds;
    and [NewWeb3Provider] returns a provider exactly when [Enabled] is true,
    the chain table parses, and the default chain, if not empty, is a key
    of the parsed table -- the provider then holds the configuration, that
    table and that default chain. *)
Theorem NewWeb3Provider_enabled (config : conf.Web3Configuration) :
  (conf.Enabled config = false ->
     NewWeb3Provider config = Err (errors_New "Web3 provider is not enabled"))
  /\ (forall p, NewWeb3Provider config = Ok p
        <-> conf.Enabled config = true
            /\ exists chains,
                 conf_ParseSupportedChains config = Ok chains
                 /\ (conf.DefaultChain config <> EmptyString ->
                     is_Some (chains !! conf.DefaultChain config))
                 /\ p = {| config := config; chains := chains;
                           defaultChain := conf.DefaultChain config |}).
Proof.
  unfold NewWeb3Provider. split.
  - intros ->. reflexivity.
  - intros p. destruct (conf.Enabled config); cbn [negb].
    2:{ split; [discriminate | intros [Hx _]; discriminate Hx]. }
    destruct (conf_ParseSupportedChains config) as [chains|e].
    2:{ split; [discriminate | intros (_ & ? & Hx & _); discriminate Hx]. }
    destruct (decide (conf.DefaultChain config = EmptyString)) as [He|Hne].
    + rewrite bool_decide_eq_false_2 by tauto. cbn [andb]. split.
      * intros [= <-]. split; [reflexivity|]. exists chains. tauto.
      * intros (_ & ? & [= <-] & _ & ->). reflexivity.
    + rewrite (bool_decide_eq_true_2 _ Hne). cbn [andb].
      destruct (decide (is_Some (chains !! conf.DefaultChain config))) as [Hs|Hs].
      * rewrite (bool_decide_eq_true_2 _ Hs). cbn [negb]. split.
        -- intros [= <-]. split; [reflexivity|]. exists chains. tauto.
        -- intros (_ & ? & [= <-] & _ & ->). reflexivity.
      * rewrite (bool_decide_eq_false_2 _ Hs). cbn [negb]. split.
        -- discriminate.
        -- intros (_ & ? & [= <-] & Hd & _). tauto.
Qed.

Lemma GenerateSignMessage_solana p address chain uri r now chainCfg :
  chains p !! resolvedChain p chain = Some chainCfg ->
  conf.NetworkName chainCfg = BlockchainSolana ->
  GenerateSignMessage p address chain uri r now
  = (Ok (siws_ConstructMessage
           (solanaChallenge p address uri (SecureToken r).1 now)),
     (SecureToken r).2).
Proof.
  intros Hchain Hnet. unfold GenerateSignMessage. fold (resolvedChain p chain).
  rewrite Hchain. destruct (SecureToken r) as [nonce r'].
  rewrite Hnet. reflexivity.
Qed.

Lemma GenerateSignMessage_ethereum p address chain uri r now chainCfg :
  chains p !! resolvedChain p chain = Some chainCfg ->
  conf.NetworkName chainCfg = BlockchainEthereum ->
  GenerateSignMessage p address chain uri r now
  = (Ok (ethereumSignMessage p chainCfg address uri now), (SecureToken r).2).
Proof.
  intros Hchain Hnet. unfold GenerateSignMessage. fold (resolvedChain p chain).
  rewrite Hchain. destruct (SecureToken r) as [nonce r'].
  rewrite Hnet. reflexivity.
Qed.

Lemma string_app_assoc (a b c : string) : (a ++ b) ++ c = a ++ b ++ c.
Proof.
  induction a as [|x a IH]; [reflexivity|].
  change (String x ((a ++ b) ++ c) = String x (a ++ b ++ c)).
  rewrite IH. reflexivity.
Qed.

(** The nonce line of the Ethereum challenge is the clock reading in Unix
    nanoseconds, in decimal. *)
Lemma ethereumSignMessage_nonce p chainCfg address uri now :
  exists before after,
    ethereumSignMessage p chainCfg address uri now
    = before ++ "Nonce: " ++ pretty (Time_UnixNano now) ++ newline ++ after.
Proof.
  exists (conf.Domain (config p) ++ " wants you to sign in with your "
            ++ conf.NetworkName chainCfg ++ " account:" ++ newline
            ++ address ++ newline ++ newline
            ++ "URI: " ++ uri ++ newline
            ++ "Version: " ++ conf.Version (config p) ++ newline
            ++ "Chain ID: " ++ conf.ChainID chainCfg ++ newline).
  eexists. unfold ethereumSignMessage.
  rewrite !string_app_assoc. reflexivity.
Qed.

(** What [SecureToken] returns: the raw URL base64 text of the next 16 bytes
    of the random source, 22 characters of the URL alphabet; different
    bytes give different tokens. *)
Lemma SecureToken_spec (r : RandReader) :
  (SecureToken r).1 = base64_RawURLEncoding_EncodeToString (map r (seq 0 16))
  /\ String.length (SecureToken r).1 = 22%nat
  /\ urlSafe (SecureToken r).1
  /\ (forall r', map r (seq 0 16) <> map r' (seq 0 16) ->
        (SecureToken r).1 <> (SecureToken r').1).
Proof.
  split; [reflexivity|]. split; [reflexivity|]. split.
  - apply base64_EncodeToString_urlSafe.
  - intros r' Hne Heq. apply Hne, base64_EncodeToString_inj, Heq.
Qed.

(** C6, amended: for a chain of the Solana family, the challenge is the SIWS
    text of a message whose nonce is [SecureToken]'s: the raw URL base64 of
    the next 16 bytes of the random source, 22 characters of the URL-safe
    alphabet, different for different bytes.  For a chain of the Ethereum
    family the challenge does not depend on the random source: its nonce
    line is the clock reading in Unix nanoseconds. *)
Theorem GenerateSignMessage_nonce (p : Web3Provider)
    (address chain uri : string) (r : RandReader) (now : Time)
    (chainCfg : conf.BlockchainConfig) :
  chains p !! resolvedChain p chain = Some chainCfg ->
  (conf.NetworkName chainCfg = BlockchainSolana ->
     (GenerateSignMessage p address chain uri r now).1
     = Ok (siws_ConstructMessage
             (solanaChallenge p address uri (SecureToken r).1 now))
     /\ (SecureToken r).1
        = base64_RawURLEncoding_EncodeToString (map r (seq 0 16))
     /\ String.length (SecureToken r).1 = 22%nat
     /\ urlSafe (SecureToken r).1
     /\ (forall r', map r (seq 0 16) <> map r' (seq 0 16) ->
           (SecureToken r).1 <> (SecureToken r').1))
  /\ (conf.NetworkName chainCfg = BlockchainEthereum ->
      (forall r',
         (GenerateSignMessage p address chain uri r' now).1
         = Ok (ethereumSignMessage p chainCfg address uri now))
      /\ exists before after,
           ethereumSignMessage p chainCfg address uri now
           = before ++ "Nonce: " ++ pretty (Time_UnixNano now) ++ newline ++ after).
Proof.
  intros Hchain. split.
  - intros Hnet.
    rewrite (GenerateSignMessage_solana _ _ _ _ _ _ _ Hchain Hnet).
    split; [reflexivity|]. apply SecureToken_spec.
  - intros Hnet. split; [|apply ethereumSignMessage_nonce].
    intros r'. rewrite (GenerateSignMessage_ethereum _ _ _ _ _ _ _ Hchain Hnet).
    reflexivity.
Qed.

End Provider.

(** C6, amended, at concrete inputs: with the stand-ins, the Solana challenge
    carries the token of sixteen bytes 7, and the Ethereum challenge the
    clock reading. *)
Lemma GenerateSignMessage_nonce_witness :
  chains exampleProvider !! resolvedChain exampleProvider "solana-mainnet"
  = Some {| conf.NetworkName := "solana"; conf.ChainID := "mainnet" |}
  /\ (GenerateSignMessage (H:=Fake.confLib) (H0:=Fake.siwsLib) exampleProvider
        "11111111111111111111111111111111" "solana-mainnet"
        "https://example.com" sevens t0).1
     = Ok (siws_ConstructMessage (SIWSLib:=Fake.siwsLib)
             (solanaChallenge exampleProvider "11111111111111111111111111111111"
                "https://example.com" "BwcHBwcHBwcHBwcHBwcHBw" t0))
  /\ (GenerateSignMessage (H:=Fake.confLib) (H0:=Fake.siwsLib) exampleProvider
        "0xabc" EmptyString "https://example.com" sevens t0).1
     = Ok (ethereumSignMessage (H:=Fake.confLib) exampleProvider
             {| conf.NetworkName := "ethereum"; conf.ChainID := "1" |}
             "0xabc" "https://example.com" t0).
Proof.
  assert (Hsol : chains exampleProvider !! resolvedChain exampleProvider "solana-mainnet"
                 = Some {| conf.NetworkName := "solana"; conf.ChainID := "mainnet" |})
    by (vm_compute; reflexivity).
  assert (Heth : chains exampleProvider !! resolvedChain exampleProvider EmptyString
                 = Some {| conf.NetworkName := "ethereum"; conf.ChainID := "1" |})
    by (vm_compute; reflexivity).
  split; [exact Hsol|]. split.
  - apply (GenerateSignMessage_nonce (H:=Fake.confLib) (H0:=Fake.siwsLib)
             exampleProvider "11111111111111111111111111111111" "solana-mainnet"
             "https://example.com" sevens t0 _ Hsol).
    reflexivity.
  - apply (GenerateSignMessage_nonce (H:=Fake.confLib) (H0:=Fake.siwsLib)
             exampleProvider "0xabc" EmptyString
             "https://example.com" sevens t0 _ Heth).
    reflexivity.
Defined.

(** C6 as stated fails for the Ethereum family.  Two calls at the same
    clock reading with random sources that deliver different bytes (so
    [SecureToken] differs) return the same challenge, whatever the imported
    packages compute: its nonce is the clock reading, not the token.  With
    the stand-ins the nonce line reads [Nonce: 1700000000000000000]. *)
Lemma GenerateSignMessage_ethereum_nonce_not_random :
  (SecureToken zeros).1 <> (SecureToken sevens).1
  /\ (forall (C : ConfLib) (L : SIWSLib),
        (GenerateSignMessage (H:=C) (H0:=L) exampleProvider "0xabc"
           "ethereum-mainnet" "https://example.com" zeros t0).1
        = (GenerateSignMessage (H:=C) (H0:=L) exampleProvider "0xabc"
             "ethereum-mainnet" "https://example.com" sevens t0).1
        /\ (GenerateSignMessage (H:=C) (H0:=L) exampleProvider "0xabc"
              "ethereum-mainnet" "https://example.com" sevens t0).1
           = Ok (ethereumSignMessage (H:=C) exampleProvider
                   {| conf.NetworkName := "ethereum"; conf.ChainID := "1" |}
                   "0xabc" "https://example.com" t0))
  /\ exists before after,
       (GenerateSignMessage (H:=Fake.confLib) (H0:=Fake.siwsLib) exampleProvider
          "0xabc" "ethereum-mainnet" "https://example.com" zeros t0).1
       = Ok (before ++ "Nonce: 1700000000000000000" ++ newline ++ after).
Proof.
  assert (Heth : chains exampleProvider
                   !! resolvedChain exampleProvider "ethereum-mainnet"
                 = Some {| conf.NetworkName := "ethereum"; conf.ChainID := "1" |})
    by (vm_compute; reflexivity).
  split; [|split].
  - vm_compute. intros Hx. discriminate Hx.
  - intros C L.
    rewrite !(GenerateSignMessage_ethereum _ _ _ _ _ _ _ Heth eq_refl).
    split; reflexivity.
  - destruct (ethereumSignMessage_nonce (H:=Fake.confLib) exampleProvider
                {| conf.NetworkName := "ethereum"; conf.ChainID := "1" |}
                "0xabc" "https://example.com" t0) as (before & after & Htext).
    exists before, after.
    rewrite (GenerateSignMessage_ethereum (H:=Fake.confLib) (H0:=Fake.siwsLib)
               _ _ _ _ _ _ _ Heth eq_refl).
    cbn [fst]. rewrite Htext. reflexivity.
Qed.

(** ** Ethereum signatures: malformed input and acceptance *)

Lemma removeHexPrefix_hexText with0x bs :
  removeHexPrefix (hexText with0x bs) = hex_EncodeToString bs.
Proof.
  unfold hexText. destruct with0x.
  - apply removeHexPrefix_0x.
  - apply removeHexPrefix_hex.
Qed.

Lemma removeHexPrefix_id (s : string) :
  strings_HasPrefix s "0x" = false -> removeHexPrefix s = s.
Proof. unfold removeHexPrefix. intros ->. reflexivity. Qed.

(** One [0x] in front of a signature or an address that has none changes
    nothing. *)
Lemma VerifyEthereumSignature_0x `{EthCrypto} (message signature address : string) :
  strings_HasPrefix signature "0x" = false ->
  strings_HasPrefix address "0x" = false ->
  VerifyEthereumSignature message ("0x" ++ signature) address
  = VerifyEthereumSignature message signature address
  /\ VerifyEthereumSignature message signature ("0x" ++ address)
     = VerifyEthereumSignature message signature address.
Proof.
  intros Hs Ha. unfold VerifyEthereumSignature.
  rewrite !removeHexPrefix_0x, !(removeHexPrefix_id _ Hs), !(removeHexPrefix_id _ Ha).
  split; reflexivity.
Qed.

(** X6: [VerifyEthereumSignature] returns nil exactly when the signature
    text, one [0x] prefix removed, is the hexadecimal form of 65 bytes from
    which, the recovery byte raised by 27 when it is below 27, a public key
    is recovered for the EIP-191 hash of the message, and the address of that
    key is the claimed address.  Nothing else of the message is looked at. *)
Theorem VerifyEthereumSignature_nil_iff `{EthCrypto}
    (message signature address : string) :
  VerifyEthereumSignature message signature address = None
  <-> exists sigBytes pubKey,
        hex_DecodeString (removeHexPrefix signature) = Ok sigBytes
        /\ length sigBytes = 65%nat
        /\ crypto_SigToPub (eip191_hash message) (adjustV sigBytes) = Ok pubKey
        /\ crypto_PubkeyToAddress pubKey
           = common_HexToAddress (removeHexPrefix address).
Proof.
  unfold VerifyEthereumSignature, eip191_hash. split.
  - destruct (hex_DecodeString (removeHexPrefix signature)) as [sigBytes|e];
      [|discriminate].
    destruct (Nat.eqb_spec (length sigBytes) 65) as [Hlen|Hlen]; [|discriminate].
    cbn [negb].
    destruct (crypto_SigToPub _ (adjustV sigBytes)) as [pubKey|e] eqn:Hpub;
      [|discriminate].
    destruct (decide (crypto_PubkeyToAddress pubKey
                      = common_HexToAddress (removeHexPrefix address)))
      as [Haddr|Haddr]; [|discriminate].
    intros _. exists sigBytes, pubKey. auto.
  - intros (sigBytes & pubKey & -> & Hlen & Hpub & Haddr).
    replace (length sigBytes =? 65)%nat with true
      by (symmetry; apply Nat.eqb_eq, Hlen).
    cbn [negb]. rewrite Hpub. rewrite decide_True by exact Haddr. reflexivity.
Qed.

(** X7: a signature text that is the hexadecimal form of other than 65 bytes
    -- the empty text and the bare [0x] among them -- is refused for its
    length, whatever the message, the address and the cryptography are. *)
Theorem VerifyEthereumSignature_signature_length `{EthCrypto}
    (message address : string) (with0x : bool) (bs : list byte) :
  length bs <> 65%nat ->
  VerifyEthereumSignature message (hexText with0x bs) address
  = Some (fmt_Errorf "siwe: invalid signature length" []).
Proof.
  intros Hlen. unfold VerifyEthereumSignature.
  rewrite removeHexPrefix_hexText, hex_DecodeString_EncodeToString.
  destruct (Nat.eqb_spec (length bs) 65); [contradiction | reflexivity].
Qed.

(** X8: [VerifyEthereumSignature] removes one lower-case [0x] from the
    signature and from the address, and no more.  In front of a signature
    and an address without the prefix it changes nothing.  A signature with
    a second [0x] or with an upper-case [0X] is refused as invalid
    hexadecimal text, at the byte [x] or [X].  For a signature that decodes
    to 65 bytes, an address with a second [0x] is handed to
    [common.HexToAddress] with one [0x] left, and an address with an
    upper-case [0X] is handed over as it is. *)
Theorem VerifyEthereumSignature_one_prefix `{EthCrypto}
    (message signature address : string) :
  strings_HasPrefix signature "0x" = false ->
  strings_HasPrefix address "0x" = false ->
  VerifyEthereumSignature message ("0x" ++ signature) ("0x" ++ address)
  = VerifyEthereumSignature message signature address
  /\ VerifyEthereumSignature message ("0x0x" ++ signature) address
     = Some (fmt_Errorf_w "siwe: invalid signature hex: " (hex_InvalidByteError "x"))
  /\ VerifyEthereumSignature message ("0X" ++ signature) address
     = Some (fmt_Errorf_w "siwe: invalid signature hex: " (hex_InvalidByteError "X"))
  /\ (forall sigBytes,
        hex_DecodeString signature = Ok sigBytes -> length sigBytes = 65%nat ->
        (VerifyEthereumSignature message signature ("0x0x" ++ address) = None
         <-> recoversTo message (adjustV sigBytes) ("0x" ++ address))
        /\ (VerifyEthereumSignature message signature ("0X" ++ address) = None
            <-> recoversTo message (adjustV sigBytes) ("0X" ++ address))).
Proof.
  intros Hs Ha. split; [|split; [|split]].
  - unfold VerifyEthereumSignature.
    rewrite !removeHexPrefix_0x, (removeHexPrefix_id _ Hs), (removeHexPrefix_id _ Ha).
    reflexivity.
  - unfold VerifyEthereumSignature.
    change ("0x0x" ++ signature) with ("0x" ++ ("0x" ++ signature)).
    rewrite removeHexPrefix_0x. reflexivity.
  - unfold VerifyEthereumSignature.
    rewrite (removeHexPrefix_id ("0X" ++ signature)) by (destruct signature; reflexivity).
    reflexivity.
  - intros sigBytes Hdec Hlen.
    rewrite <- (removeHexPrefix_id _ Hs) in Hdec. split.
    + rewrite (VerifyEthereumSignature_decoded _ _ _ _ Hdec Hlen).
      change ("0x0x" ++ address) with ("0x" ++ ("0x" ++ address)).
      rewrite removeHexPrefix_0x. reflexivity.
    + rewrite (VerifyEthereumSignature_decoded _ _ _ _ Hdec Hlen).
      rewrite (removeHexPrefix_id ("0X" ++ address)) by (destruct address; reflexivity).
      reflexivity.
Qed.

(** X7 at a concrete call: the bare prefix. *)
Lemma VerifyEthereumSignature_signature_length_witness :
  VerifyEthereumSignature (H:=Fake.ethCrypto) "hello" "0x"
    "0x0101010101010101010101010101010101010101"
  = Some (fmt_Errorf "siwe: invalid signature length" []).
Proof.
  apply (VerifyEthereumSignature_signature_length (H:=Fake.ethCrypto)
           "hello" "0x0101010101010101010101010101010101010101" true []).
  intros Hx. discriminate Hx.
Defined.

(** X8 at a concrete call, with the stand-in recovery. *)
Lemma VerifyEthereumSignature_one_prefix_witness :
  VerifyEthereumSignature (H:=Fake.ethCrypto) "hello"
    ("0x" ++ ethSignature) ("0x" ++ "0101010101010101010101010101010101010101")
  = VerifyEthereumSignature (H:=Fake.ethCrypto) "hello" ethSignature
      "0101010101010101010101010101010101010101"
  /\ VerifyEthereumSignature (H:=Fake.ethCrypto) "hello"
       ("0x0x" ++ ethSignature) "0101010101010101010101010101010101010101"
     = Some (fmt_Errorf_w "siwe: invalid signature hex: " (hex_InvalidByteError "x"))
  /\ (VerifyEthereumSignature (H:=Fake.ethCrypto) "hello" ethSignature
        ("0x0x" ++ "0101010101010101010101010101010101010101") = None
      <-> recoversTo (H:=Fake.ethCrypto) "hello"
            (adjustV (replicate 64 Byte.x01 ++ [Byte.x00]))
            ("0x" ++ "0101010101010101010101010101010101010101")).
Proof.
  destruct (VerifyEthereumSignature_one_prefix (H:=Fake.ethCrypto) "hello"
              ethSignature "0101010101010101010101010101010101010101"
              eq_refl eq_refl) as (H1 & H2 & _ & H4).
  split; [exact H1|]. split; [exact H2|].
  apply (H4 (replicate 64 Byte.x01 ++ [Byte.x00])%list).
  - apply hex_DecodeString_EncodeToString.
  - reflexivity.
Defined.

(** ** Encrypted strings: refused keys, panics and key rotation *)

Section EnvelopeOutcomes.
Context `{EnvelopeCrypto}.

(** The three ways [deriveSymmetricKey] ends. *)
Lemma deriveSymmetricKey_cases id keyID keyBase64URL :
  (exists hkdfKey, keyMaterial keyBase64URL hkdfKey
     /\ deriveSymmetricKey id keyID keyBase64URL
        = Return (Ok (recordKey hkdfKey id)))
  \/ (base64_RawURLEncoding_DecodeString keyBase64URL = Err base64_CorruptInputError
      /\ deriveSymmetricKey id keyID keyBase64URL
         = Return (Err base64_CorruptInputError))
  \/ ((exists hkdfKey, base64_RawURLEncoding_DecodeString keyBase64URL = Ok hkdfKey
                       /\ length hkdfKey <> 32%nat)
      /\ deriveSymmetricKey id keyID keyBase64URL = Return (Err (errKeySize keyID))).
Proof.
  destruct (base64_RawURLEncoding_DecodeString keyBase64URL) as [hk|e] eqn:Hdec.
  - destruct (decide (length hk = 32%nat)) as [Hlen|Hlen].
    + left. exists hk. split; [split; assumption|].
      apply deriveSymmetricKey_ok; assumption.
    + right. right. split; [exists hk; auto|].
      unfold deriveSymmetricKey. rewrite Hdec.
      destruct (Nat.eqb_spec (length hk) (256 / 8)) as [Hl|Hl];
        [contradiction | reflexivity].
  - right. left.
    assert (e = base64_CorruptInputError) as ->.
    { unfold base64_RawURLEncoding_DecodeString in Hdec.
      destruct (b64_sextets keyBase64URL) as [l|]; [|congruence].
      destruct (b64_quanta l); congruence. }
    split; [reflexivity|]. unfold deriveSymmetricKey. rewrite Hdec. reflexivity.
Qed.

(** The empty text is no key material. *)
Lemma keyMaterial_not_empty keyBase64URL hkdfKey :
  keyMaterial keyBase64URL hkdfKey -> keyBase64URL <> EmptyString.
Proof. intros [Hdec Hlen] ->. cbv in Hdec. injection Hdec as <-. discriminate Hlen. Qed.

(** X9: with a random source that delivers its bytes (the model of
    [rand.Reader] has no failing read), [NewEncryptedString] never panics.
    It returns an envelope exactly when the key text decodes to 32 bytes,
    and then has read 12 bytes of the random source; otherwise it returns
    the decoder's error or the error that names the key identifier, and has
    read nothing. *)
Theorem NewEncryptedString_never_panics
    (id : string) (data : list byte) (keyID keyBase64URL : string) (r : RandReader) :
  (exists res r', NewEncryptedString id data keyID keyBase64URL r = Return (res, r'))
  /\ (forall es r',
        NewEncryptedString id data keyID keyBase64URL r = Return (Ok es, r') ->
        (exists hkdfKey, keyMaterial keyBase64URL hkdfKey)
        /\ forall i, r' i = r (12 + i)%nat)
  /\ (forall e r',
        NewEncryptedString id data keyID keyBase64URL r = Return (Err e, r') ->
        (forall hkdfKey, ~ keyMaterial keyBase64URL hkdfKey)
        /\ r' = r
        /\ (e = base64_CorruptInputError \/ e = errKeySize keyID)).
Proof.
  destruct (deriveSymmetricKey_cases id keyID keyBase64URL)
    as [(hk & [Hdec Hlen] & Hd) | [[Hdec Hd] | [(hk & Hdec & Hlen) Hd]]].
  - rewrite (NewEncryptedString_ok _ _ _ _ _ _ Hdec Hlen).
    split; [eauto|]. split.
    + intros es r' [= <- <-]. split; [exists hk; split; assumption|].
      intros i. reflexivity.
    + intros e r' Hx. discriminate Hx.
  - unfold NewEncryptedString. rewrite Hd. cbn [mbind outcome_bind].
    split; [eauto|]. split.
    + intros es r' Hx. discriminate Hx.
    + intros e r' [= <- <-]. split; [|auto].
      intros hk [Hk _]. congruence.
  - unfold NewEncryptedString. rewrite Hd. cbn [mbind outcome_bind].
    split; [eauto|]. split.
    + intros es r' Hx. discriminate Hx.
    + intros e r' [= <- <-]. split; [|auto].
      intros hk' [Hk Hl]. congruence.
Qed.

(** The ways [Decrypt] ends: without usable key text under the envelope's
    key identifier, with an error; with it, with the AEAD's opening or, for
    a nonce that is not 12 bytes long, a panic. *)
Lemma Decrypt_cases (es : EncryptedString) (id : string)
    (decryptionKeys : gmap string string) :
  ((forall keyBase64URL hkdfKey,
      decryptionKeys !! KeyID es = Some keyBase64URL ->
      ~ keyMaterial keyBase64URL hkdfKey)
   /\ exists e,
        Decrypt es id decryptionKeys = Return (Err e)
        /\ ((decryptionKeys !! KeyID es = None
             \/ decryptionKeys !! KeyID es = Some EmptyString)
            /\ e = errKeyMissing (KeyID es)
            \/ (exists keyBase64URL,
                  decryptionKeys !! KeyID es = Some keyBase64URL
                  /\ keyBase64URL <> EmptyString)
               /\ (e = base64_CorruptInputError \/ e = errKeySize (KeyID es))))
  \/ (exists keyBase64URL hkdfKey,
        decryptionKeys !! KeyID es = Some keyBase64URL
        /\ keyMaterial keyBase64URL hkdfKey
        /\ Decrypt es id decryptionKeys
           = if (length (Nonce es) =? 12)%nat
             then Return (gcm_Open (recordKey hkdfKey id) (Nonce es) (Data es) [])
             else Panic (lib_error "crypto/cipher"
                           "incorrect nonce length given to GCM")).
Proof.
  unfold Decrypt.
  destruct (decryptionKeys !! KeyID es) as [k|] eqn:Hk;
    cbv [default from_option Datatypes.id].
  2:{ left. split; [intros ? ? Hx; discriminate Hx|].
      eexists. split; [reflexivity|]. left. auto. }
  destruct (decide (k = EmptyString)) as [->|Hne].
  { left. split.
    - intros k hk [= <-] Hkm. exact (keyMaterial_not_empty _ _ Hkm eq_refl).
    - eexists. split; [reflexivity|]. left. auto. }
  rewrite (bool_decide_eq_false_2 _ Hne).
  destruct (deriveSymmetricKey_cases id (KeyID es) k)
    as [(hk & Hkm & Hd) | [[Hdec Hd] | [(hk & Hdec & Hlen) Hd]]].
  - right. exists k, hk. split; [reflexivity|]. split; [exact Hkm|].
    rewrite Hd. cbn [mbind outcome_bind].
    rewrite aes_NewCipher_recordKey. cbn [must cipher_NewGCM mbind outcome_bind].
    unfold cipher_Open. destruct (length (Nonce es) =? 12)%nat; [|reflexivity].
    cbn [mbind outcome_bind]. destruct (gcm_Open _ _ _ _); reflexivity.
  - left. split.
    + intros k' hk [= <-] [Hx _]. congruence.
    + rewrite Hd. eexists. split; [reflexivity|]. right. eauto.
  - left. split.
    + intros k' hk' [= <-] [Hx Hl]. congruence.
    + rewrite Hd. eexists. split; [reflexivity|]. right. eauto.
Qed.

(** X10: when the table holds no key text that decodes to 32 bytes under
    the envelope's key identifier, [Decrypt] returns an error and does not
    panic, whatever the data and the nonce are: a key that is missing or
    empty does not exist; otherwise the error is the decoder's or names the
    key identifier. *)
Theorem Decrypt_unusable_key (es : EncryptedString) (id : string)
    (decryptionKeys : gmap string string) :
  (forall keyBase64URL hkdfKey,
     decryptionKeys !! KeyID es = Some keyBase64URL ->
     ~ keyMaterial keyBase64URL hkdfKey) ->
  exists e,
    Decrypt es id decryptionKeys = Return (Err e)
    /\ ((decryptionKeys !! KeyID es = None
         \/ decryptionKeys !! KeyID es = Some EmptyString)
        /\ e = errKeyMissing (KeyID es)
        \/ (exists keyBase64URL,
              decryptionKeys !! KeyID es = Some keyBase64URL
              /\ keyBase64URL <> EmptyString)
           /\ (e = base64_CorruptInputError \/ e = errKeySize (KeyID es))).
Proof.
  intros Hno.
  destruct (Decrypt_cases es id decryptionKeys)
    as [[_ He] | (k & hk & Hk & Hkm & _)]; [exact He|].
  destruct (Hno k hk Hk Hkm).
Qed.

(** X11: [Decrypt] returns a plaintext only as the AEAD's opening of the
    data under the key derived for the record from well-formed key text,
    with a 12-byte nonce; it panics only when such a key text is found and
    the nonce is not 12 bytes long; and with such a key text and a 12-byte
    nonce its only error is the AEAD's. *)
Theorem Decrypt_plaintext_or_panic (es : EncryptedString) (id : string)
    (decryptionKeys : gmap string string) :
  (forall plaintext,
     Decrypt es id decryptionKeys = Return (Ok plaintext) ->
     exists keyBase64URL hkdfKey,
       decryptionKeys !! KeyID es = Some keyBase64URL
       /\ keyMaterial keyBase64URL hkdfKey
       /\ length (Nonce es) = 12%nat
       /\ gcm_Open (recordKey hkdfKey id) (Nonce es) (Data es) [] = Ok plaintext)
  /\ (forall e,
        Decrypt es id decryptionKeys = Panic e ->
        length (Nonce es) <> 12%nat
        /\ exists keyBase64URL hkdfKey,
             decryptionKeys !! KeyID es = Some keyBase64URL
             /\ keyMaterial keyBase64URL hkdfKey)
  /\ (forall e keyBase64URL hkdfKey,
        Decrypt es id decryptionKeys = Return (Err e) ->
        decryptionKeys !! KeyID es = Some keyBase64URL ->
        keyMaterial keyBase64URL hkdfKey ->
        e = cipher_errOpen).
Proof.
  destruct (Decrypt_cases es id decryptionKeys)
    as [[Hno (e0 & -> & _)] | (k & hk & Hk & Hkm & ->)].
  - split; [|split].
    + intros plaintext Hx. discriminate Hx.
    + intros e Hx. discriminate Hx.
    + intros e k hk _ Hk Hkm. destruct (Hno k hk Hk Hkm).
  - destruct (Nat.eqb_spec (length (Nonce es)) 12) as [Hn|Hn]; split; [|split| |split].
    + intros plaintext [= Hopen]. exists k, hk. auto.
    + intros e Hx. discriminate Hx.
    + intros e k' hk' [= Hopen] _ _. exact (gcm_Open_error _ _ _ _ _ Hopen).
    + intros plaintext Hx. discriminate Hx.
    + intros e _. split; [exact Hn|]. exists k, hk. auto.
    + intros e k' hk' Hx. discriminate Hx.
Qed.

(** X12: key rotation.  An envelope sealed under one key identifier asks
    for re-encryption under any other and not under its own; sealing the
    payload again under the new key reads the next 12 bytes of the random
    source for its nonce, and gives an envelope that no longer asks for it;
    a table that holds both keys decrypts both envelopes to the payload. *)
Theorem NewEncryptedString_key_rotation
    (id : string) (data : list byte) (keyID keyID' key key' : string)
    (hkdfKey hkdfKey' : list byte) (decryptionKeys : gmap string string)
    (r r1 : RandReader) (es : EncryptedString) :
  keyMaterial key hkdfKey -> keyMaterial key' hkdfKey' ->
  keyID <> keyID' ->
  decryptionKeys !! keyID = Some key -> decryptionKeys !! keyID' = Some key' ->
  NewEncryptedString id data keyID key r = Return (Ok es, r1) ->
  ShouldReEncrypt es keyID = false
  /\ ShouldReEncrypt es keyID' = true
  /\ Decrypt es id decryptionKeys = Return (Ok data)
  /\ exists es' r2,
       NewEncryptedString id data keyID' key' r1 = Return (Ok es', r2)
       /\ ShouldReEncrypt es' keyID' = false
       /\ Decrypt es' id decryptionKeys = Return (Ok data)
       /\ Nonce es = map r (seq 0 12)
       /\ Nonce es' = map r (seq 12 12).
Proof.
  intros [Hdec Hlen] [Hdec' Hlen'] Hne Hk Hk' Hnew.
  rewrite (NewEncryptedString_ok _ _ _ _ _ _ Hdec Hlen) in Hnew.
  injection Hnew as <- <-.
  unfold ShouldReEncrypt. cbn [KeyID].
  split; [apply bool_decide_eq_false_2; tauto|].
  split; [apply bool_decide_eq_true_2, Hne|].
  split.
  { rewrite (Decrypt_known_key _ id decryptionKeys key hkdfKey);
      cbn [KeyID Nonce Data]; auto using drawnNonce_length.
    rewrite gcm_Open_Seal. reflexivity. }
  eexists _, _.
  split; [apply (NewEncryptedString_ok _ _ _ _ _ _ Hdec' Hlen')|].
  cbn [KeyID Nonce Data].
  split; [apply bool_decide_eq_false_2; tauto|].
  split.
  { rewrite (Decrypt_known_key _ id decryptionKeys key' hkdfKey');
      cbn [KeyID Nonce Data]; auto using drawnNonce_length.
    rewrite gcm_Open_Seal. reflexivity. }
  split; reflexivity.
Qed.

End EnvelopeOutcomes.

(** X10 at concrete calls: no key, and a key text of 16 bytes. *)
Lemma Decrypt_unusable_key_witness :
  (exists e,
     Decrypt (H:=Fake.envelopeCrypto) sealedEmpty "record-1" ∅ = Return (Err e)
     /\ e = errKeyMissing "k1")
  /\ (exists e,
        Decrypt (H:=Fake.envelopeCrypto) sealedEmpty "record-1"
          {[ "k1" := "AAAAAAAAAAAAAAAAAAAAAA" ]} = Return (Err e)
        /\ e = errKeySize "k1").
Proof.
  split.
  - destruct (Decrypt_unusable_key (H:=Fake.envelopeCrypto) sealedEmpty "record-1" ∅)
      as (e & He & _).
    + intros k hk Hx. discriminate Hx.
    + exists e. split; [exact He|]. vm_compute in He. injection He as <-. reflexivity.
  - destruct (Decrypt_unusable_key (H:=Fake.envelopeCrypto) sealedEmpty "record-1"
                {[ "k1" := "AAAAAAAAAAAAAAAAAAAAAA" ]}) as (e & He & _).
    + intros k hk Hk [Hdec Hlen]. vm_compute in Hk. injection Hk as <-.
      vm_compute in Hdec. injection Hdec as <-. discriminate Hlen.
    + exists e. split; [exact He|]. vm_compute in He. injection He as <-. reflexivity.
Defined.

(** X12 at a concrete call: from key [k1] to key [k2]. *)
Lemma NewEncryptedString_key_rotation_witness :
  keyMaterial key43 (replicate 32 Byte.x00)
  /\ keyMaterial key43' (Byte.x04 :: replicate 31 Byte.x00)
  /\ ShouldReEncrypt sealedEmpty "k2" = true
  /\ exists es' r2,
       NewEncryptedString (H:=Fake.envelopeCrypto) "record-1" [] "k2" key43'
         (fun i => zeros (12 + i)%nat) = Return (Ok es', r2)
       /\ ShouldReEncrypt es' "k2" = false
       /\ Decrypt (H:=Fake.envelopeCrypto) es' "record-1"
            {[ "k1" := key43; "k2" := key43' ]} = Return (Ok []).
Proof.
  assert (Hk : keyMaterial key43 (replicate 32 Byte.x00))
    by (split; vm_compute; reflexivity).
  assert (Hk' : keyMaterial key43' (Byte.x04 :: replicate 31 Byte.x00))
    by (split; vm_compute; reflexivity).
  split; [exact Hk|]. split; [exact Hk'|].
  destruct (NewEncryptedString_key_rotation (H:=Fake.envelopeCrypto)
              "record-1" [] "k1" "k2" key43 key43' _ _
              {[ "k1" := key43; "k2" := key43' ]} zeros
              (fun i => zeros (12 + i)%nat) sealedEmpty Hk Hk')
    as (_ & Hre & _ & es' & r2 & Hnew & Hre' & Hdec' & _).
  - intros Hx. discriminate Hx.
  - vm_compute. reflexivity.
  - vm_compute. reflexivity.
  - reflexivity.
  - split; [exact Hre|]. exists es', r2. auto.
Defined.

(** ** Tokens and token hashes *)

(** X13: a token is the text of the next 16 bytes of the random source and
    decodes back to them; [SecureToken] leaves the source 16 bytes further,
    so that the next token is the text of the 16 bytes that follow. *)
Theorem SecureToken_reads_16_bytes (r : RandReader) :
  base64_RawURLEncoding_DecodeString (SecureToken r).1 = Ok (map r (seq 0 16))
  /\ (forall i, (SecureToken r).2 i = r (16 + i)%nat)
  /\ (SecureToken (SecureToken r).2).1
     = base64_RawURLEncoding_EncodeToString (map r (seq 16 16)).
Proof.
  split; [|split].
  - apply base64_DecodeString_EncodeToString.
  - intros i. reflexivity.
  - reflexivity.
Qed.

Lemma hex_EncodeToString_length (bs : list byte) :
  String.length (hex_EncodeToString bs) = (2 * length bs)%nat.
Proof.
  induction bs as [|b bs IH]; [reflexivity|].
  cbn [hex_EncodeToString String.length length]. rewrite IH. lia.
Qed.

(** X14: a token hash is the 56 hexadecimal digits of the SHA-224 digest of
    the two texts written one after the other, and decodes back to the
    digest; it depends on the two texts through their concatenation only,
    so moving characters from the end of the first to the front of the
    second gives the same hash. *)
Theorem GenerateTokenHash_concatenation `{Sha256} (emailOrPhone otp : string) :
  String.length (GenerateTokenHash emailOrPhone otp) = 56%nat
  /\ hex_DecodeString (GenerateTokenHash emailOrPhone otp)
     = Ok (sha256_Sum224 (bytes_of_string (emailOrPhone ++ otp)))
  /\ (forall moved,
        GenerateTokenHash (emailOrPhone ++ moved) otp
        = GenerateTokenHash emailOrPhone (moved ++ otp)).
Proof.
  unfold GenerateTokenHash. split; [|split].
  - rewrite hex_EncodeToString_length, sha256_Sum224_length. reflexivity.
  - apply hex_DecodeString_EncodeToString.
  - intros moved. rewrite string_app_assoc. reflexivity.
Qed.

(** ** Challenges: chains that cannot be served *)

Section Challenges.
Context `{ConfLib} `{SIWSLib}.

(** The ways [GenerateSignMessage] ends, by the chain it resolves. *)
Lemma GenerateSignMessage_cases p address chain uri r now :
  (chains p !! resolvedChain p chain = None
   /\ GenerateSignMessage p address chain uri r now
      = (Err (fmt_Errorf "unsupported chain: %s" [resolvedChain p chain]), r))
  \/ exists chainCfg,
       chains p !! resolvedChain p chain = Some chainCfg
       /\ ((conf.NetworkName chainCfg = BlockchainSolana
            /\ GenerateSignMessage p address chain uri r now
               = (Ok (siws_ConstructMessage
                        (solanaChallenge p address uri (SecureToken r).1 now)),
                  (SecureToken r).2))
           \/ (conf.NetworkName chainCfg = BlockchainEthereum
               /\ GenerateSignMessage p address chain uri r now
                  = (Ok (ethereumSignMessage p chainCfg address uri now),
                     (SecureToken r).2))
           \/ (conf.NetworkName chainCfg <> BlockchainSolana
               /\ conf.NetworkName chainCfg <> BlockchainEthereum
               /\ GenerateSignMessage p address chain uri r now
                  = (Err (fmt_Errorf "message generation not implemented for %s"
                            [conf.NetworkName chainCfg]),
                     (SecureToken r).2))).
Proof.
  destruct (chains p !! resolvedChain p chain) as [chainCfg|] eqn:Hchain.
  - right. exists chainCfg. split; [reflexivity|].
    destruct (decide (conf.NetworkName chainCfg = BlockchainSolana)) as [Hs|Hs].
    { left. split; [exact Hs|]. exact (GenerateSignMessage_solana _ _ _ _ _ _ _ Hchain Hs). }
    destruct (decide (conf.NetworkName chainCfg = BlockchainEthereum)) as [He|He].
    { right. left. split; [exact He|].
      exact (GenerateSignMessage_ethereum _ _ _ _ _ _ _ Hchain He). }
    right. right. split; [exact Hs|]. split; [exact He|].
    unfold GenerateSignMessage. fold (resolvedChain p chain). rewrite Hchain.
    destruct (SecureToken r) as [nonce r'].
    rewrite (bool_decide_eq_false_2 _ Hs), (bool_decide_eq_false_2 _ He).
    reflexivity.
  - left. split; [reflexivity|].
    unfold GenerateSignMessage. fold (resolvedChain p chain). rewrite Hchain.
    reflexivity.
Qed.

(** X15: [GenerateSignMessage] fails in two ways only.  For a chain, the
    default one when none is given, that is not in the table, the error
    names that chain and the random source is untouched.  For a chain of
    the table whose network is neither Solana nor Ethereum, the error names
    the network, and the 16 bytes of a token have been read all the same. *)
Theorem GenerateSignMessage_errors (p : Web3Provider)
    (address chain uri : string) (r r' : RandReader) (now : Time) (e : error) :
  GenerateSignMessage p address chain uri r now = (Err e, r') ->
  (chains p !! resolvedChain p chain = None
   /\ e = fmt_Errorf "unsupported chain: %s" [resolvedChain p chain]
   /\ r' = r)
  \/ (exists chainCfg,
        chains p !! resolvedChain p chain = Some chainCfg
        /\ conf.NetworkName chainCfg <> BlockchainSolana
        /\ conf.NetworkName chainCfg <> BlockchainEthereum
        /\ e = fmt_Errorf "message generation not implemented for %s"
                 [conf.NetworkName chainCfg]
        /\ r' = (SecureToken r).2).
Proof.
  intros Hgen.
  destruct (GenerateSignMessage_cases p address chain uri r now)
    as [[Hnone Hg] | (chainCfg & Hsome & [[_ Hg] | [[_ Hg] | (Hs & He & Hg)]])];
    rewrite Hg in Hgen; try discriminate Hgen; injection Hgen as <- <-.
  - left. auto.
  - right. exists chainCfg. auto.
Qed.

(** X16: a provider that [NewWeb3Provider] built from a configuration with a
    default chain serves the empty chain as that default chain, which is in
    its table: the challenge is the one for the default chain by name, and
    the call cannot fail for an unsupported chain. *)
Theorem NewWeb3Provider_default_chain (config : conf.Web3Configuration)
    (p : Web3Provider) :
  NewWeb3Provider config = Ok p ->
  conf.DefaultChain config <> EmptyString ->
  exists chainCfg,
    chains p !! conf.DefaultChain config = Some chainCfg
    /\ forall address uri r now,
         GenerateSignMessage p address EmptyString uri r now
         = GenerateSignMessage p address (conf.DefaultChain config) uri r now
         /\ (is_Ok (GenerateSignMessage p address EmptyString uri r now).1 = true
             <-> conf.NetworkName chainCfg = BlockchainSolana
                 \/ conf.NetworkName chainCfg = BlockchainEthereum).
Proof.
  intros Hnew Hdefault.
  assert (Hp : defaultChain p = conf.DefaultChain config
               /\ is_Some (chains p !! conf.DefaultChain config)).
  { unfold NewWeb3Provider in Hnew.
    destruct (conf.Enabled config); [|discriminate Hnew]. cbn [negb] in Hnew.
    destruct (conf_ParseSupportedChains config) as [table|]; [|discriminate Hnew].
    rewrite (bool_decide_eq_true_2 _ Hdefault) in Hnew. cbn [andb] in Hnew.
    destruct (decide (is_Some (table !! conf.DefaultChain config))) as [Hs|Hs].
    - rewrite (bool_decide_eq_true_2 _ Hs) in Hnew. cbn [negb] in Hnew.
      injection Hnew as <-. split; [reflexivity | exact Hs].
    - rewrite (bool_decide_eq_false_2 _ Hs) in Hnew. discriminate Hnew. }
  destruct Hp as [Hd [chainCfg Hc]]. exists chainCfg. split; [exact Hc|].
  intros address uri r now.
  assert (Hres : resolvedChain p EmptyString = conf.DefaultChain config)
    by (unfold resolvedChain; cbn; exact Hd).
  assert (Hres' : resolvedChain p (conf.DefaultChain config) = conf.DefaultChain config)
    by (unfold resolvedChain; rewrite (bool_decide_eq_false_2 _ Hdefault); reflexivity).
  split.
  - unfold GenerateSignMessage. fold (resolvedChain p EmptyString).
    fold (resolvedChain p (conf.DefaultChain config)).
    rewrite Hres, Hres'. reflexivity.
  - destruct (GenerateSignMessage_cases p address EmptyString uri r now)
      as [[Hnone _] | (chainCfg' & Hsome & Hcase)].
    { rewrite Hres in Hnone. congruence. }
    rewrite Hres, Hc in Hsome. injection Hsome as <-.
    destruct Hcase as [[Hs ->] | [[He ->] | (Hs & He & ->)]]; cbn [fst is_Ok].
    + tauto.
    + tauto.
    + split; [intros Hx; discriminate Hx | tauto].
Qed.

End Challenges.

(** X15 at concrete calls: a chain the provider does not know, and a chain
    of a network without challenge format. *)
Lemma GenerateSignMessage_errors_witness :
  GenerateSignMessage (H:=Fake.confLib) (H0:=Fake.siwsLib) exampleProvider
    "0xabc" "bitcoin" "https://example.com" sevens t0
  = (Err (fmt_Errorf "unsupported chain: %s" ["bitcoin"]), sevens)
  /\ exists r',
       GenerateSignMessage (H:=Fake.confLib) (H0:=Fake.siwsLib) bitcoinProvider
         "0xabc" EmptyString "https://example.com" sevens t0
       = (Err (fmt_Errorf "message generation not implemented for %s" ["bitcoin"]), r')
       /\ r' = (SecureToken sevens).2.
Proof.
  split; [reflexivity|].
  eexists. split; [reflexivity|].
  destruct (GenerateSignMessage_errors (H:=Fake.confLib) (H0:=Fake.siwsLib)
              bitcoinProvider "0xabc" EmptyString "https://example.com"
              sevens _ t0 _ eq_refl)
    as [(Hnone & _) | (chainCfg & _ & _ & _ & _ & Hr)].
  - vm_compute in Hnone. discriminate Hnone.
  - exact Hr.
Defined.

(** X16 at a concrete configuration. *)
Lemma NewWeb3Provider_default_chain_witness :
  NewWeb3Provider (H:=Fake.confLib) exampleConfig = Ok exampleProvider
  /\ exists chainCfg,
       chains exampleProvider !! "ethereum-mainnet" = Some chainCfg
       /\ forall address uri r now,
            GenerateSignMessage (H:=Fake.confLib) (H0:=Fake.siwsLib)
              exampleProvider address EmptyString uri r now
            = GenerateSignMessage (H:=Fake.confLib) (H0:=Fake.siwsLib)
                exampleProvider address "ethereum-mainnet" uri r now
            /\ (is_Ok (GenerateSignMessage (H:=Fake.confLib) (H0:=Fake.siwsLib)
                         exampleProvider address EmptyString uri r now).1 = true
                <-> conf.NetworkName chainCfg = BlockchainSolana
                    \/ conf.NetworkName chainCfg = BlockchainEthereum).
Proof.
  split; [reflexivity|].
  apply (NewWeb3Provider_default_chain (H:=Fake.confLib) (H0:=Fake.siwsLib)
           exampleConfig exampleProvider eq_refl).
  intros Hx. discriminate Hx.
Defined.

(** ** The provider: refused configurations *)

(** X17: [NewWeb3Provider] fails in three ways only: the provider is not
    enabled; the chain list does not parse, and the error is the parser's;
    or the default chain is not empty and not in the parsed table, and the
    error names it.  The checks are made in that order. *)
Theorem NewWeb3Provider_errors `{ConfLib} (config : conf.Web3Configuration)
    (e : error) :
  NewWeb3Provider config = Err e ->
  (conf.Enabled config = false
   /\ e = errors_New "Web3 provider is not enabled")
  \/ (conf.Enabled config = true
      /\ conf_ParseSupportedChains config = Err e)
  \/ (conf.Enabled config = true
      /\ conf.DefaultChain config <> EmptyString
      /\ (exists table,
            conf_ParseSupportedChains config = Ok table
            /\ table !! conf.DefaultChain config = None)
      /\ e = fmt_Errorf "default chain %s not in supported chains"
               [conf.DefaultChain config]).
Proof.
  unfold NewWeb3Provider.
  destruct (conf.Enabled config); cbn [negb]; [|intros [= <-]; auto].
  destruct (conf_ParseSupportedChains config) as [table|err];
    [|intros [= <-]; auto].
  destruct (decide (conf.DefaultChain config = EmptyString)) as [Hd|Hd].
  { rewrite bool_decide_eq_false_2 by tauto. discriminate. }
  rewrite (bool_decide_eq_true_2 _ Hd). cbn [andb].
  destruct (table !! conf.DefaultChain config) as [chain|] eqn:Hc.
  { rewrite bool_decide_eq_true_2 by eauto. discriminate. }
  rewrite bool_decide_eq_false_2 by (intros [? Hx]; discriminate Hx).
  intros [= <-]. right. right. eauto 10.
Qed.

(** X17 at a concrete configuration: a default chain the stand-in table
    does not hold. *)
Lemma NewWeb3Provider_errors_witness :
  NewWeb3Provider (H:=Fake.confLib) bitcoinConfig
  = Err (fmt_Errorf "default chain %s not in supported chains" ["bitcoin-mainnet"])
  /\ conf.Enabled bitcoinConfig = true
  /\ exists table,
       conf_ParseSupportedChains (ConfLib:=Fake.confLib) bitcoinConfig = Ok table
       /\ table !! "bitcoin-mainnet" = None.
Proof.
  assert (Hnew : NewWeb3Provider (H:=Fake.confLib) bitcoinConfig
                 = Err (fmt_Errorf "default chain %s not in supported chains"
                          ["bitcoin-mainnet"]))
    by (vm_compute; reflexivity).
  split; [exact Hnew|].
  destruct (NewWeb3Provider_errors (H:=Fake.confLib) bitcoinConfig _ Hnew)
    as [[Hx _] | [[_ Hx] | (He & _ & Ht & _)]].
  - discriminate Hx.
  - discriminate Hx.
  - split; [exact He | exact Ht].
Defined.

(** ** Verification of signed messages *)

Section SignIn.
Context `{EthCrypto} `{SIWSLib} `{SignInLib}.

(** Every error of [VerifySIWS] is one of the sentinels of package [siws]. *)
Lemma VerifySIWS_error_kind now rawMessage signature msg params e :
  VerifySIWS now rawMessage signature msg params = Some e ->
  exists kind, e = siws_Err kind.
Proof.
  unfold VerifySIWS.
  repeat match goal with
         | |- (if ?c then Some _ else _) = Some _ -> _ =>
             destruct c; [intros [= <-]; eauto|]
         end.
  destruct msg as [msg|]; [|intros [= <-]; eauto].
  repeat match goal with
         | |- (if ?c then Some _ else _) = Some _ -> _ =>
             destruct c; [intros [= <-]; eauto|]
         end.
  discriminate.
Qed.

(** [verifySolanaSignature] returns nil exactly when the message parses, the
    signature text decodes, and [VerifySIWS] accepts the two under the
    provider's domain and timeout. *)
Lemma verifySolanaSignature_nil p now msg :
  verifySolanaSignature p now msg = None
  <-> exists parsedMessage sigBytes,
        siws_ParseSIWSMessage (provider.Message msg) = Ok parsedMessage
        /\ base64_StdEncoding_DecodeString (provider.Signature msg) = Ok sigBytes
        /\ VerifySIWS now (provider.Message msg) sigBytes (Some parsedMessage)
             (solanaParams p) = None.
Proof.
  unfold verifySolanaSignature. fold (solanaParams p). split.
  - destruct (siws_ParseSIWSMessage _) as [parsed|]; [|discriminate].
    destruct (base64_StdEncoding_DecodeString _) as [sigBytes|]; [|discriminate].
    destruct (VerifySIWS _ _ _ _ _) eqn:Hv; [discriminate|].
    intros _. eauto.
  - intros (parsed & sigBytes & -> & -> & ->). reflexivity.
Qed.

(** The errors of [verifySolanaSignature], by the step that failed. *)
Lemma verifySolanaSignature_error p now msg cause :
  verifySolanaSignature p now msg = Some cause ->
  (exists err, siws_ParseSIWSMessage (provider.Message msg) = Err err
               /\ cause = fmt_Errorf_w "failed to parse SIWS message: " err)
  \/ (exists err, base64_StdEncoding_DecodeString (provider.Signature msg) = Err err
                  /\ cause = fmt_Errorf_w "invalid signature encoding: " err)
  \/ (exists kind, cause = fmt_Errorf_w "SIWS verification failed: " (siws_Err kind)).
Proof.
  unfold verifySolanaSignature.
  destruct (siws_ParseSIWSMessage _) as [parsed|err]; [|intros [= <-]; eauto].
  destruct (base64_StdEncoding_DecodeString _) as [sigBytes|err];
    [|intros [= <-]; eauto].
  destruct (VerifySIWS _ _ _ _ _) as [err|] eqn:Hv; [|discriminate].
  intros [= <-]. destruct (VerifySIWS_error_kind _ _ _ _ _ _ Hv) as [kind ->].
  eauto.
Qed.

(** [VerifySignedMessage] on a chain of each family. *)
Lemma VerifySignedMessage_ethereum p now msg :
  chainFamily p (provider.Chain msg) BlockchainEthereum ->
  VerifySignedMessage p now msg
  = match VerifyEthereumSignature (provider.Message msg) (provider.Signature msg)
            (provider.Address msg) with
    | Some err => Err (fmt_Errorf_w "signature verification failed: " err)
    | None => Ok (identityClaim msg)
    end.
Proof.
  intros (chain & Hchain & Hnet). unfold VerifySignedMessage.
  rewrite Hchain, Hnet. cbn. reflexivity.
Qed.

Lemma VerifySignedMessage_solana p now msg :
  chainFamily p (provider.Chain msg) BlockchainSolana ->
  VerifySignedMessage p now msg
  = match verifySolanaSignature p now msg with
    | Some err => Err (fmt_Errorf_w "signature verification failed: " err)
    | None => Ok (identityClaim msg)
    end.
Proof.
  intros (chain & Hchain & Hnet). unfold VerifySignedMessage.
  rewrite Hchain, Hnet. cbn. reflexivity.
Qed.

(** The ways [VerifySignedMessage] ends, by the chain of the message. *)
Lemma VerifySignedMessage_cases p now msg :
  (chains p !! provider.Chain msg = None
   /\ VerifySignedMessage p now msg
      = Err (fmt_Errorf "unsupported blockchain: %s" [provider.Chain msg]))
  \/ (exists chain,
        chains p !! provider.Chain msg = Some chain
        /\ conf.NetworkName chain <> BlockchainEthereum
        /\ conf.NetworkName chain <> BlockchainSolana
        /\ VerifySignedMessage p now msg
           = Err (fmt_Errorf "signature verification not implemented for %s"
                    [conf.NetworkName chain]))
  \/ chainFamily p (provider.Chain msg) BlockchainEthereum
  \/ chainFamily p (provider.Chain msg) BlockchainSolana.
Proof.
  unfold chainFamily, VerifySignedMessage.
  destruct (chains p !! provider.Chain msg) as [chain|]; [|left; auto].
  destruct (decide (conf.NetworkName chain = BlockchainEthereum)) as [He|He];
    [right; right; left; eauto|].
  destruct (decide (conf.NetworkName chain = BlockchainSolana)) as [Hs|Hs];
    [right; right; right; eauto|].
  right. left. exists chain.
  rewrite (bool_decide_eq_false_2 _ He), (bool_decide_eq_false_2 _ Hs). auto.
Qed.

Lemma chainFamily_unique p chain network network' :
  chainFamily p chain network -> chainFamily p chain network' -> network = network'.
Proof. intros (c & Hc & <-) (c' & Hc' & <-). congruence. Qed.

(** X18: [VerifySignedMessage] returns an identity exactly when the chain of
    the message is in the provider's table and the verifier of its network
    returns nil: [VerifyEthereumSignature] for Ethereum,
    [verifySolanaSignature] for Solana.  The identity has the subject
    [chain:address], the custom claims [address], [chain] and [role], the
    role being [authenticated], and no e-mail address; chain and address are
    the ones submitted with the message. *)
Theorem VerifySignedMessage_identity (p : Web3Provider) (now : Time)
    (msg : provider.SignedMessage) (data : provider.UserProvidedData) :
  VerifySignedMessage p now msg = Ok data
  <-> ((chainFamily p (provider.Chain msg) BlockchainEthereum
        /\ VerifyEthereumSignature (provider.Message msg) (provider.Signature msg)
             (provider.Address msg) = None)
       \/ (chainFamily p (provider.Chain msg) BlockchainSolana
           /\ verifySolanaSignature p now msg = None))
      /\ provider.Subject (provider.Metadata data)
         = provider.Chain msg ++ ":" ++ provider.Address msg
      /\ provider.CustomClaims (provider.Metadata data)
         = {[ "address" := provider.Address msg;
              "chain" := provider.Chain msg;
              "role" := "authenticated" ]}
      /\ provider.Emails data = [].
Proof.
  split.
  - destruct (VerifySignedMessage_cases p now msg)
      as [[_ ->] | [(chain & _ & _ & _ & ->) | [Hf | Hf]]]; try discriminate.
    + rewrite (VerifySignedMessage_ethereum _ _ _ Hf).
      destruct (VerifyEthereumSignature _ _ _) eqn:Hv; [discriminate|].
      intros [= <-]. cbn. auto 10.
    + rewrite (VerifySignedMessage_solana _ _ _ Hf).
      destruct (verifySolanaSignature _ _ _) eqn:Hv; [discriminate|].
      intros [= <-]. cbn. auto 10.
  - intros (Hv & Hsub & Hcc & Hem).
    assert (data = identityClaim msg) as ->.
    { destruct data as [[cc sub] em]. cbn in *. subst. reflexivity. }
    destruct Hv as [[Hf Hv] | [Hf Hv]].
    + rewrite (VerifySignedMessage_ethereum _ _ _ Hf), Hv. reflexivity.
    + rewrite (VerifySignedMessage_solana _ _ _ Hf), Hv. reflexivity.
Qed.

(** X19: the errors of [VerifySignedMessage].  A chain that is not in the
    table is an unsupported blockchain; a chain whose network is neither
    Ethereum nor Solana has no verification; every other error wraps the
    verifier's, and for Solana the verifier's error in turn wraps the
    parser's, the base64 decoder's, or one of the sentinels of package
    [siws]. *)
Theorem VerifySignedMessage_errors (p : Web3Provider) (now : Time)
    (msg : provider.SignedMessage) (e : error) :
  VerifySignedMessage p now msg = Err e ->
  (chains p !! provider.Chain msg = None
   /\ e = fmt_Errorf "unsupported blockchain: %s" [provider.Chain msg])
  \/ (exists chain,
        chains p !! provider.Chain msg = Some chain
        /\ conf.NetworkName chain <> BlockchainEthereum
        /\ conf.NetworkName chain <> BlockchainSolana
        /\ e = fmt_Errorf "signature verification not implemented for %s"
                 [conf.NetworkName chain])
  \/ (exists cause,
        e = fmt_Errorf_w "signature verification failed: " cause
        /\ ((chainFamily p (provider.Chain msg) BlockchainEthereum
             /\ VerifyEthereumSignature (provider.Message msg)
                  (provider.Signature msg) (provider.Address msg) = Some cause)
            \/ (chainFamily p (provider.Chain msg) BlockchainSolana
                /\ ((exists err,
                       siws_ParseSIWSMessage (provider.Message msg) = Err err
                       /\ cause = fmt_Errorf_w "failed to parse SIWS message: " err)
                    \/ (exists err,
                          base64_StdEncoding_DecodeString (provider.Signature msg)
                          = Err err
                          /\ cause = fmt_Errorf_w "invalid signature encoding: " err)
                    \/ (exists kind,
                          cause = fmt_Errorf_w "SIWS verification failed: "
                                    (siws_Err kind)))))).
Proof.
  destruct (VerifySignedMessage_cases p now msg)
    as [[Hnone ->] | [(chain & Hc & He & Hs & ->) | [Hf | Hf]]].
  - intros [= <-]. left. auto.
  - intros [= <-]. right. left. exists chain. auto.
  - rewrite (VerifySignedMessage_ethereum _ _ _ Hf).
    destruct (VerifyEthereumSignature _ _ _) as [cause|] eqn:Hv; [|discriminate].
    intros [= <-]. right. right. exists cause. auto.
  - rewrite (VerifySignedMessage_solana _ _ _ Hf).
    destruct (verifySolanaSignature _ _ _) as [cause|] eqn:Hv; [|discriminate].
    intros [= <-]. right. right. exists cause. split; [reflexivity|]. right.
    split; [exact Hf|]. exact (verifySolanaSignature_error _ _ _ _ Hv).
Qed.

(** X20: on a chain of the Ethereum family the result of
    [VerifySignedMessage] is fixed by the message, the signature and the
    address alone: it is the identity when [VerifyEthereumSignature]
    returns nil, and its error wrapped otherwise.  Neither the clock nor
    the provider's configuration is read, so at any two times, and for any
    two providers with the same chain table, the result (identity or error)
    is the same: nothing checks the [Expiration Time] line of a
    challenge. *)
Theorem VerifySignedMessage_ethereum_clock (p p' : Web3Provider)
    (now later : Time) (msg : provider.SignedMessage) :
  chainFamily p (provider.Chain msg) BlockchainEthereum ->
  chains p' = chains p ->
  VerifySignedMessage p now msg
  = match VerifyEthereumSignature (provider.Message msg) (provider.Signature msg)
            (provider.Address msg) with
    | Some err => Err (fmt_Errorf_w "signature verification failed: " err)
    | None => Ok (identityClaim msg)
    end
  /\ VerifySignedMessage p' later msg = VerifySignedMessage p now msg.
Proof.
  intros Hf Hchains.
  assert (Hf' : chainFamily p' (provider.Chain msg) BlockchainEthereum)
    by (unfold chainFamily; rewrite Hchains; exact Hf).
  rewrite (VerifySignedMessage_ethereum _ _ _ Hf),
    (VerifySignedMessage_ethereum _ _ _ Hf').
  split; reflexivity.
Qed.

(** X21: on a chain of the Solana family the address submitted with the
    message is not verified.  [verifySolanaSignature] checks the signature
    against the address written in the message text and never reads the
    submitted one, so a message that is accepted is accepted with any other
    submitted address, and the identity returned is the one of that other
    address. *)
Theorem VerifySignedMessage_solana_address (p : Web3Provider) (now : Time)
    (msg : provider.SignedMessage) (address : string) :
  chainFamily p (provider.Chain msg) BlockchainSolana ->
  verifySolanaSignature p now (withAddress msg address)
  = verifySolanaSignature p now msg
  /\ (is_Ok (VerifySignedMessage p now msg) = true ->
      VerifySignedMessage p now (withAddress msg address)
      = Ok (identityClaim (withAddress msg address))
      /\ provider.Subject (provider.Metadata (identityClaim (withAddress msg address)))
         = provider.Chain msg ++ ":" ++ address).
Proof.
  intros Hf. split; [reflexivity|].
  rewrite (VerifySignedMessage_solana _ _ _ Hf).
  rewrite (VerifySignedMessage_solana p now (withAddress msg address)) by exact Hf.
  change (verifySolanaSignature p now (withAddress msg address))
    with (verifySolanaSignature p now msg).
  destruct (verifySolanaSignature p now msg); [intros Hx; discriminate Hx|].
  intros _. split; reflexivity.
Qed.

(** X22: what an accepted Solana sign-in guarantees.  The message text
    parses, the signature text decodes, the parsed domain is the provider's
    configured domain (which is not empty), the version is 1, the signature
    is one of the raw text under the public key written in the text, and
    the clock is not before [issuedAt] nor, for a positive timeout, after
    [issuedAt] plus the timeout, unless [issuedAt] is the zero time. *)
Theorem VerifySignedMessage_solana_accepted (p : Web3Provider) (now : Time)
    (msg : provider.SignedMessage) (data : provider.UserProvidedData) :
  chainFamily p (provider.Chain msg) BlockchainSolana ->
  VerifySignedMessage p now msg = Ok data ->
  exists parsedMessage sigBytes,
    siws_ParseSIWSMessage (provider.Message msg) = Ok parsedMessage
    /\ base64_StdEncoding_DecodeString (provider.Signature msg) = Ok sigBytes
    /\ conf.Domain (config p) <> EmptyString
    /\ siws.Domain parsedMessage = conf.Domain (config p)
    /\ siws.Version parsedMessage = "1"
    /\ signatureAccepted (provider.Message msg) sigBytes parsedMessage
    /\ (Time_IsZero (siws.IssuedAt parsedMessage) = true
        \/ (siws.IssuedAt parsedMessage <= now)%Z
           /\ ((0 < conf.Timeout (config p))%Z ->
               (now <= siws.IssuedAt parsedMessage + conf.Timeout (config p))%Z)).
Proof.
  intros Hf. rewrite (VerifySignedMessage_solana _ _ _ Hf).
  destruct (verifySolanaSignature p now msg) eqn:Hv; [discriminate|]. intros _.
  apply verifySolanaSignature_nil in Hv as (parsed & sigBytes & Hparse & Hdec & Hv).
  exists parsed, sigBytes.
  apply VerifySIWS_accepted in Hv
    as (((_ & Hfields) & _ & Hsig) & Hfuture & Hwindow & _).
  destruct Hfields as (Hexp & _ & Hdom & _ & Hver & _).
  repeat (split; [assumption|]).
  unfold futureGuard, windowGuard, solanaParams,
    Time_IsZero, Time_Before, Time_After, Time_Add in *.
  cbn [siws.CheckTime siws.TimeDuration andb] in Hwindow.
  destruct (Z.eqb_spec (siws.IssuedAt parsed) time_zero); [left; reflexivity|].
  right. cbn [negb andb] in *.
  apply Z.ltb_ge in Hfuture. split; [exact Hfuture|]. intros Hpos.
  apply Z.ltb_lt in Hpos. rewrite Hpos in Hwindow. cbn [andb] in Hwindow.
  apply Z.ltb_ge in Hwindow. exact Hwindow.
Qed.

End SignIn.

Section SignInRoundTrip.
Context `{ConfLib} `{EthCrypto} `{SIWSLib} `{SignInLib}.

(** The challenge [GenerateSignMessage] writes for a Solana chain passes
    steps 2 to 7 of [VerifySIWS] under the provider's own parameters once
    the configuration and the address are well formed: its nonce, a token,
    has 22 characters. *)
Lemma solanaChallenge_accepted p address uri r now :
  conf.Version (config p) = "1" ->
  conf.Domain (config p) <> EmptyString ->
  siws_IsValidDomain (conf.Domain (config p)) = true ->
  siws_IsBase58PubKey (base58_Decode address) = true ->
  (uri = EmptyString \/ is_Ok (url_Parse uri) = true) ->
  fieldsAccepted (solanaChallenge p address uri (SecureToken r).1 now)
    (solanaParams p)
  /\ urisAccepted (solanaChallenge p address uri (SecureToken r).1 now).
Proof.
  intros Hver Hdom Hvalid Hkey Huri.
  unfold fieldsAccepted, urisAccepted, solanaChallenge, solanaParams.
  cbn [siws.ExpectedDomain siws.Domain siws.Address siws.Version siws.ChainID
       siws.Nonce siws.URI siws.Resources].
  repeat split; auto.
  right. destruct (SecureToken_spec r) as (_ & -> & _). lia.
Qed.

(** X24: a Solana challenge, signed, signs in.  For a provider whose
    configured version is 1 and whose domain is well formed, a chain of the
    Solana family given by name, an address that is a public key and a URI
    that is empty or parses, [GenerateSignMessage] returns the SIWS text of
    its challenge.  When the parser reads that text back as the challenge,
    with [issuedAt] for the time it was issued, and the submitted text
    decodes to a signature of the challenge under the address,
    [VerifySignedMessage] returns the identity [chain:address] at every
    time from [issuedAt] to [issuedAt] plus the timeout, and at every later
    time too when the timeout is not positive; it reports a future message
    before [issuedAt] and an expired one after a positive timeout.  The
    token of the challenge is a nonce long enough by construction. *)
Theorem GenerateSignMessage_VerifySignedMessage_solana (p : Web3Provider)
    (address chain uri : string) (r : RandReader) (now issuedAt later : Time)
    (signature : string) (sigBytes : list byte) :
  chainFamily p chain BlockchainSolana -> chain <> EmptyString ->
  conf.Version (config p) = "1" ->
  conf.Domain (config p) <> EmptyString ->
  siws_IsValidDomain (conf.Domain (config p)) = true ->
  siws_IsBase58PubKey (base58_Decode address) = true ->
  (uri = EmptyString \/ is_Ok (url_Parse uri) = true) ->
  let text :=
    siws_ConstructMessage (solanaChallenge p address uri (SecureToken r).1 now) in
  text <> EmptyString ->
  siws_ParseSIWSMessage text
  = Ok (solanaChallenge p address uri (SecureToken r).1 issuedAt) ->
  base64_StdEncoding_DecodeString signature = Ok sigBytes ->
  sigBytes <> [] ->
  ed25519_Verify (base58_Decode address) (bytes_of_string text) sigBytes = true ->
  let msg := {| provider.Message := text; provider.Signature := signature;
                provider.Address := address; provider.Chain := chain |} in
  let rejected kind :=
    Err (fmt_Errorf_w "signature verification failed: "
           (fmt_Errorf_w "SIWS verification failed: " (siws_Err kind))) in
  GenerateSignMessage p address chain uri r now = (Ok text, (SecureToken r).2)
  /\ ((issuedAt <= later)%Z ->
      ((0 < conf.Timeout (config p))%Z ->
       (later <= issuedAt + conf.Timeout (config p))%Z) ->
      VerifySignedMessage p later msg = Ok (identityClaim msg))
  /\ (Time_IsZero issuedAt = false -> (later < issuedAt)%Z ->
      VerifySignedMessage p later msg = rejected ErrFutureMessage)
  /\ (Time_IsZero issuedAt = false -> (0 < conf.Timeout (config p))%Z ->
      (issuedAt <= later)%Z -> (issuedAt + conf.Timeout (config p) < later)%Z ->
      VerifySignedMessage p later msg = rejected ErrMessageExpired).
Proof.
  intros Hf Hchain Hver Hdom Hvalid Hkey Huri text Htext Hparse Hdec Hne Hsig
    msg rejected.
  split.
  { destruct Hf as (chainCfg & Hc & Hnet).
    apply (GenerateSignMessage_solana _ _ _ _ _ _ chainCfg); [|exact Hnet].
    unfold resolvedChain. rewrite (bool_decide_eq_false_2 _ Hchain). exact Hc. }
  destruct (solanaChallenge_accepted p address uri r issuedAt
              Hver Hdom Hvalid Hkey Huri) as [Hfields Huris].
  set (challenge := solanaChallenge p address uri (SecureToken r).1 issuedAt) in *.
  assert (Hreach : reachesTimeValidation text sigBytes challenge (solanaParams p)).
  { split; [split; [split|]; assumption|]. split; [exact Huris | exact Hsig]. }
  assert (Hverify : forall t,
    verifySolanaSignature p t msg
    = match VerifySIWS t text sigBytes (Some challenge) (solanaParams p) with
      | Some err => Some (fmt_Errorf_w "SIWS verification failed: " err)
      | None => None
      end).
  { intros t. unfold verifySolanaSignature, msg.
    cbn [provider.Message provider.Signature]. rewrite Hparse, Hdec. reflexivity. }
  rewrite (VerifySignedMessage_solana p later msg) by exact Hf.
  rewrite Hverify, (VerifySIWS_at_time_validation _ _ _ _ _ Hreach).
  unfold futureGuard, windowGuard, notBeforeGuard, expirationGuard, challenge,
    solanaChallenge, solanaParams, Time_IsZero, Time_Before, Time_After, Time_Add.
  cbn [siws.IssuedAt siws.NotBefore siws.ExpirationTime siws.CheckTime
       siws.TimeDuration].
  rewrite Z.eqb_refl. cbn [negb andb].
  destruct (Z.eqb_spec issuedAt time_zero) as [Hzero|Hzero]; cbn [negb andb].
  { split; [reflexivity|]. split; intros Hx; discriminate Hx. }
  destruct (Z.ltb_spec later issuedAt) as [Hlt|Hge].
  { split; [intros Hle; lia|]. split; [reflexivity|]. intros _ _ Hle. lia. }
  destruct (Z.ltb_spec 0 (conf.Timeout (config p))) as [Hpos|Hnonpos];
    cbn [andb].
  - destruct (Z.ltb_spec (issuedAt + conf.Timeout (config p)) later) as [Hexp|Hin].
    + split; [intros _ Hin; specialize (Hin Hpos); lia|].
      split; [intros _ Hx; lia | reflexivity].
    + split; [reflexivity|]. split; [intros _ Hx; lia | intros _ _ _ Hx; lia].
  - split; [reflexivity|]. split; [intros _ Hx; lia | intros _ Hx; lia].
Qed.

(** X25: the default chain is resolved when a challenge is written, not
    when a signed message is verified.  For a provider whose table has no
    chain under the empty name and whose default chain is of the Solana or
    the Ethereum family, [GenerateSignMessage] writes a challenge for the
    empty chain, and [VerifySignedMessage] refuses every message submitted
    with the empty chain as an unsupported blockchain. *)
Theorem VerifySignedMessage_no_default_chain (p : Web3Provider) :
  chains p !! EmptyString = None ->
  chainFamily p (defaultChain p) BlockchainSolana
  \/ chainFamily p (defaultChain p) BlockchainEthereum ->
  (forall address uri r now,
     is_Ok (GenerateSignMessage p address EmptyString uri r now).1 = true)
  /\ (forall now msg,
        provider.Chain msg = EmptyString ->
        VerifySignedMessage p now msg
        = Err (fmt_Errorf "unsupported blockchain: %s" [EmptyString])).
Proof.
  intros Hnone Hdefault. split.
  - intros address uri r now.
    destruct Hdefault as [(chainCfg & Hc & Hnet) | (chainCfg & Hc & Hnet)].
    + rewrite (GenerateSignMessage_solana _ _ _ _ _ _ chainCfg); auto.
    + rewrite (GenerateSignMessage_ethereum _ _ _ _ _ _ chainCfg); auto.
  - intros now msg Hchain. unfold VerifySignedMessage.
    rewrite Hchain, Hnone. reflexivity.
Qed.

End SignInRoundTrip.

(** ** Sign-ins at concrete inputs *)

Lemma exampleProvider_solana :
  chainFamily exampleProvider "solana-mainnet" BlockchainSolana.
Proof. eexists. split; [vm_compute; reflexivity | reflexivity]. Defined.

Lemma exampleProvider_ethereum :
  chainFamily exampleProvider "ethereum-mainnet" BlockchainEthereum.
Proof. eexists. split; [vm_compute; reflexivity | reflexivity]. Defined.

(** X20 at a concrete call: with the stand-ins, the Ethereum challenge
    written at [t0] with a timeout of five minutes gets the same result at
    [t0] and a day later, the error of the stand-in recovery. *)
Lemma VerifySignedMessage_ethereum_clock_witness :
  VerifySignedMessage (H:=Fake.ethCrypto) (H0:=Fake.siwsLib)
    (H1:=FakeSignIn.signInLib) exampleProvider t0 ethereumSignIn
  = Err (fmt_Errorf_w "signature verification failed: "
           (fmt_Errorf_w "siwe: error recovering public key: "
              (lib_error "secp256k1" "invalid signature recovery id")))
  /\ VerifySignedMessage (H:=Fake.ethCrypto) (H0:=Fake.siwsLib)
       (H1:=FakeSignIn.signInLib) exampleProvider (t0 + day)%Z ethereumSignIn
     = VerifySignedMessage (H:=Fake.ethCrypto) (H0:=Fake.siwsLib)
         (H1:=FakeSignIn.signInLib) exampleProvider t0 ethereumSignIn.
Proof.
  destruct (VerifySignedMessage_ethereum_clock (H:=Fake.ethCrypto)
              (H0:=Fake.siwsLib) (H1:=FakeSignIn.signInLib)
              exampleProvider exampleProvider t0 (t0 + day)%Z ethereumSignIn
              exampleProvider_ethereum eq_refl) as [Hnow Hlater].
  split; [|exact Hlater].
  rewrite Hnow. vm_compute. reflexivity.
Defined.

(** X21 at a concrete call: with the stand-ins, the sign-in of the all-zero
    key is accepted under another address, and gives that address's
    identity. *)
Lemma VerifySignedMessage_solana_address_witness :
  is_Ok (VerifySignedMessage (H:=Fake.ethCrypto) (H0:=Fake.siwsLib)
           (H1:=FakeSignIn.signInLib) exampleProvider t0 solanaSignIn) = true
  /\ VerifySignedMessage (H:=Fake.ethCrypto) (H0:=Fake.siwsLib)
       (H1:=FakeSignIn.signInLib) exampleProvider t0
       (withAddress solanaSignIn "22222222222222222222222222222222")
     = Ok (identityClaim (withAddress solanaSignIn "22222222222222222222222222222222"))
  /\ provider.Subject
       (provider.Metadata
          (identityClaim (withAddress solanaSignIn "22222222222222222222222222222222")))
     = "solana-mainnet:22222222222222222222222222222222".
Proof.
  assert (Hok : is_Ok (VerifySignedMessage (H:=Fake.ethCrypto)
                         (H0:=Fake.siwsLib) (H1:=FakeSignIn.signInLib)
                         exampleProvider t0 solanaSignIn) = true)
    by (vm_compute; reflexivity).
  split; [exact Hok|].
  destruct (VerifySignedMessage_solana_address (H:=Fake.ethCrypto)
              (H0:=Fake.siwsLib) (H1:=FakeSignIn.signInLib)
              exampleProvider t0 solanaSignIn "22222222222222222222222222222222"
              exampleProvider_solana) as [_ Haccepted].
  exact (Haccepted Hok).
Defined.

(** X22 at a concrete call. *)
Lemma VerifySignedMessage_solana_accepted_witness :
  exists parsedMessage sigBytes,
    siws_ParseSIWSMessage (SignInLib:=FakeSignIn.signInLib) challengeText
    = Ok parsedMessage
    /\ base64_StdEncoding_DecodeString (SignInLib:=FakeSignIn.signInLib)
         challengeSignature = Ok sigBytes
    /\ conf.Domain exampleConfig <> EmptyString
    /\ siws.Domain parsedMessage = "example.com"
    /\ siws.Version parsedMessage = "1"
    /\ signatureAccepted (H:=Fake.siwsLib) challengeText sigBytes parsedMessage
    /\ (Time_IsZero (siws.IssuedAt parsedMessage) = true
        \/ (siws.IssuedAt parsedMessage <= t0 + 60 * time_Second)%Z
           /\ ((0 < conf.Timeout exampleConfig)%Z ->
               (t0 + 60 * time_Second
                <= siws.IssuedAt parsedMessage + conf.Timeout exampleConfig)%Z)).
Proof.
  apply (VerifySignedMessage_solana_accepted (H:=Fake.ethCrypto)
           (H0:=Fake.siwsLib) (H1:=FakeSignIn.signInLib)
           exampleProvider (t0 + 60 * time_Second)%Z solanaSignIn
           (identityClaim solanaSignIn) exampleProvider_solana).
  vm_compute. reflexivity.
Defined.

(** X24 at a concrete call: with the stand-ins, the challenge of [t0],
    signed, signs in a minute later, and is expired after 301 seconds. *)
Lemma GenerateSignMessage_VerifySignedMessage_solana_witness :
  GenerateSignMessage (H:=Fake.confLib) (H0:=Fake.siwsLib) exampleProvider
    solanaAddress "solana-mainnet" "https://example.com" sevens t0
  = (Ok challengeText, (SecureToken sevens).2)
  /\ VerifySignedMessage (H:=Fake.ethCrypto) (H0:=Fake.siwsLib)
       (H1:=FakeSignIn.signInLib) exampleProvider (t0 + 60 * time_Second)%Z
       solanaSignIn
     = Ok (identityClaim solanaSignIn)
  /\ VerifySignedMessage (H:=Fake.ethCrypto) (H0:=Fake.siwsLib)
       (H1:=FakeSignIn.signInLib) exampleProvider (t0 + 301 * time_Second)%Z
       solanaSignIn
     = Err (fmt_Errorf_w "signature verification failed: "
              (fmt_Errorf_w "SIWS verification failed: "
                 (siws_Err ErrMessageExpired))).
Proof.
  assert (Hround : forall later,
    GenerateSignMessage (H:=Fake.confLib) (H0:=Fake.siwsLib) exampleProvider
      solanaAddress "solana-mainnet" "https://example.com" sevens t0
    = (Ok challengeText, (SecureToken sevens).2)
    /\ ((t0 <= later)%Z ->
        ((0 < conf.Timeout exampleConfig)%Z ->
         (later <= t0 + conf.Timeout exampleConfig)%Z) ->
        VerifySignedMessage (H:=Fake.ethCrypto) (H0:=Fake.siwsLib)
          (H1:=FakeSignIn.signInLib) exampleProvider later solanaSignIn
        = Ok (identityClaim solanaSignIn))
    /\ (Time_IsZero t0 = false -> (0 < conf.Timeout exampleConfig)%Z ->
        (t0 <= later)%Z -> (t0 + conf.Timeout exampleConfig < later)%Z ->
        VerifySignedMessage (H:=Fake.ethCrypto) (H0:=Fake.siwsLib)
          (H1:=FakeSignIn.signInLib) exampleProvider later solanaSignIn
        = Err (fmt_Errorf_w "signature verification failed: "
                 (fmt_Errorf_w "SIWS verification failed: "
                    (siws_Err ErrMessageExpired))))).
  { intros later.
    destruct (GenerateSignMessage_VerifySignedMessage_solana
                (H:=Fake.confLib) (H0:=Fake.ethCrypto) (H1:=Fake.siwsLib)
                (H2:=FakeSignIn.signInLib)
                exampleProvider solanaAddress "solana-mainnet"
                "https://example.com" sevens t0 t0 later challengeSignature
                (Fake.sign (replicate 32 Byte.x00) (bytes_of_string challengeText))
                exampleProvider_solana) as (Hgen & Hin & _ & Hout).
    - intros Hx. discriminate Hx.
    - reflexivity.
    - intros Hx. discriminate Hx.
    - reflexivity.
    - reflexivity.
    - right. reflexivity.
    - intros Hx. discriminate Hx.
    - vm_compute. reflexivity.
    - vm_compute. reflexivity.
    - intros Hx. discriminate Hx.
    - vm_compute. reflexivity.
    - split; [exact Hgen|]. split; assumption. }
  split; [apply (Hround t0)|]. split.
  - apply Hround; [vm_compute; discriminate|]. intros _. vm_compute. discriminate.
  - apply Hround; [reflexivity | reflexivity | vm_compute; discriminate | reflexivity].
Defined.

(** X25 at a concrete provider: the example provider writes a challenge for
    the empty chain and verifies no message submitted with it. *)
Lemma VerifySignedMessage_no_default_chain_witness :
  (forall address uri r now,
     is_Ok (GenerateSignMessage (H:=Fake.confLib) (H0:=Fake.siwsLib)
              exampleProvider address EmptyString uri r now).1 = true)
  /\ (forall now msg,
        provider.Chain msg = EmptyString ->
        VerifySignedMessage (H:=Fake.ethCrypto) (H0:=Fake.siwsLib)
          (H1:=FakeSignIn.signInLib) exampleProvider now msg
        = Err (fmt_Errorf "unsupported blockchain: %s" [EmptyString])).
Proof.
  apply (VerifySignedMessage_no_default_chain (H:=Fake.confLib)
           (H0:=Fake.ethCrypto) (H1:=Fake.siwsLib) (H2:=FakeSignIn.signInLib)
           exampleProvider).
  - vm_compute. reflexivity.
  - right. exact exampleProvider_ethereum.
Defined.

(** X19 at a concrete call: with the stand-ins, the signed challenge of
    [t0] is refused 301 seconds later, and the error wraps the verifier's,
    which wraps the sentinel. *)
Lemma VerifySignedMessage_errors_witness :
  VerifySignedMessage (H:=Fake.ethCrypto) (H0:=Fake.siwsLib)
    (H1:=FakeSignIn.signInLib) exampleProvider (t0 + 301 * time_Second)%Z
    solanaSignIn
  = Err (fmt_Errorf_w "signature verification failed: "
           (fmt_Errorf_w "SIWS verification failed: "
              (siws_Err ErrMessageExpired)))
  /\ exists cause kind,
       VerifySignedMessage (H:=Fake.ethCrypto) (H0:=Fake.siwsLib)
         (H1:=FakeSignIn.signInLib) exampleProvider (t0 + 301 * time_Second)%Z
         solanaSignIn
       = Err (fmt_Errorf_w "signature verification failed: " cause)
       /\ cause = fmt_Errorf_w "SIWS verification failed: " (siws_Err kind).
Proof.
  assert (Herr : VerifySignedMessage (H:=Fake.ethCrypto) (H0:=Fake.siwsLib)
                   (H1:=FakeSignIn.signInLib) exampleProvider
                   (t0 + 301 * time_Second)%Z solanaSignIn
                 = Err (fmt_Errorf_w "signature verification failed: "
                          (fmt_Errorf_w "SIWS verification failed: "
                             (siws_Err ErrMessageExpired))))
    by (vm_compute; reflexivity).
  split; [exact Herr|].
  destruct (VerifySignedMessage_errors (H:=Fake.ethCrypto) (H0:=Fake.siwsLib)
              (H1:=FakeSignIn.signInLib) exampleProvider
              (t0 + 301 * time_Second)%Z solanaSignIn _ Herr)
    as [[Hx _] | [(chain & Hc & _ & Hs & _) | (cause & Hcause & _)]].
  - vm_compute in Hx. discriminate Hx.
  - vm_compute in Hc. injection Hc as <-. destruct Hs. reflexivity.
  - injection Hcause as <-. eexists _, _. split; [exact Herr | reflexivity].
Defined.
